(** * kernel_gate: reconciliation of ISIS records with the SciELO Kernel

    A shallow embedding of [airflow/dags/kernel_gate.py] and the properties
    of its identifier derivation, issue mapping, create-or-update protocol
    and journal/issue membership linker.

    Python values are embedded as a small JSON-like datatype, dictionaries
    as insertion-ordered association lists, exceptions as an error monad,
    and the HTTP traffic as explicit state passing over a world that holds
    the registry state, the requests sent so far and the log.

    A string stands for a [str] of ASCII characters.  Where the code's
    behaviour depends on what a character is ([isdigit], [int], [upper]),
    the definitions follow Python on ASCII text only, and the statements
    that depend on them carry the hypothesis that the text is ASCII
    ([PyStr.is_ascii]): on other text Python differs, e.g. on the
    superscript two (U+00B2) [isdigit] holds while [int] raises. *)

From Stdlib Require Import String Ascii List ZArith NArith Bool Lia.
From Stdlib Require Import DecimalString DecimalN DecimalFacts.
Import ListNotations.
Local Open Scope string_scope.
Local Open Scope Z_scope.

Set Implicit Arguments.
Set Warnings "-register-all".


(* ================================================================== *)
(** * Python exceptions and results *)

Inductive exn : Type :=
| ValueError
| TypeError
| KeyError
| AttributeError
| AirflowException
| ConnectionError
| OverflowError.

Inductive result (A : Type) : Type :=
| Returned (a : A)
| Raised (e : exn).
Arguments Returned {A} a.
Arguments Raised {A} e.

Definition rbind {A B} (c : result A) (k : A -> result B) : result B :=
  match c with
  | Returned a => k a
  | Raised e => Raised e
  end.

(** Monadic left fold: a [for] loop whose body may raise. *)
Fixpoint rfold {A B} (f : A -> B -> result A) (a : A) (l : list B) : result A :=
  match l with
  | [] => Returned a
  | x :: r => rbind (f a x) (fun a' => rfold f a' r)
  end.

(** A comprehension whose element expression may raise. *)
Fixpoint rmap {A B} (f : A -> result B) (l : list A) : result (list B) :=
  match l with
  | [] => Returned []
  | x :: r => rbind (f x) (fun y => rbind (rmap f r) (fun ys => Returned (y :: ys)))
  end.

(** A comprehension with an [if] clause that may raise. *)
Fixpoint rfilter {A} (p : A -> result bool) (l : list A) : result (list A) :=
  match l with
  | [] => Returned []
  | x :: r =>
      rbind (p x) (fun b =>
      rbind (rfilter p r) (fun ys => Returned (if b then x :: ys else ys)))
  end.

(* ================================================================== *)
(** * Python strings: [isdigit], [int], [str], [join] *)

Module PyStr.

(** A string of ASCII characters only. *)
Fixpoint is_ascii (s : string) : bool :=
  match s with
  | EmptyString => true
  | String c r => (nat_of_ascii c <? 128)%nat && is_ascii r
  end.

Definition is_digit (c : ascii) : bool :=
  match c with
  | "0" | "1" | "2" | "3" | "4" | "5" | "6" | "7" | "8" | "9" => true
  | _ => false
  end%char.

Fixpoint all_digits (s : string) : bool :=
  match s with
  | EmptyString => true
  | String c r => is_digit c && all_digits r
  end.

(** [s.isdigit()] on ASCII text: at least one character and all of them
    digits. *)
Definition isdigit (s : string) : bool :=
  match s with
  | EmptyString => false
  | _ => all_digits s
  end.

(** Truth value of a string: non-empty. *)
Definition nonempty (s : string) : bool :=
  match s with
  | EmptyString => false
  | _ => true
  end.

(** The whitespace that [int] skips before and after a literal: tab,
    line feed, vertical tab, form feed, carriage return and space. *)
Definition is_space (c : ascii) : bool :=
  let n := nat_of_ascii c in
  (((9 <=? n) && (n <=? 13)) || (n =? 32))%nat.

Fixpoint lstrip (s : string) : string :=
  match s with
  | String c r => if is_space c then lstrip r else s
  | EmptyString => EmptyString
  end.

Fixpoint rstrip (s : string) : string :=
  match s with
  | String c r =>
      match rstrip r with
      | EmptyString => if is_space c then EmptyString else String c EmptyString
      | r' => String c r'
      end
  | EmptyString => EmptyString
  end.

Definition strip (s : string) : string := rstrip (lstrip s).

(** The digits of an integer literal: single underscores are allowed
    between digits and dropped. *)
Fixpoint literal_digits (s : string) (after_digit : bool) : option string :=
  match s with
  | EmptyString => if after_digit then Some EmptyString else None
  | String c r =>
      if is_digit c then option_map (String c) (literal_digits r true)
      else if Ascii.eqb c "_" && after_digit then literal_digits r false
      else None
  end.

Definition nat_literal (s : string) : option N :=
  match literal_digits s false with
  | Some ds => option_map N.of_uint (NilEmpty.uint_of_string ds)
  | None => None
  end.

(** [int(s)] for a string [s] of ASCII text: surrounding whitespace, an
    optional sign, decimal digits with single underscores between them;
    anything else is a [ValueError]. *)
Definition int (s : string) : result Z :=
  match strip s with
  | String "-" r =>
      match nat_literal r with
      | Some n => Returned (- Z.of_N n)
      | None => Raised ValueError
      end
  | String "+" r =>
      match nat_literal r with
      | Some n => Returned (Z.of_N n)
      | None => Raised ValueError
      end
  | t =>
      match nat_literal t with
      | Some n => Returned (Z.of_N n)
      | None => Raised ValueError
      end
  end.

(** [str(z)] for an integer: its decimal rendering. *)
Definition str (z : Z) : string := NilZero.string_of_int (Z.to_int z).

(** [sep.join(l)]. *)
Definition join (sep : string) (l : list string) : string := String.concat sep l.

End PyStr.

(* ================================================================== *)
(** * Identifier deriver *)

(** Truthiness of an optional string argument ([None] and [""] are falsy). *)
Definition truthy_str (v : option string) : bool :=
  match v with
  | Some s => PyStr.nonempty s
  | None => false
  end.

(** [data.get(label)] on the dictionary built by [dict(zip(labels, values))];
    a label that was never bound yields [None]. *)
Fixpoint data_get (data : list (string * option string)) (label : string)
  : option string :=
  match data with
  | [] => None
  | (l, v) :: r => if String.eqb l label then v else data_get r label
  end.

(** [dict([...])]: a later binding of a key replaces the earlier value and
    keeps its place. *)
Fixpoint data_set (data : list (string * option string)) (label : string)
  (v : option string) : list (string * option string) :=
  match data with
  | [] => [(label, v)]
  | (l, w) :: r =>
      if String.eqb l label then (l, v) :: r else (l, w) :: data_set r label v
  end.

Definition data_of_pairs (ps : list (string * option string))
  : list (string * option string) :=
  fold_left (fun d p => data_set d (fst p) (snd p)) ps [].

Definition issue_id (issn_id year volume number supplement : option string)
  : result string :=
  let labels := ["issn_id"; "year"; "volume"; "number"; "supplement"] in
  let values := [issn_id; year; volume; number; supplement] in
  let data := data_of_pairs (combine labels values) in
  let labels := ["issn_id"; "year"] in
  let _id :=
    fold_left
      (fun _id label =>
         let value := data_get data label in
         match value with
         | Some s => if PyStr.nonempty s then (_id ++ [s])%list else _id
         | None => _id
         end)
      labels [] in
  let labels := [("volume", "v"); ("number", "n"); ("supplement", "s")] in
  rbind
    (rfold
       (fun _id (lp : string * string) =>
          let (label, prefix) := lp in
          let value := data_get data label in
          match value with
          | Some s =>
              if PyStr.nonempty s then
                rbind
                  (if PyStr.isdigit s
                   then rbind (PyStr.int s) (fun n => Returned (PyStr.str n))
                   else Returned s)
                  (fun s' => Returned (_id ++ [(prefix ++ s')%string])%list)
              else Returned _id
          | None => Returned _id
          end)
       _id labels)
    (fun _id => Returned (PyStr.join "-" _id)).

(* ================================================================== *)
(** * Python values *)

(** The JSON-like values that payloads and registry documents are made
    of.  A dictionary is an association list in insertion order; a
    well-formed one binds each key once ([dict_wf]). *)
Inductive value : Type :=
| VNone
| VBool (b : bool)
| VInt (z : Z)
| VStr (s : string)
| VList (l : list value)
| VDict (d : list (string * value)).

Definition dict : Type := list (string * value).

Definition keys {V} (d : list (string * V)) : list string := map fst d.

Definition dict_wf {V} (d : list (string * V)) : Prop := NoDup (keys d).

(** Truth value of a Python object. *)
Definition truthy (v : value) : bool :=
  match v with
  | VNone => false
  | VBool b => b
  | VInt z => negb (z =? 0)
  | VStr s => PyStr.nonempty s
  | VList l => match l with [] => false | _ => true end
  | VDict d => match d with [] => false | _ => true end
  end.

(** Lookup of the first binding of a key. *)
Fixpoint lookup {V} (k : string) (d : list (string * V)) : option V :=
  match d with
  | [] => None
  | (k', v) :: r => if String.eqb k' k then Some v else lookup k r
  end.

(** [d[k] = v]: replaces the value of a bound key in place, appends a
    new key at the end. *)
Fixpoint dict_set {V} (d : list (string * V)) (k : string) (v : V)
  : list (string * V) :=
  match d with
  | [] => [(k, v)]
  | (k', w) :: r =>
      if String.eqb k' k then (k', v) :: r else (k', w) :: dict_set r k v
  end.

(** [d.get(k)] on a dictionary of values: [None] for a missing key. *)
Definition dict_get (d : dict) (k : string) : value :=
  match lookup k d with
  | Some v => v
  | None => VNone
  end.

(** [o.get(k)] on an arbitrary object: only dictionaries have [get]. *)
Definition py_get (o : value) (k : string) : result value :=
  match o with
  | VDict d => Returned (dict_get d k)
  | _ => Raised AttributeError
  end.

(** [o[k]] with a string key. *)
Definition py_getitem (o : value) (k : string) : result value :=
  match o with
  | VDict d =>
      match lookup k d with
      | Some v => Returned v
      | None => Raised KeyError
      end
  | _ => Raised TypeError
  end.

(** [d.pop(k)]: the value and the dictionary without the key. *)
Definition dict_pop (d : dict) (k : string) : result (value * dict) :=
  match lookup k d with
  | Some v => Returned (v, filter (fun kv => negb (String.eqb (fst kv) k)) d)
  | None => Raised KeyError
  end.

(** Python's [==] on values.  Booleans are integers ([True == 1]); lists
    compare position by position; dictionaries compare as finite maps,
    whatever their insertion order. *)
Fixpoint py_eq (a b : value) {struct a} : bool :=
  match a, b with
  | VNone, VNone => true
  | VBool x, VBool y => Bool.eqb x y
  | VBool x, VInt y => (if x then 1 else 0) =? y
  | VInt x, VBool y => x =? (if y then 1 else 0)
  | VInt x, VInt y => x =? y
  | VStr x, VStr y => String.eqb x y
  | VList la, VList lb =>
      (fix go (xs ys : list value) {struct xs} : bool :=
         match xs, ys with
         | [], [] => true
         | x :: xs', y :: ys' => py_eq x y && go xs' ys'
         | _, _ => false
         end) la lb
  | VDict da, VDict db =>
      (length da =? length db)%nat &&
      (fix go (d : list (string * value)) : bool :=
         match d with
         | [] => true
         | (k, v) :: r =>
             match lookup k db with
             | Some w => py_eq v w && go r
             | None => false
             end
         end) da
  | _, _ => false
  end.

(** [a or b] on optional strings: the first truthy operand, else the last. *)
Definition or_str (a : option string) (b : string) : string :=
  match a with
  | Some s => if PyStr.nonempty s then s else b
  | None => b
  end.

(* ================================================================== *)
(** * Issue records as read through xylose *)

(** The values of [Issue.type].  xylose returns one of five string
    literals, so the identity test [issue.type is "supplement"] and the
    equality tests of [filter_issues] are both tests on this tag. *)
Inductive issue_type : Type :=
| ahead
| regular
| supplement
| special
| pressrelease.

Definition issue_type_eqb (a b : issue_type) : bool :=
  match a, b with
  | ahead, ahead | regular, regular | supplement, supplement
  | special, special | pressrelease, pressrelease => true
  | _, _ => false
  end.

(** The attributes of an [Issue] that the DAG reads.  [v35] and [v36]
    stand for the first occurrence of the raw fields
    [data["issue"]["v35"][0]["_"]] and [data["issue"]["v36"][0]["_"]],
    [None] when the field is missing. *)
Record Issue : Type := {
  type : issue_type;
  volume : option string;
  number : option string;
  supplement_volume : option string;
  supplement_number : option string;
  titles : option (list (string * string));
  start_month : option string;
  end_month : option string;
  publication_date : option string;
  v35 : option string;
  v36 : option string
}.

(** An optional label of ASCII text. *)
Definition ascii_label (v : option string) : bool :=
  match v with
  | Some s => PyStr.is_ascii s
  | None => true
  end.

(** A record whose labels, months and position are ASCII text. *)
Definition ascii_issue (issue : Issue) : bool :=
  ascii_label (volume issue) && ascii_label (number issue)
  && ascii_label (supplement_volume issue)
  && ascii_label (supplement_number issue)
  && ascii_label (start_month issue) && ascii_label (end_month issue)
  && ascii_label (v36 issue).

Record datetime : Type := {
  year : Z;
  month : Z;
  day : Z
}.

Definition filter_issues (issues : list Issue) : list Issue :=
  let filters :=
    [ (fun issue : Issue => negb (issue_type_eqb (type issue) pressrelease));
      (fun issue : Issue => negb (issue_type_eqb (type issue) ahead)) ] in
  fold_left (fun issues f => filter f issues) filters issues.

(** [sorted(set(l))] for a two-element list of integers. *)
Definition sorted_set2 (a b : Z) : list Z :=
  if a =? b then [a] else [Z.min a b; Z.max a b].

Section IssueMapping.

(** [datetime.strptime(date, format)] of the standard library. *)
Variable strptime : string -> string -> result datetime.

Definition parse_date (date : string) : result datetime :=
  match strptime date "%Y-%m-%d" with
  | Raised ValueError =>
      match strptime date "%Y-%m" with
      | Raised ValueError => strptime date "%Y"
      | r => r
      end
  | r => r
  end.

Definition language_values (d : list (string * string)) : value :=
  VList (map (fun lv => VDict [("language", VStr (fst lv));
                               ("value", VStr (snd lv))]) d).

(** The [publication_season] entry: both months present, as the sorted
    set of their integer values; else empty. *)
Definition publication_season (issue : Issue) : result value :=
  match start_month issue, end_month issue with
  | Some sm, Some em =>
      if PyStr.nonempty sm && PyStr.nonempty em then
        rbind (PyStr.int sm) (fun a =>
        rbind (PyStr.int em) (fun b =>
        Returned (VList (map VInt (sorted_set2 a b)))))
      else Returned (VList [])
  | _, _ => Returned (VList [])
  end.

Definition issue_as_kernel (issue : Issue) : result dict :=
  let _payload : dict := [] in
  let _payload := dict_set _payload "volume" (VStr (or_str (volume issue) "")) in
  let _payload := dict_set _payload "number" (VStr (or_str (number issue) "")) in
  let _payload :=
    if issue_type_eqb (type issue) supplement then
      dict_set _payload "supplement"
        (VStr (or_str (supplement_volume issue)
                 (or_str (supplement_number issue) "0")))
    else _payload in
  let _payload :=
    match titles issue with
    | Some ((_ :: _) as t) => dict_set _payload "titles" (language_values t)
    | _ => dict_set _payload "titles" (VList [])
    end in
  rbind (publication_season issue) (fun season =>
  let _payload := dict_set _payload "publication_season" season in
  rbind
    (match v35 issue with
     | Some j => Returned j
     | None => Raised TypeError
     end)
    (fun issn_id =>
  rbind
    (match publication_date issue with
     | Some d => parse_date d
     | None => Raised TypeError
     end)
    (fun _creation_date =>
  rbind
    (issue_id (Some issn_id) (Some (PyStr.str (year _creation_date)))
       (volume issue) (number issue)
       (match dict_get _payload "supplement" with
        | VStr s => Some s
        | _ => None
        end))
    (fun i => Returned (dict_set _payload "_id" (VStr i)))))).

End IssueMapping.

(* ================================================================== *)
(** * HTTP traffic with the Kernel *)

Inductive http_method : Type := GET | PUT | PATCH.

(** A request as sent by [HttpHook.run]; [req_data] is the JSON document
    given to [json.dumps], [None] when no body is sent. *)
Record request : Type := {
  req_method : http_method;
  req_endpoint : string;
  req_data : option value
}.

(** A response: its status code and the document [response.json()]
    decodes, [None] when the body is not JSON. *)
Record response : Type := {
  status_code : Z;
  body : option value
}.

(** What the network gives back for a request. *)
Inductive reply : Type :=
| Responded (r : response)
| Unreachable.

Inductive log_level : Type := INFO | WARNING.

(** The world a task runs in: the registry, the requests sent so far
    (oldest first) and the log records written so far. *)
Record world (K : Type) : Type := {
  kernel : K;
  sent : list request;
  logged : list (log_level * string)
}.

Definition NOT_FOUND : Z := 404.
Definition OK : Z := 200.

Definition KERNEL_API_JOURNAL_ENDPOINT : string := "/journals/".
Definition KERNEL_API_BUNDLES_ENDPOINT : string := "/bundles/".
Definition KERNEL_API_JOURNAL_BUNDLES_ENDPOINT (journal_id : string) : string :=
  "/journals/" ++ journal_id ++ "/issues".

(** The bounds of a list index, a C [Py_ssize_t] of 64 bits. *)
Definition PY_SSIZE_T_MAX : Z := 2 ^ 63 - 1.
Definition PY_SSIZE_T_MIN : Z := - 2 ^ 63.

(** Insertion before index [i]: a negative index counts from the end, and
    the index is clamped to the bounds of the list. *)
Definition insert_at {A} (l : list A) (i : Z) (x : A) : list A :=
  let n := Z.of_nat (length l) in
  let i := if i <? 0 then Z.max 0 (i + n) else Z.min i n in
  (firstn (Z.to_nat i) l ++ x :: skipn (Z.to_nat i) l)%list.

(** [l.insert(i, x)]: an integer that does not fit a list index raises
    [OverflowError]; an index that fits is clamped to the bounds of the
    list. *)
Definition list_insert {A} (l : list A) (i : Z) (x : A) : result (list A) :=
  if (i <? PY_SSIZE_T_MIN) || (PY_SSIZE_T_MAX <? i) then Raised OverflowError
  else Returned (insert_at l i x).

(** [d.setdefault(k, v)] for its effect on [d]. *)
Definition setdefault {V} (d : list (string * V)) (k : string) (v : V)
  : list (string * V) :=
  match lookup k d with
  | Some _ => d
  | None => (d ++ [(k, v)])%list
  end.

(** [x in l] for a list of values. *)
Definition py_in (x : value) (l : list value) : bool :=
  existsb (fun y => py_eq y x) l.

Section Gate.

(** The registry: its state and how it answers a request. *)
Variable K : Type.
Variable serve : K -> request -> K * reply.

(** [bool(DeepDiff(t1, t2, ignore_order=io))]: whether the diff of the
    two documents is non-empty. *)
Variable DeepDiff : bool -> value -> value -> bool.

Variable strptime : string -> string -> result datetime.

(** Computations that send requests, write log records and may raise. *)
Definition M (A : Type) : Type := world K -> world K * result A.

Definition ret {A} (a : A) : M A := fun w => (w, Returned a).

Definition bind {A B} (c : M A) (k : A -> M B) : M B :=
  fun w =>
    match c w with
    | (w', Returned a) => k a w'
    | (w', Raised e) => (w', Raised e)
    end.

Definition lift {A} (r : result A) : M A := fun w => (w, r).

(** [try: c except (AirflowException): h]. *)
Definition try_except_AirflowException {A} (c : M A) (h : M A) : M A :=
  fun w =>
    match c w with
    | (w', Raised AirflowException) => h w'
    | o => o
    end.

Definition logging (level : log_level) (msg : string) : M unit :=
  fun w =>
    ({| kernel := kernel w;
        sent := sent w;
        logged := (logged w ++ [(level, msg)])%list |}, Returned tt).

(** A [for] loop over a list whose body is a computation. *)
Fixpoint for_each {A} (l : list A) (body : A -> M unit) : M unit :=
  match l with
  | [] => ret tt
  | x :: r => bind (body x) (fun _ => for_each r body)
  end.

(** [HttpHook(method=...).run(endpoint, data, extra_options)]: the
    request is sent; a connection failure is raised; with
    [check_response] a 4xx or 5xx status raises [AirflowException]. *)
Definition HttpHook_run (method : http_method) (endpoint : string)
    (data : option value) (check_response : bool) : M response :=
  fun w =>
    let req := {| req_method := method;
                  req_endpoint := endpoint;
                  req_data := data |} in
    let (k', out) := serve (kernel w) req in
    let w' := {| kernel := k';
                 sent := (sent w ++ [req])%list;
                 logged := logged w |} in
    match out with
    | Unreachable => (w', Raised ConnectionError)
    | Responded r =>
        if check_response && (400 <=? status_code r) && (status_code r <? 600)
        then (w', Raised AirflowException)
        else (w', Returned r)
    end.

(** [response.json()]. *)
Definition response_json (r : response) : result value :=
  match body r with
  | Some v => Returned v
  | None => Raised ValueError
  end.

Definition register_or_update (_id : string) (payload : dict)
    (entity_url : string) : M response :=
  bind (HttpHook_run GET (entity_url ++ _id) None false) (fun response =>
  if status_code response =? NOT_FOUND then
    let payload := filter (fun kv => truthy (snd kv)) payload in
    HttpHook_run PUT (entity_url ++ _id) (Some (VDict payload)) false
  else if status_code response =? OK then
    bind (lift (rbind (response_json response)
                  (fun j => py_getitem j "metadata"))) (fun _metadata =>
    bind (lift (rfilter
                  (fun kv : string * value =>
                     let (k, v) := kv in
                     rbind (py_get _metadata k) (fun m =>
                     if truthy m then Returned true
                     else rbind (py_get _metadata k) (fun m' =>
                          Returned (py_eq m' v || truthy v))))
                  payload)) (fun payload =>
    if DeepDiff true _metadata (VDict payload) then
      HttpHook_run PATCH (entity_url ++ _id) (Some (VDict payload)) false
    else ret response))
  else ret response).

(** [process_issues], from the decoded issue records on: every mapped
    issue is registered and the response of the call is discarded. *)
Definition process_issues (issues : list Issue) : M unit :=
  let issues := filter_issues issues in
  bind (lift (rmap (issue_as_kernel strptime) issues)) (fun issues_as_kernel =>
  for_each issues_as_kernel (fun issue =>
    bind (lift (dict_pop issue "_id")) (fun popped =>
    let (_id, issue) := popped in
    match _id with
    | VStr _id =>
        bind (register_or_update _id issue KERNEL_API_BUNDLES_ENDPOINT)
             (fun _ => ret tt)
    | _ => lift (Raised TypeError)
    end))).

(** What the loop of [mount_journals_issues_link] reads from one issue:
    its derived id, its declared position and its journal. *)
Definition issue_link (issue : Issue) : result (value * Z * string) :=
  rbind (rbind (issue_as_kernel strptime issue)
               (fun p => dict_pop p "_id")) (fun popped =>
  let issue_id := fst popped in
  rbind (match v36 issue with
         | Some s => PyStr.int s
         | None => Raised KeyError
         end) (fun issue_position =>
  rbind (match v35 issue with
         | Some j => Returned j
         | None => Raised TypeError
         end) (fun journal_id =>
  Returned (issue_id, issue_position, journal_id)))).

(** The body of the loop of [mount_journals_issues_link]. *)
Definition mount_step (journal_issues : list (string * list value))
    (issue : Issue) : result (list (string * list value)) :=
  rbind (issue_link issue) (fun link =>
  let '(issue_id, issue_position, journal_id) := link in
  let journal_issues := setdefault journal_issues journal_id [] in
  match lookup journal_id journal_issues with
  | Some group =>
      if negb (py_in issue_id group) then
        rbind (list_insert group issue_position issue_id) (fun group =>
        Returned (dict_set journal_issues journal_id group))
      else Returned journal_issues
  | None => Raised KeyError
  end).

Definition mount_journals_issues_link (issues : list Issue)
  : result (list (string * list value)) :=
  let journal_issues := [] in
  let issues := filter_issues issues in
  rfold mount_step journal_issues issues.

Definition update_journals_and_issues_link
    (journal_issues : list (string * list value)) : M unit :=
  for_each journal_issues (fun ji =>
    let (journal_id, issues) := ji in
    try_except_AirflowException
      (bind (HttpHook_run GET (KERNEL_API_JOURNAL_ENDPOINT ++ journal_id)
               None true) (fun response =>
       bind (lift (rbind (response_json response)
                     (fun j => py_getitem j "items"))) (fun journal_items =>
       if DeepDiff false journal_items (VList issues) then
         let BUNDLE_URL := KERNEL_API_JOURNAL_BUNDLES_ENDPOINT journal_id in
         bind (HttpHook_run PUT BUNDLE_URL (Some (VList issues)) true)
              (fun response =>
         logging INFO ("updating bundles of journal " ++ journal_id))
       else ret tt)))
      (logging WARNING ("journal " ++ journal_id ++ " cannot be found"))).

End Gate.

(* ================================================================== *)
(** * Journal records and the tasks of the DAG *)

(** The attributes of a xylose [Journal] that the DAG reads; [None]
    stands for a missing field.  An entry of [status_history] is a
    triple of a date, a status and a reason. *)
Record Journal : Type := {
  scielo_issn : option string;
  mission : option (list (string * string));
  title : option string;
  abbreviated_iso_title : option string;
  abbreviated_title : option string;
  acronym : option string;
  print_issn : option string;
  electronic_issn : option string;
  status_history : option (list (string * string * option string));
  subject_areas : option (list string);
  sponsors : option (list string);
  wos_subject_areas : option (list string);
  submission_url : option string;
  next_title : option string;
  previous_title : option string;
  editor_email : option string;
  editor_address : option string
}.

(** [c.upper()] for a character: the letters [a] to [z]. *)
Definition upper_char (c : ascii) : ascii :=
  let n := nat_of_ascii c in
  if ((97 <=? n) && (n <=? 122))%nat then ascii_of_nat (n - 32) else c.

(** [s.upper()] on ASCII text. *)
Fixpoint upper (s : string) : string :=
  match s with
  | EmptyString => EmptyString
  | String c r => String (upper_char c) (upper r)
  end.

(** An optional string as a value: [None] or the string. *)
Definition value_of_option (o : option string) : value :=
  match o with
  | Some s => VStr s
  | None => VNone
  end.

(** The body of the loop over [journal.subject_areas]. *)
Definition subject_area_step (areas : list value) (subject_area : string)
  : list value :=
  let subject_area :=
    if String.eqb (upper subject_area) "LINGUISTICS, LETTERS AND ARTS"
    then "LINGUISTIC, LITERATURE AND ARTS"
    else subject_area in
  (areas ++ [VStr (upper subject_area)])%list.

(** The blocks of [journal_as_kernel], one per entry that is built in
    several statements.  A nested dictionary is shared with the payload
    that holds it, so an entry set in it shows in the payload. *)
Definition set_mission (journal : Journal) (_payload : dict) : dict :=
  match mission journal with
  | Some ((_ :: _) as m) => dict_set _payload "mission" (language_values m)
  | _ => dict_set _payload "mission" (VList [])
  end.

Definition set_status (journal : Journal) (_payload : dict) : dict :=
  let _payload := dict_set _payload "status" (VDict []) in
  match status_history journal with
  | Some (h :: t) =>
      let _status := last (h :: t) h in
      let status := dict_set [] "status" (VStr (snd (fst _status))) in
      let status :=
        match snd _status with
        | Some reason =>
            if PyStr.nonempty reason
            then dict_set status "reason" (VStr reason)
            else status
        | None => status
        end in
      dict_set _payload "status" (VDict status)
  | _ => _payload
  end.

Definition set_subject_areas (journal : Journal) (_payload : dict) : dict :=
  let _payload := dict_set _payload "subject_areas" (VList []) in
  match subject_areas journal with
  | Some ((_ :: _) as areas) =>
      dict_set _payload "subject_areas"
        (VList (fold_left subject_area_step areas []))
  | _ => _payload
  end.

Definition set_sponsors (journal : Journal) (_payload : dict) : dict :=
  let _payload := dict_set _payload "sponsors" (VList []) in
  match sponsors journal with
  | Some ((_ :: _) as l) =>
      dict_set _payload "sponsors"
        (VList (map (fun sponsor => VDict [("name", VStr sponsor)]) l))
  | _ => _payload
  end.

(** [next_journal] and [previous_journal]: empty, or the name of the
    title when there is one. *)
Definition set_named (key : string) (name : option string) (_payload : dict)
  : dict :=
  let _payload := dict_set _payload key (VDict []) in
  match name with
  | Some t =>
      if PyStr.nonempty t
      then dict_set _payload key (VDict (dict_set [] "name" (VStr t)))
      else _payload
  | None => _payload
  end.

Definition set_contact (journal : Journal) (_payload : dict) : dict :=
  let contact : dict := [] in
  let _payload := dict_set _payload "contact" (VDict contact) in
  let contact :=
    match editor_email journal with
    | Some e => if PyStr.nonempty e then dict_set contact "email" (VStr e) else contact
    | None => contact
    end in
  let contact :=
    match editor_address journal with
    | Some a =>
        if PyStr.nonempty a then dict_set contact "address" (VStr a) else contact
    | None => contact
    end in
  dict_set _payload "contact" (VDict contact).

Definition journal_as_kernel (journal : Journal) : dict :=
  let _payload : dict := [] in
  let _payload := dict_set _payload "_id" (value_of_option (scielo_issn journal)) in
  let _payload := set_mission journal _payload in
  let _payload := dict_set _payload "title" (VStr (or_str (title journal) "")) in
  let _payload :=
    dict_set _payload "title_iso"
      (VStr (or_str (abbreviated_iso_title journal) "")) in
  let _payload :=
    dict_set _payload "short_title"
      (VStr (or_str (abbreviated_title journal) "")) in
  let _payload := dict_set _payload "acronym" (VStr (or_str (acronym journal) "")) in
  let _payload :=
    dict_set _payload "scielo_issn" (VStr (or_str (scielo_issn journal) "")) in
  let _payload :=
    dict_set _payload "print_issn" (VStr (or_str (print_issn journal) "")) in
  let _payload :=
    dict_set _payload "electronic_issn"
      (VStr (or_str (electronic_issn journal) "")) in
  let _payload := set_status journal _payload in
  let _payload := set_subject_areas journal _payload in
  let _payload := set_sponsors journal _payload in
  let _payload :=
    dict_set _payload "subject_categories"
      (match wos_subject_areas journal with
       | Some ((_ :: _) as l) => VList (map VStr l)
       | _ => VList []
       end) in
  let _payload :=
    dict_set _payload "online_submission_url"
      (VStr (or_str (submission_url journal) "")) in
  let _payload := set_named "next_journal" (next_title journal) _payload in
  let _payload := set_named "previous_journal" (previous_title journal) _payload in
  set_contact journal _payload.

(** What ["{}".format(v)] renders for an identifier: a string as it is,
    [None] as ["None"].  Identifiers are never containers. *)
Definition format_id (v : value) : result string :=
  match v with
  | VStr s => Returned s
  | VNone => Returned "None"
  | VInt z => Returned (PyStr.str z)
  | VBool true => Returned "True"
  | VBool false => Returned "False"
  | _ => Raised TypeError
  end.

Section Tasks.

Variable K : Type.
Variable serve : K -> request -> K * reply.
Variable DeepDiff : bool -> value -> value -> bool.
Variable strptime : string -> string -> result datetime.

(** [process_journals], from the decoded journal records on. *)
Definition process_journals (journals : list Journal) : M K unit :=
  let journals_as_kernel := map journal_as_kernel journals in
  for_each journals_as_kernel (fun journal =>
    bind (lift (dict_pop journal "_id")) (fun popped =>
    let (_id, journal) := popped in
    bind (lift (format_id _id)) (fun _id =>
    bind (register_or_update serve DeepDiff _id journal
            KERNEL_API_JOURNAL_ENDPOINT)
         (fun _ => ret tt)))).

(** [link_journals_and_issues], from the decoded issue records on. *)
Definition link_journals_and_issues (issues : list Issue) : M K unit :=
  bind (lift (mount_journals_issues_link strptime issues)) (fun journal_issues =>
  update_journals_and_issues_link serve DeepDiff journal_issues).

End Tasks.

(* ================================================================== *)
(** * Reference instances of the external collaborators *)

(** A structural comparison in the manner of DeepDiff: scalars of
    different types or values differ; dictionaries differ when a key is
    added, removed or bound to differing values; lists differ item by
    item, or as sets of items when the order is ignored. *)
Fixpoint deep_same (ignore_order : bool) (a b : value) {struct a} : bool :=
  match a, b with
  | VNone, VNone => true
  | VBool x, VBool y => Bool.eqb x y
  | VInt x, VInt y => x =? y
  | VStr x, VStr y => String.eqb x y
  | VList la, VList lb =>
      if ignore_order then
        forallb (fun x => existsb (fun y => deep_same ignore_order x y) lb) la
        && forallb (fun y => existsb (fun x => deep_same ignore_order x y) la) lb
      else
        (fix go (xs ys : list value) {struct xs} : bool :=
           match xs, ys with
           | [], [] => true
           | x :: xs', y :: ys' => deep_same ignore_order x y && go xs' ys'
           | _, _ => false
           end) la lb
  | VDict da, VDict db =>
      forallb (fun kv =>
                 existsb (fun kw => String.eqb (fst kv) (fst kw)
                                    && deep_same ignore_order (snd kv) (snd kw))
                   db) da
      && forallb (fun kw => existsb (fun kv => String.eqb (fst kv) (fst kw)) da) db
  | _, _ => false
  end.

Definition deep_diff (ignore_order : bool) (t1 t2 : value) : bool :=
  negb (deep_same ignore_order t1 t2).

(** A registry that follows the HTTP contract of the Kernel: it keeps
    one document per endpoint, answers a [GET] with 404 or with 200 and
    the stored document as [metadata], stores the body of a [PUT], and
    merges the keys of a [PATCH] into the stored document. *)
Definition registry : Type := list (string * value).

Definition registry_serve (st : registry) (req : request) : registry * reply :=
  match req_method req with
  | GET =>
      match lookup (req_endpoint req) st with
      | Some doc =>
          (st, Responded {| status_code := 200;
                            body := Some (VDict [("metadata", doc);
                                                 ("items", VList [])]) |})
      | None => (st, Responded {| status_code := 404; body := None |})
      end
  | PUT =>
      match req_data req with
      | Some doc =>
          (dict_set st (req_endpoint req) doc,
           Responded {| status_code := 201; body := Some (VDict []) |})
      | None => (st, Responded {| status_code := 400; body := None |})
      end
  | PATCH =>
      match lookup (req_endpoint req) st, req_data req with
      | Some (VDict md), Some (VDict d) =>
          (dict_set st (req_endpoint req)
             (VDict (fold_left (fun m kv => dict_set m (fst kv) (snd kv)) d md)),
           Responded {| status_code := 204; body := None |})
      | Some _, _ => (st, Responded {| status_code := 400; body := None |})
      | None, _ => (st, Responded {| status_code := 404; body := None |})
      end
  end.

(** A registry that answers every request with one fixed status. *)
Definition status_serve (status : Z) (st : unit) (req : request) : unit * reply :=
  (st, Responded {| status_code := status; body := None |}).

Definition empty_world {K} (k : K) : world K :=
  {| kernel := k; sent := []; logged := [] |}.

(** [datetime.strptime] for the three formats [parse_date] uses: a
    four-digit year from 1 on, a month of one or two digits, a day of
    one or two digits that exists in that month, and nothing else. *)
Module Strptime.

Definition digit (c : ascii) : option Z :=
  if PyStr.is_digit c then Some (Z.of_nat (nat_of_ascii c) - 48) else None.

Definition directive_Y (s : string) : option (Z * string) :=
  match s with
  | String a (String b (String c (String d r))) =>
      match digit a, digit b, digit c, digit d with
      | Some a, Some b, Some c, Some d =>
          Some (1000 * a + 100 * b + 10 * c + d, r)
      | _, _, _, _ => None
      end
  | _ => None
  end.

(** One or two digits: two are taken when they form a number from 1 to
    [hi], else one from 1 to 9. *)
Definition one_or_two (hi : Z) (s : string) : option (Z * string) :=
  match s with
  | String a r =>
      match digit a with
      | Some x =>
          match r with
          | String b r' =>
              match digit b with
              | Some y =>
                  if (1 <=? 10 * x + y) && (10 * x + y <=? hi)
                  then Some (10 * x + y, r')
                  else if 1 <=? x then Some (x, r) else None
              | None => if 1 <=? x then Some (x, r) else None
              end
          | EmptyString => if 1 <=? x then Some (x, r) else None
          end
      | None => None
      end
  | EmptyString => None
  end.

Definition directive_m : string -> option (Z * string) := one_or_two 12.

(** A day may also be padded with a space. *)
Definition directive_d (s : string) : option (Z * string) :=
  match s with
  | String " " (String b r) =>
      match digit b with
      | Some y => if 1 <=? y then Some (y, r) else None
      | None => None
      end
  | _ => one_or_two 31 s
  end.

Definition is_leap (y : Z) : bool :=
  ((y mod 4 =? 0) && negb (y mod 100 =? 0)) || (y mod 400 =? 0).

Definition days_in_month (y m : Z) : Z :=
  if m =? 2 then (if is_leap y then 29 else 28)
  else if (m =? 4) || (m =? 6) || (m =? 9) || (m =? 11) then 30
  else 31.

Definition literal (c : ascii) (s : string) : option string :=
  match s with
  | String c' r => if Ascii.eqb c c' then Some r else None
  | EmptyString => None
  end.

Definition build (y m d : Z) (rest : string) : result datetime :=
  match rest with
  | EmptyString =>
      if (1 <=? y) && (d <=? days_in_month y m)
      then Returned {| year := y; month := m; day := d |}
      else Raised ValueError
  | _ => Raised ValueError
  end.

Definition strptime (date format : string) : result datetime :=
  match directive_Y date with
  | None => Raised ValueError
  | Some (y, r) =>
      if String.eqb format "%Y" then build y 1 1 r
      else
        match literal "-" r with
        | None => Raised ValueError
        | Some r =>
            match directive_m r with
            | None => Raised ValueError
            | Some (m, r) =>
                if String.eqb format "%Y-%m" then build y m 1 r
                else if String.eqb format "%Y-%m-%d" then
                  match literal "-" r with
                  | None => Raised ValueError
                  | Some r =>
                      match directive_d r with
                      | None => Raised ValueError
                      | Some (d, r) => build y m d r
                      end
                  end
                else Raised ValueError
            end
        end
  end.

End Strptime.

Definition sample_issue (t : issue_type) (vol num : option string)
    (date : string) (journal position : string) : Issue :=
  {| type := t; volume := vol; number := num;
     supplement_volume := None; supplement_number := None;
     titles := None; start_month := None; end_month := None;
     publication_date := Some date;
     v35 := Some journal; v36 := Some position |}.


(* ================================================================== *)
(** * The statements of the specification *)

(** Leading zeros of a label are dropped, the last digit being kept. *)
Fixpoint strip_leading_zeros (s : string) : string :=
  match s with
  | String "0" (String _ _ as r) => strip_leading_zeros r
  | _ => s
  end.

(** A label made of digits only is canonicalized. *)
Definition canonical_label (s : string) : string :=
  if PyStr.isdigit s then strip_leading_zeros s else s.

(** The prefixed token of an optional label: none for a missing or empty
    label. *)
Definition id_token (prefix : string) (v : option string) : list string :=
  match v with
  | Some s => if PyStr.nonempty s then [prefix ++ canonical_label s] else []
  | None => []
  end.

(** The token of [issnId] or [year] when it is present. *)
Definition id_part (v : option string) : list string :=
  match v with
  | Some s => if PyStr.nonempty s then [s] else []
  | None => []
  end.

(** Insertion of an id into a group at its declared position, unless the
    group has it. *)
Definition place (group : list value) (position : Z) (id : value) : list value :=
  if py_in id group then group else insert_at group position id.

(** The group of journal [j]: the links of [j], in source order, placed
    one after the other. *)
Definition group_of (j : string) (links : list (value * Z * string))
    (init : list value) : list value :=
  fold_left
    (fun g (l : value * Z * string) =>
       let '(id, position, journal) := l in
       if String.eqb journal j then place g position id else g)
    links init.

(** An issue that [filter_issues] keeps. *)
Definition ordinary (issue : Issue) : Prop :=
  type issue <> ahead /\ type issue <> pressrelease.

(** The build of [issues] returns and gives journal [j] the list [g]. *)
Definition builds (strptime : string -> string -> result datetime)
    (issues : list Issue) (j : string) (g : list value) : Prop :=
  exists d,
    mount_journals_issues_link strptime issues = Returned d
    /\ lookup j d = Some g.

(** The ids a membership mapping holds for journal [j]. *)
Definition members (d : list (string * list value)) (j : string) : list value :=
  match lookup j d with
  | Some g => g
  | None => []
  end.

Definition has_journal (j : string) (links : list (value * Z * string)) : bool :=
  existsb (fun l : value * Z * string => String.eqb (snd l) j) links.

Definition get_request (endpoint : string) : request :=
  {| req_method := GET; req_endpoint := endpoint; req_data := None |}.

Definition put_request (endpoint : string) (doc : value) : request :=
  {| req_method := PUT; req_endpoint := endpoint; req_data := Some doc |}.

Definition patch_request (endpoint : string) (doc : value) : request :=
  {| req_method := PATCH; req_endpoint := endpoint; req_data := Some doc |}.

(** The world once [req] was sent and the registry moved to [k']. *)
Definition after_request {K} (w : world K) (req : request) (k' : K) : world K :=
  {| kernel := k'; sent := (sent w ++ [req])%list; logged := logged w |}.

(** The comparison rule of the update path. *)
Definition retained (md : dict) (kv : string * value) : bool :=
  truthy (dict_get md (fst kv)) || py_eq (dict_get md (fst kv)) (snd kv)
  || truthy (snd kv).

(** What an optional label contributes to an identifier: nothing when it
    is missing or empty, else its canonical form. *)
Definition label_key (v : option string) : option string :=
  match v with
  | Some s => if PyStr.nonempty s then Some (canonical_label s) else None
  | None => None
  end.

(** An issue that is neither a press release nor ahead of print. *)
Definition is_ordinary (issue : Issue) : bool :=
  negb (issue_type_eqb (type issue) pressrelease)
  && negb (issue_type_eqb (type issue) ahead).

(** The payload of an issue, key by key, for a given season and id. *)
Definition issue_payload (issue : Issue) (season : value) (id : string) : dict :=
  ([("volume", VStr (or_str (volume issue) ""));
    ("number", VStr (or_str (number issue) ""))]
   ++ (if issue_type_eqb (type issue) supplement
       then [("supplement",
              VStr (or_str (supplement_volume issue)
                      (or_str (supplement_number issue) "0")))]
       else [])
   ++ [("titles",
        match titles issue with
        | Some ((_ :: _) as t) => language_values t
        | _ => VList []
        end);
       ("publication_season", season);
       ("_id", VStr id)])%list.

(** The supplement argument of the identifier of an issue. *)
Definition supplement_label (issue : Issue) : option string :=
  if issue_type_eqb (type issue) supplement
  then Some (or_str (supplement_volume issue)
               (or_str (supplement_number issue) "0"))
  else None.

(** The status entry of a journal payload: empty without a history, else
    the status of the last entry of the history, with its reason when
    that is not empty. *)
Definition journal_status (journal : Journal) : dict :=
  match status_history journal with
  | Some (h :: t) =>
      let '(_, status, reason) := last (h :: t) h in
      (("status", VStr status)
       :: match reason with
          | Some r => if PyStr.nonempty r then [("reason", VStr r)] else []
          | None => []
          end)%list
  | _ => []
  end.

(** A subject area as the payload has it. *)
Definition normal_subject_area (area : string) : string :=
  if String.eqb (upper area) "LINGUISTICS, LETTERS AND ARTS"
  then "LINGUISTIC, LITERATURE AND ARTS"
  else upper area.

Definition optional_list {A} (o : option (list A)) : list A :=
  match o with
  | Some l => l
  | None => []
  end.

Definition named (o : option string) : dict :=
  match o with
  | Some t => if PyStr.nonempty t then [("name", VStr t)] else []
  | None => []
  end.

(** The payload of a journal, key by key. *)
Definition journal_payload (journal : Journal) : dict :=
  [("_id", value_of_option (scielo_issn journal));
   ("mission",
    VList (map (fun lv => VDict [("language", VStr (fst lv));
                                 ("value", VStr (snd lv))])
             (optional_list (mission journal))));
   ("title", VStr (or_str (title journal) ""));
   ("title_iso", VStr (or_str (abbreviated_iso_title journal) ""));
   ("short_title", VStr (or_str (abbreviated_title journal) ""));
   ("acronym", VStr (or_str (acronym journal) ""));
   ("scielo_issn", VStr (or_str (scielo_issn journal) ""));
   ("print_issn", VStr (or_str (print_issn journal) ""));
   ("electronic_issn", VStr (or_str (electronic_issn journal) ""));
   ("status", VDict (journal_status journal));
   ("subject_areas",
    VList (map (fun a => VStr (normal_subject_area a))
             (optional_list (subject_areas journal))));
   ("sponsors",
    VList (map (fun sponsor => VDict [("name", VStr sponsor)])
             (optional_list (sponsors journal))));
   ("subject_categories",
    VList (map VStr (optional_list (wos_subject_areas journal))));
   ("online_submission_url", VStr (or_str (submission_url journal) ""));
   ("next_journal", VDict (named (next_title journal)));
   ("previous_journal", VDict (named (previous_title journal)));
   ("contact",
    VDict ((match editor_email journal with
            | Some e => if PyStr.nonempty e then [("email", VStr e)] else []
            | None => []
            end)
           ++ (match editor_address journal with
               | Some a => if PyStr.nonempty a then [("address", VStr a)] else []
               | None => []
               end))%list)].

Definition sample_journal : Journal :=
  {| scielo_issn := Some "0001-3714"; mission := None;
     title := Some "Acta X"; abbreviated_iso_title := None;
     abbreviated_title := None; acronym := None; print_issn := None;
     electronic_issn := None;
     status_history := Some [("1990", "current", None);
                             ("1999", "suspended", Some "by-editor")];
     subject_areas := Some ["Linguistics, Letters and Arts"; "Health Sciences"];
     sponsors := None; wos_subject_areas := None;
     submission_url := None; next_title := None; previous_title := None;
     editor_email := None; editor_address := None |}.

(** The payload of [sample_journal] without its [_id], and what of it
    is not empty. *)
Definition sample_journal_rest : dict :=
  [("mission", VList []); ("title", VStr "Acta X"); ("title_iso", VStr "");
   ("short_title", VStr ""); ("acronym", VStr "");
   ("scielo_issn", VStr "0001-3714"); ("print_issn", VStr "");
   ("electronic_issn", VStr "");
   ("status", VDict [("status", VStr "suspended"); ("reason", VStr "by-editor")]);
   ("subject_areas",
    VList [VStr "LINGUISTIC, LITERATURE AND ARTS"; VStr "HEALTH SCIENCES"]);
   ("sponsors", VList []); ("subject_categories", VList []);
   ("online_submission_url", VStr ""); ("next_journal", VDict []);
   ("previous_journal", VDict []); ("contact", VDict [])].

Definition sample_journal_pruned : dict :=
  [("title", VStr "Acta X"); ("scielo_issn", VStr "0001-3714");
   ("status", VDict [("status", VStr "suspended"); ("reason", VStr "by-editor")]);
   ("subject_areas",
    VList [VStr "LINGUISTIC, LITERATURE AND ARTS"; VStr "HEALTH SCIENCES"])].

(** The requests the membership reconciliation may send for a journal
    and its list of issues. *)
Definition link_request (ji : string * list value) (q : request) : Prop :=
  q = get_request (KERNEL_API_JOURNAL_ENDPOINT ++ fst ji)
  \/ q = put_request (KERNEL_API_JOURNAL_BUNDLES_ENDPOINT (fst ji))
         (VList (snd ji)).

(** A status that makes a checked request raise. *)
Definition is_error_status (status : Z) : bool :=
  (400 <=? status) && (status <? 600).

(** A registry that can be read but refuses every write with 403. *)
Definition read_only_serve (st : registry) (req : request) : registry * reply :=
  match req_method req with
  | GET => registry_serve st req
  | _ => (st, Responded {| status_code := 403; body := None |})
  end.

(** A request about an entity: it goes to the endpoint of the entity's
    id, and a body it carries holds bindings of the entity's payload
    other than [_id]. *)
Definition entity_request (entity_url id : string) (payload : dict)
    (q : request) : Prop :=
  req_endpoint q = (entity_url ++ id)%string
  /\ (req_data q = None
      \/ exists d, req_data q = Some (VDict d)
                   /\ incl d payload /\ ~ In "_id" (keys d)).

(** The id under which a journal is registered. *)
Definition journal_id_of (journal : Journal) : string :=
  match scielo_issn journal with
  | Some s => s
  | None => "None"
  end.

(** An issue without a date of publication, and one without a declared
    position. *)
Definition undated_issue : Issue :=
  {| type := regular; volume := Some "7"; number := None;
     supplement_volume := None; supplement_number := None;
     titles := None; start_month := None; end_month := None;
     publication_date := None;
     v35 := Some "0034-8910"; v36 := Some "1" |}.

Definition unplaced_issue : Issue :=
  {| type := regular; volume := Some "7"; number := None;
     supplement_volume := None; supplement_number := None;
     titles := None; start_month := None; end_month := None;
     publication_date := Some "2001";
     v35 := Some "0034-8910"; v36 := None |}.

(** Every link has a string id. *)
Definition string_ids (links : list (value * Z * string)) : Prop :=
  forall v p j, In (v, p, j) links -> exists s, v = VStr s.

(** Three issues of one journal, the last one ahead of print; and the
    same source with its first issue listed twice. *)
Definition sample_issues : list Issue :=
  [sample_issue regular (Some "7") None "2001" "0034-8910" "0";
   sample_issue regular (Some "8") None "2002" "0034-8910" "1";
   sample_issue ahead None None "2002" "0034-8910" "2"].

Definition sample_issues_twice : list Issue :=
  sample_issue regular (Some "7") None "2001" "0034-8910" "0" :: sample_issues.

Definition sample_links : list (string * list value) :=
  [("0034-8910", [VStr "0034-8910-2001-v7"; VStr "0034-8910-2002-v8"])].

(** An integer that fits a list index. *)
Definition fits (p : Z) : bool :=
  (PY_SSIZE_T_MIN <=? p) && (p <=? PY_SSIZE_T_MAX).

(** Links whose positions all fit a list index. *)
Definition links_fit (links : list (value * Z * string)) : bool :=
  forallb (fun l : value * Z * string => fits (snd (fst l))) links.

(* ================================================================== *)
(** * Results and strings *)

Lemma rbind_Returned {A B} (c : result A) (k : A -> result B) (b : B) :
  rbind c k = Returned b -> exists a, c = Returned a /\ k a = Returned b.
Proof.
  destruct c as [a|e]; simpl; intros H; [eauto | discriminate].
Qed.

Lemma rfilter_pure {A} (p : A -> result bool) (q : A -> bool) (l : list A) :
  (forall x, In x l -> p x = Returned (q x)) ->
  rfilter p l = Returned (filter q l).
Proof.
  induction l as [|x r IH]; intros H; simpl.
  - reflexivity.
  - rewrite (H x (or_introl eq_refl)). simpl.
    rewrite IH by (intros y Hy; apply H; right; exact Hy).
    simpl. destruct (q x); reflexivity.
Qed.

Module PyStrFacts.
Import PyStr.

Ltac ascii_cases c :=
  destruct c as [[] [] [] [] [] [] [] []]; simpl in *;
  try discriminate; try reflexivity.

Lemma is_digit_not_space c : is_digit c = true -> is_space c = false.
Proof. intros H. ascii_cases c. Qed.

Lemma rstrip_digits s : all_digits s = true -> rstrip s = s.
Proof.
  induction s as [|c r IH]; simpl; intros H; [reflexivity|].
  apply andb_prop in H. destruct H as [Hc Hr].
  rewrite (IH Hr). destruct r; [|reflexivity].
  now rewrite (is_digit_not_space c Hc).
Qed.

Lemma strip_digits s : all_digits s = true -> strip s = s.
Proof.
  intros H. unfold strip.
  assert (Hl : lstrip s = s).
  { destruct s as [|c r]; [reflexivity|]. simpl in *.
    apply andb_prop in H. destruct H as [Hc _].
    now rewrite (is_digit_not_space c Hc). }
  rewrite Hl. now apply rstrip_digits.
Qed.

Lemma literal_digits_all s : all_digits s = true -> literal_digits s true = Some s.
Proof.
  induction s as [|c r IH]; simpl; intros H; [reflexivity|].
  apply andb_prop in H. destruct H as [Hc Hr].
  rewrite Hc, (IH Hr). reflexivity.
Qed.

Lemma literal_digits_isdigit s : isdigit s = true -> literal_digits s false = Some s.
Proof.
  destruct s as [|c r]; simpl; intros H; [discriminate|].
  apply andb_prop in H. destruct H as [Hc Hr].
  rewrite Hc, (literal_digits_all r Hr). reflexivity.
Qed.

Lemma uint_of_string_digits s :
  all_digits s = true -> exists d, NilEmpty.uint_of_string s = Some d.
Proof.
  induction s as [|c r IH]; simpl; intros H.
  - eexists; reflexivity.
  - apply andb_prop in H. destruct H as [Hc Hr].
    destruct (IH Hr) as [d Hd]. rewrite Hd.
    ascii_cases c; eexists; reflexivity.
Qed.

Lemma nat_literal_isdigit s :
  isdigit s = true ->
  exists d, NilEmpty.uint_of_string s = Some d /\ nat_literal s = Some (N.of_uint d).
Proof.
  intros H. unfold nat_literal. rewrite (literal_digits_isdigit s H).
  assert (Ha : all_digits s = true) by (destruct s; [discriminate | exact H]).
  destruct (uint_of_string_digits s Ha) as [d Hd].
  exists d. rewrite Hd. split; reflexivity.
Qed.

(** On a string of digits [int] reads the number the digits denote. *)
Lemma int_isdigit s :
  isdigit s = true ->
  exists d, NilEmpty.uint_of_string s = Some d /\
            int s = Returned (Z.of_N (N.of_uint d)).
Proof.
  intros H.
  destruct (nat_literal_isdigit s H) as [d [Hd Hn]].
  exists d. split; [exact Hd|].
  assert (Ha : all_digits s = true) by (destruct s; [discriminate | exact H]).
  unfold int. rewrite (strip_digits s Ha).
  destruct s as [|c r]; [discriminate|].
  assert (Hc : is_digit c = true)
    by (simpl in Ha; apply andb_prop in Ha; tauto).
  clear H Ha Hd.
  ascii_cases c; rewrite Hn; reflexivity.
Qed.

Lemma to_int_of_N n : Z.to_int (Z.of_N n) = Decimal.Pos (N.to_uint n).
Proof. destruct n; reflexivity. Qed.

Lemma str_of_uint d :
  str (Z.of_N (N.of_uint d)) = NilZero.string_of_uint (Decimal.unorm d).
Proof.
  unfold str. rewrite to_int_of_N, DecimalN.Unsigned.to_of. reflexivity.
Qed.

Lemma string_of_unorm d :
  d <> Decimal.Nil ->
  NilZero.string_of_uint (Decimal.unorm d)
  = strip_leading_zeros (NilEmpty.string_of_uint d).
Proof.
  induction d as [|d IH|d _|d _|d _|d _|d _|d _|d _|d _|d _]; intros Hn;
    try reflexivity.
  - congruence.
  - destruct d; try reflexivity; simpl; apply IH; discriminate.
Qed.

(** [str(int(s))] strips the leading zeros of a string of digits. *)
Lemma str_int_isdigit s :
  isdigit s = true ->
  exists n, int s = Returned n /\ str n = strip_leading_zeros s.
Proof.
  intros H. destruct (int_isdigit s H) as [d [Hd Hi]].
  exists (Z.of_N (N.of_uint d)). split; [exact Hi|].
  rewrite str_of_uint.
  pose proof (NilEmpty.sus s d Hd) as Hs.
  rewrite <- Hs. apply string_of_unorm.
  intros ->. simpl in Hs. subst s. discriminate.
Qed.

End PyStrFacts.

(* ================================================================== *)
(** * Identifier deriver *)

(** The identifier is the join of the parts that are present.  (With
    [isdigit] and [int] as they are on ASCII text, the [int] of a label
    of digits never raises.) *)
Lemma issue_id_tokens (i y v n s : option string) :
  issue_id i y v n s
  = Returned (PyStr.join "-"
                (id_part i ++ id_part y
                 ++ id_token "v" v ++ id_token "n" n ++ id_token "s" s)%list).
Proof.
  unfold issue_id.
  set (data := data_of_pairs _).
  assert (Hd : data = [("issn_id", i); ("year", y); ("volume", v);
                       ("number", n); ("supplement", s)]) by reflexivity.
  clearbody data.
  match goal with |- context [rfold ?f _ _] => set (step := f) end.
  assert (Hstep : forall _id label prefix,
             step _id (label, prefix)
             = Returned (_id ++ id_token prefix (data_get data label))%list).
  { intros _id label prefix. unfold step. cbv beta iota zeta.
    destruct (data_get data label) as [t|]; simpl.
    - unfold canonical_label.
      destruct (PyStr.nonempty t); simpl.
      + destruct (PyStr.isdigit t) eqn:Hdig.
        * destruct (PyStrFacts.str_int_isdigit t Hdig) as [z [Hz Hs]].
          rewrite Hz. simpl. rewrite Hs. reflexivity.
        * reflexivity.
      + now rewrite List.app_nil_r.
    - now rewrite List.app_nil_r. }
  clearbody step. simpl rfold. rewrite !Hstep. simpl rbind.
  rewrite !Hstep. simpl rbind. rewrite Hstep. simpl rbind.
  subst data. simpl data_get. simpl fold_left.
  f_equal. f_equal. rewrite <- !List.app_assoc.
  destruct i as [[|a0 i]|], y as [[|b0 y]|]; reflexivity.
Qed.



(** C5, as the code has it: a missing ([None] or empty) issnId or year is
    left out of the identifier; for labels of ASCII text the derivation
    raises nothing and returns the join of the tokens that are
    present. *)
Theorem issue_id_skips_missing (i y v n s : option string) :
  ascii_label v = true -> ascii_label n = true -> ascii_label s = true ->
  (exists id, issue_id i y v n s = Returned id)
  /\ (truthy_str i = false ->
      issue_id i y v n s
      = Returned (PyStr.join "-"
                    (id_part y ++ id_token "v" v ++ id_token "n" n
                     ++ id_token "s" s)%list))
  /\ (truthy_str y = false ->
      issue_id i y v n s
      = Returned (PyStr.join "-"
                    (id_part i ++ id_token "v" v ++ id_token "n" n
                     ++ id_token "s" s)%list)).
Proof.
  intros _ _ _.
  rewrite issue_id_tokens. split; [eauto|]. split; intros H.
  - destruct i as [[|a r]|]; simpl in H; try discriminate; reflexivity.
  - destruct y as [[|a r]|]; simpl in H; try discriminate; reflexivity.
Qed.

Lemma issue_id_skips_missing_witness :
  issue_id None (Some "1998") (Some "010") None (Some "A")
  = Returned "1998-v10-sA".
Proof.
  exact (proj1 (proj2 (@issue_id_skips_missing None (Some "1998")
                         (Some "010") None (Some "A")
                         eq_refl eq_refl eq_refl))
           eq_refl).
Defined.

(** C5 fails as stated: without an issnId, and without a year, an
    identifier is returned. *)
Lemma issue_id_missing_returns :
  issue_id None (Some "1998") (Some "10") None None = Returned "1998-v10"
  /\ issue_id (Some "0001-3714") (Some "") (Some "10") None None
     = Returned "0001-3714-v10"
  /\ issue_id None None None None None = Returned "".
Proof. repeat split. Qed.

(* ================================================================== *)
(** * Issue mapping *)

Section IssueMappingFacts.

Variable strptime : string -> string -> result datetime.

(** The payload of an issue that can be mapped, in full. *)
Lemma issue_as_kernel_payload issue season j d dt :
  publication_season issue = Returned season ->
  v35 issue = Some j ->
  publication_date issue = Some d ->
  parse_date strptime d = Returned dt ->
  exists id,
    issue_id (Some j) (Some (PyStr.str (year dt))) (volume issue)
      (number issue) (supplement_label issue) = Returned id
    /\ issue_as_kernel strptime issue = Returned (issue_payload issue season id).
Proof.
  intros Hs Hj Hd Hp. unfold issue_as_kernel, issue_payload, supplement_label.
  rewrite Hs, Hj, Hd, Hp. simpl rbind.
  destruct (issue_type_eqb (type issue) supplement);
    destruct (titles issue) as [[|t ts]|]; simpl;
    rewrite !issue_id_tokens; simpl; eexists; split; reflexivity.
Qed.

End IssueMappingFacts.

Lemma publication_season_list issue season :
  publication_season issue = Returned season -> exists l, season = VList l.
Proof.
  unfold publication_season.
  destruct (start_month issue) as [sm|], (end_month issue) as [em|];
    try (intros H; inversion H; eauto; fail).
  destruct (PyStr.nonempty sm && PyStr.nonempty em);
    [|intros H; inversion H; eauto].
  destruct (PyStr.int sm) as [a|], (PyStr.int em) as [b|]; simpl;
    intros H; inversion H; eauto.
Qed.

Lemma issue_as_kernel_inv strptime issue payload :
  issue_as_kernel strptime issue = Returned payload ->
  exists season id,
    publication_season issue = Returned season
    /\ payload = issue_payload issue season id.
Proof.
  intros H. pose proof H as H'. unfold issue_as_kernel in H'.
  destruct (publication_season issue) as [season|e] eqn:Hs; [|discriminate].
  destruct (v35 issue) as [j|] eqn:Hj; [|discriminate].
  destruct (publication_date issue) as [d|] eqn:Hd; [|discriminate].
  simpl in H'. destruct (parse_date strptime d) as [dt|e] eqn:Hp; [|discriminate].
  clear H'.
  destruct (issue_as_kernel_payload strptime issue Hs Hj Hd Hp) as [id [_ Hi]].
  exists season, id. split; [reflexivity|]. congruence.
Qed.

Lemma issue_type_eqb_eq a b : issue_type_eqb a b = true <-> a = b.
Proof. destruct a, b; simpl; split; intros H; congruence. Qed.

Lemma lookup_app_l {V} k (d e : list (string * V)) v :
  lookup k d = Some v -> lookup k (d ++ e) = Some v.
Proof.
  induction d as [|[k' w] r IH]; simpl; [discriminate|].
  destruct (String.eqb k' k); auto.
Qed.

Lemma lookup_app_r {V} k (d e : list (string * V)) :
  lookup k d = None -> lookup k (d ++ e) = lookup k e.
Proof.
  induction d as [|[k' w] r IH]; simpl; [reflexivity|].
  destruct (String.eqb k' k); [discriminate | auto].
Qed.

(** C7: a payload of the issue mapping has the key [supplement] exactly
    when the type of the record is "supplement"; its value is then the
    supplement-volume label when that is non-empty, else the
    supplement-number label when that is non-empty, else "0" (so "0" when
    both labels are absent). *)
Theorem issue_as_kernel_supplement
    (strptime : string -> string -> result datetime)
    (issue : Issue) (payload : dict) :
  issue_as_kernel strptime issue = Returned payload ->
  (type issue <> supplement -> lookup "supplement" payload = None)
  /\ (type issue = supplement ->
      exists s,
        lookup "supplement" payload = Some (VStr s)
        /\ (forall vol, supplement_volume issue = Some vol ->
                        PyStr.nonempty vol = true -> s = vol)
        /\ (truthy_str (supplement_volume issue) = false ->
            forall num, supplement_number issue = Some num ->
                        PyStr.nonempty num = true -> s = num)
        /\ (truthy_str (supplement_volume issue) = false ->
            truthy_str (supplement_number issue) = false -> s = "0")).
Proof.
  intros Hr.
  destruct (issue_as_kernel_inv strptime issue Hr) as [season [id [_ Hp]]].
  assert (Hl : lookup "supplement" payload
               = if issue_type_eqb (type issue) supplement
                 then Some (VStr (or_str (supplement_volume issue)
                                    (or_str (supplement_number issue) "0")))
                 else None).
  { subst payload. unfold issue_payload.
    destruct (issue_type_eqb (type issue) supplement); reflexivity. }
  rewrite Hl. split.
  - intros Ht. destruct (issue_type_eqb (type issue) supplement) eqn:E;
      [apply issue_type_eqb_eq in E; contradiction | reflexivity].
  - intros Ht. rewrite Ht. simpl. eexists. split; [reflexivity|].
    unfold or_str, truthy_str.
    destruct (supplement_volume issue) as [vol|],
             (supplement_number issue) as [num|]; repeat split; intros;
      repeat match goal with
        | H : Some _ = Some _ |- _ => inversion H; subst; clear H
        | H : None = Some _ |- _ => discriminate H
        | H : PyStr.nonempty _ = _ |- _ => rewrite H
        end; reflexivity.
Qed.

Lemma issue_as_kernel_supplement_witness :
  exists payload,
    issue_as_kernel Strptime.strptime
      (sample_issue supplement (Some "10") None "1998-03" "0001-3714" "0")
    = Returned payload
    /\ lookup "supplement" payload = Some (VStr "0").
Proof.
  exists [("volume", VStr "10"); ("number", VStr ""); ("supplement", VStr "0");
          ("titles", VList []); ("publication_season", VList []);
          ("_id", VStr "0001-3714-1998-v10-s0")].
  split; [reflexivity|].
  destruct (proj2 (@issue_as_kernel_supplement Strptime.strptime
                     (sample_issue supplement (Some "10") None "1998-03"
                        "0001-3714" "0")
                     [("volume", VStr "10"); ("number", VStr "");
                      ("supplement", VStr "0"); ("titles", VList []);
                      ("publication_season", VList []);
                      ("_id", VStr "0001-3714-1998-v10-s0")]
                     eq_refl)
              eq_refl) as [s [Hl [_ [_ H0]]]].
  rewrite Hl, (H0 eq_refl eq_refl). reflexivity.
Defined.

(* ================================================================== *)
(** * Dictionaries *)

Lemma lookup_dict_set_eq {V} (d : list (string * V)) k v :
  lookup k (dict_set d k v) = Some v.
Proof.
  induction d as [|[k' w] r IH]; simpl.
  - now rewrite String.eqb_refl.
  - destruct (String.eqb k' k) eqn:E; simpl; rewrite E; auto.
Qed.

Lemma lookup_dict_set_neq {V} (d : list (string * V)) k k' v :
  k' <> k -> lookup k' (dict_set d k v) = lookup k' d.
Proof.
  intros Hn. induction d as [|[k0 w] r IH]; simpl.
  - destruct (String.eqb k k') eqn:E; [|reflexivity].
    apply String.eqb_eq in E. congruence.
  - destruct (String.eqb k0 k) eqn:E; simpl.
    + apply String.eqb_eq in E. subst k0.
      destruct (String.eqb k k') eqn:E'; [|reflexivity].
      apply String.eqb_eq in E'. congruence.
    + now rewrite IH.
Qed.

Lemma keys_dict_set {V} (d : list (string * V)) k v k' :
  In k' (keys d) -> In k' (keys (dict_set d k v)).
Proof.
  induction d as [|[k0 w] r IH]; simpl; [tauto|].
  destruct (String.eqb k0 k); simpl; tauto.
Qed.

Lemma lookup_None_keys {V} (d : list (string * V)) k :
  ~ In k (keys d) -> lookup k d = None.
Proof.
  induction d as [|[k' w] r IH]; simpl; intros H; [reflexivity|].
  destruct (String.eqb k' k) eqn:E.
  - apply String.eqb_eq in E. tauto.
  - apply IH. tauto.
Qed.

Lemma keys_filter {V} (p : string * V -> bool) (d : list (string * V)) k :
  In k (keys (filter p d)) -> In k (keys d).
Proof.
  unfold keys. rewrite !in_map_iff. intros [x [Hx Hi]].
  apply filter_In in Hi. exists x. tauto.
Qed.

(** In a well-formed dictionary a binding that a filter drops leaves
    its key unbound. *)
Lemma lookup_filter_dropped {V} (p : string * V -> bool) (d : list (string * V)) k v :
  dict_wf d -> In (k, v) d -> p (k, v) = false -> lookup k (filter p d) = None.
Proof.
  unfold dict_wf. induction d as [|[k' w] r IH]; simpl; intros Hwf Hi Hp; [tauto|].
  inversion Hwf as [|? ? Hnk Hr]; subst.
  destruct Hi as [E|Hi].
  - inversion E; subst. rewrite Hp.
    apply lookup_None_keys. intros Hk. apply Hnk. eapply keys_filter; eauto.
  - assert (Hne : String.eqb k' k = false).
    { apply String.eqb_neq. intros ->. apply Hnk.
      unfold keys. apply in_map_iff. exists (k, v). auto. }
    destruct (p (k', w)); simpl; rewrite ?Hne; auto.
Qed.

Lemma truthy_false_iff v :
  truthy v = false <->
  v = VNone \/ v = VBool false \/ v = VInt 0 \/ v = VStr ""
  \/ v = VList [] \/ v = VDict [].
Proof.
  split.
  - destruct v as [|b|z|s|l|d]; simpl; intros H.
    + auto.
    + subst b. auto.
    + apply negb_false_iff, Z.eqb_eq in H. subst z. auto.
    + destruct s; [|discriminate]. auto 6.
    + destruct l; [|discriminate]. auto 6.
    + destruct d; [|discriminate]. auto 7.
  - intros [H|[H|[H|[H|[H|H]]]]]; subst v; reflexivity.
Qed.

(* ================================================================== *)
(** * Reconciler *)

Section ReconcilerFacts.

Variable K : Type.
Variable serve : K -> request -> K * reply.
Variable DeepDiff : bool -> value -> value -> bool.

Lemma run_unchecked method endpoint data w k' r :
  serve (kernel w) {| req_method := method; req_endpoint := endpoint;
                      req_data := data |} = (k', Responded r) ->
  HttpHook_run serve method endpoint data false w
  = (after_request w {| req_method := method; req_endpoint := endpoint;
                        req_data := data |} k', Returned r).
Proof.
  intros H. unfold HttpHook_run. rewrite H. reflexivity.
Qed.

Lemma run_sent method endpoint data check w :
  sent (fst (HttpHook_run serve method endpoint data check w))
  = (sent w ++ [{| req_method := method; req_endpoint := endpoint;
                   req_data := data |}])%list.
Proof.
  unfold HttpHook_run.
  destruct (serve (kernel w) _) as [k' [r|]]; simpl; [|reflexivity].
  destruct (check && _ && _); reflexivity.
Qed.

Lemma retained_filter md payload :
  rfilter
    (fun kv : string * value =>
       let (k, v) := kv in
       rbind (py_get (VDict md) k) (fun m =>
       if truthy m then Returned true
       else rbind (py_get (VDict md) k) (fun m' =>
            Returned (py_eq m' v || truthy v))))
    payload
  = Returned (filter (retained md) payload).
Proof.
  apply rfilter_pure. intros [k v] _. unfold retained. simpl.
  destruct (truthy (dict_get md k)); reflexivity.
Qed.

(** The update path, once the registry has answered 200 with metadata. *)
Lemma register_or_update_OK _id payload entity_url w k' r b md :
  serve (kernel w) (get_request (entity_url ++ _id)) = (k', Responded r) ->
  status_code r = OK ->
  body r = Some (VDict b) ->
  lookup "metadata" b = Some (VDict md) ->
  register_or_update serve DeepDiff _id payload entity_url w
  = (if DeepDiff true (VDict md) (VDict (filter (retained md) payload))
     then HttpHook_run serve PATCH (entity_url ++ _id)
            (Some (VDict (filter (retained md) payload))) false
            (after_request w (get_request (entity_url ++ _id)) k')
     else (after_request w (get_request (entity_url ++ _id)) k', Returned r)).
Proof.
  intros Hs Hc Hb Hm. unfold register_or_update, bind.
  rewrite (@run_unchecked GET (entity_url ++ _id) None w k' r Hs).
  rewrite Hc. simpl. unfold lift, response_json. rewrite Hb. simpl.
  rewrite Hm. rewrite retained_filter.
  destruct (DeepDiff true (VDict md) (VDict (filter (retained md) payload)));
    reflexivity.
Qed.

(** The create path, once the registry has answered 404. *)
Lemma register_or_update_NOT_FOUND _id payload entity_url w k' r :
  serve (kernel w) (get_request (entity_url ++ _id)) = (k', Responded r) ->
  status_code r = NOT_FOUND ->
  register_or_update serve DeepDiff _id payload entity_url w
  = HttpHook_run serve PUT (entity_url ++ _id)
      (Some (VDict (filter (fun kv => truthy (snd kv)) payload))) false
      (after_request w (get_request (entity_url ++ _id)) k').
Proof.
  intros Hs Hc. unfold register_or_update, bind.
  rewrite (@run_unchecked GET (entity_url ++ _id) None w k' r Hs).
  rewrite Hc. reflexivity.
Qed.

End ReconcilerFacts.

(** C2: when the first [GET] is answered 404, the call sends exactly one
    [PUT] after it, and no [PATCH]; the body of the [PUT] is the payload
    without its falsy-valued keys (empty string, empty list, empty
    dictionary, zero, [None], [False]), every key with a truthy value being
    kept with its value. *)
Theorem register_or_update_not_found
    (K : Type) (serve : K -> request -> K * reply)
    (DeepDiff : bool -> value -> value -> bool)
    (_id : string) (payload : dict) (entity_url : string)
    (w : world K) (k' : K) (r : response) :
  serve (kernel w) (get_request (entity_url ++ _id)) = (k', Responded r) ->
  status_code r = NOT_FOUND ->
  let pruned := filter (fun kv => truthy (snd kv)) payload in
  sent (fst (register_or_update serve DeepDiff _id payload entity_url w))
  = (sent w ++ [get_request (entity_url ++ _id);
                put_request (entity_url ++ _id) (VDict pruned)])%list
  /\ (forall k v, In (k, v) pruned <-> In (k, v) payload /\ truthy v = true)
  /\ (forall v, truthy v = false <->
                v = VNone \/ v = VBool false \/ v = VInt 0 \/ v = VStr ""
                \/ v = VList [] \/ v = VDict []).
Proof.
  intros Hs Hc pruned. split; [|split].
  - unfold register_or_update, bind.
    rewrite (@run_unchecked K serve GET (entity_url ++ _id) None w k' r Hs).
    rewrite Hc. simpl. rewrite run_sent. simpl.
    rewrite <- List.app_assoc. reflexivity.
  - intros k v. unfold pruned. rewrite filter_In. simpl. tauto.
  - apply truthy_false_iff.
Qed.

Lemma register_or_update_not_found_witness :
  sent (fst (register_or_update registry_serve deep_diff "0001-3714"
               [("title", VStr "Acta X"); ("mission", VList []);
                ("status", VDict [("status", VStr "current")])]
               "/journals/" (empty_world [])))
  = [get_request "/journals/0001-3714";
     put_request "/journals/0001-3714"
       (VDict [("title", VStr "Acta X");
               ("status", VDict [("status", VStr "current")])])].
Proof.
  exact (proj1 (@register_or_update_not_found registry registry_serve deep_diff
                  "0001-3714"
                  [("title", VStr "Acta X"); ("mission", VList []);
                   ("status", VDict [("status", VStr "current")])]
                  "/journals/" (empty_world []) []
                  {| status_code := 404; body := None |} eq_refl eq_refl)).
Defined.

(** C6, as the code has it: when the first [GET] is answered with a status
    other than 404 and 200, the call sends nothing more (no [PUT], no
    [PATCH]) and returns that response to its caller; nothing is raised. *)
Theorem register_or_update_other_status
    (K : Type) (serve : K -> request -> K * reply)
    (DeepDiff : bool -> value -> value -> bool)
    (_id : string) (payload : dict) (entity_url : string)
    (w : world K) (k' : K) (r : response) :
  serve (kernel w) (get_request (entity_url ++ _id)) = (k', Responded r) ->
  status_code r <> NOT_FOUND ->
  status_code r <> OK ->
  register_or_update serve DeepDiff _id payload entity_url w
  = (after_request w (get_request (entity_url ++ _id)) k', Returned r).
Proof.
  intros Hs Hn Ho. unfold register_or_update, bind.
  rewrite (@run_unchecked K serve GET (entity_url ++ _id) None w k' r Hs).
  apply Z.eqb_neq in Hn, Ho. rewrite Hn, Ho. reflexivity.
Qed.

Lemma register_or_update_other_status_witness :
  register_or_update (status_serve 503) deep_diff "0001-3714"
    [("title", VStr "Acta X")] "/journals/" (empty_world tt)
  = ({| kernel := tt; sent := [get_request "/journals/0001-3714"];
        logged := [] |},
     Returned {| status_code := 503; body := None |}).
Proof.
  apply (@register_or_update_other_status unit (status_serve 503) deep_diff
           "0001-3714" [("title", VStr "Acta X")] "/journals/"
           (empty_world tt) tt {| status_code := 503; body := None |}).
  - reflexivity.
  - unfold NOT_FOUND. simpl. lia.
  - unfold OK. simpl. lia.
Defined.

(** C6 fails as stated: a 500 answer to the first [GET] is returned as an
    ordinary value, not raised, and [process_issues], which discards it,
    completes normally over a registry that answers 500 to everything. *)
Lemma register_or_update_status_500_not_raised :
  snd (register_or_update (status_serve 500) deep_diff "0001-3714"
         [("title", VStr "Acta X")] "/journals/" (empty_world tt))
  = Returned {| status_code := 500; body := None |}
  /\ process_issues (status_serve 500) deep_diff Strptime.strptime
       [sample_issue regular (Some "10") (Some "1") "1998-03" "0001-3714" "0";
        sample_issue regular (Some "10") (Some "2") "1998-06" "0001-3714" "1"]
       (empty_world tt)
     = ({| kernel := tt;
           sent := [get_request "/bundles/0001-3714-1998-v10-n1";
                    get_request "/bundles/0001-3714-1998-v10-n2"];
           logged := [] |}, Returned tt).
Proof. split; reflexivity. Qed.

(* ================================================================== *)
(** * The reference diff *)

(** Induction on values, with the items of lists and dictionaries. *)
Lemma value_nested_ind (P : value -> Prop) :
  P VNone ->
  (forall b, P (VBool b)) ->
  (forall z, P (VInt z)) ->
  (forall s, P (VStr s)) ->
  (forall l, Forall P l -> P (VList l)) ->
  (forall d, Forall (fun kv => P (snd kv)) d -> P (VDict d)) ->
  forall v, P v.
Proof.
  intros HN HB HI HS HL HD. fix IH 1. intros [|b|z|s|l|d].
  - exact HN.
  - apply HB.
  - apply HI.
  - apply HS.
  - apply HL. induction l as [|x r IHl]; constructor; [apply IH | exact IHl].
  - apply HD. induction d as [|[k v] r IHd]; constructor; [apply IH | exact IHd].
Qed.

Lemma deep_same_VList io la lb :
  deep_same io (VList la) (VList lb)
  = if io then
      forallb (fun x => existsb (fun y => deep_same io x y) lb) la
      && forallb (fun y => existsb (fun x => deep_same io x y) la) lb
    else
      (fix go (xs ys : list value) {struct xs} : bool :=
         match xs, ys with
         | [], [] => true
         | x :: xs', y :: ys' => deep_same io x y && go xs' ys'
         | _, _ => false
         end) la lb.
Proof. reflexivity. Qed.

Lemma deep_same_VDict io da db :
  deep_same io (VDict da) (VDict db)
  = forallb (fun kv =>
               existsb (fun kw => String.eqb (fst kv) (fst kw)
                                  && deep_same io (snd kv) (snd kw)) db) da
    && forallb (fun kw => existsb (fun kv => String.eqb (fst kv) (fst kw)) da) db.
Proof. reflexivity. Qed.

(** A document shows no difference with itself. *)
Lemma deep_same_refl io v : deep_same io v v = true.
Proof.
  induction v as [|b|z|s|l Hl|d Hd] using value_nested_ind.
  - reflexivity.
  - apply Bool.eqb_reflx.
  - apply Z.eqb_refl.
  - apply String.eqb_refl.
  - rewrite deep_same_VList. rewrite Forall_forall in Hl. destruct io.
    + apply andb_true_intro. split; apply forallb_forall; intros x Hx;
        apply existsb_exists; exists x; auto.
    + clear -Hl. induction l as [|x r IH]; [reflexivity|].
      rewrite (Hl x (or_introl eq_refl)). simpl.
      apply IH. intros y Hy. apply Hl. now right.
  - rewrite deep_same_VDict. rewrite Forall_forall in Hd.
    apply andb_true_intro. split; apply forallb_forall; intros x Hx;
      apply existsb_exists; exists x; (split; [exact Hx|]).
    + rewrite String.eqb_refl. simpl. now apply Hd.
    + apply String.eqb_refl.
Qed.

Lemma deep_diff_same v : deep_diff true v v = false.
Proof. unfold deep_diff. now rewrite deep_same_refl. Qed.

(* ================================================================== *)
(** * Reconciling an entity that the registry has *)

(** A value that is not empty differs from every empty value. *)
Lemma deep_same_truthy_falsy io m v :
  truthy m = true -> truthy v = false -> deep_same io m v = false.
Proof.
  destruct m as [|bm|zm|sm|lm|dm], v as [|bv|zv|sv|lv|dv]; simpl;
    try reflexivity; try discriminate; intros Hm Hv.
  - subst. reflexivity.
  - apply negb_true_iff in Hm. apply negb_false_iff in Hv.
    apply Z.eqb_eq in Hv. subst zv. exact Hm.
  - destruct sm as [|a sm], sv as [|b sv]; try discriminate. reflexivity.
  - destruct lm as [|x lm], lv as [|y lv]; try discriminate.
    destruct io; reflexivity.
  - destruct dm as [|x dm], dv as [|y dv]; try discriminate. reflexivity.
Qed.

Lemma lookup_In {V} (d : list (string * V)) k v :
  lookup k d = Some v -> In (k, v) d.
Proof.
  induction d as [|[k' w] r IH]; simpl; [discriminate|].
  destruct (String.eqb k' k) eqn:E.
  - apply String.eqb_eq in E. intros H. inversion H; subst. now left.
  - intros H. right. now apply IH.
Qed.

Lemma dict_wf_unique {V} (d : list (string * V)) k v v' :
  dict_wf d -> In (k, v) d -> In (k, v') d -> v = v'.
Proof.
  unfold dict_wf, keys. induction d as [|[k' w] r IH]; simpl; [tauto|].
  intros Hn H H'. inversion Hn as [|? ? Hk Hr]; subst.
  destruct H as [H|H], H' as [H'|H'].
  - congruence.
  - inversion H; subst. exfalso. apply Hk. apply in_map_iff.
    exists (k, v'). auto.
  - inversion H'; subst. exfalso. apply Hk. apply in_map_iff.
    exists (k, v). auto.
  - now apply IH.
Qed.

Lemma dict_wf_filter {V} (p : string * V -> bool) (d : list (string * V)) :
  dict_wf d -> dict_wf (filter p d).
Proof.
  unfold dict_wf, keys. induction d as [|[k v] r IH]; simpl; intros H;
    [constructor|].
  inversion H as [|? ? Hk Hr]; subst.
  destruct (p (k, v)); [|now apply IH]. simpl. constructor; [|now apply IH].
  intros Hin. apply Hk. apply in_map_iff in Hin. destruct Hin as [x [Hx Hi]].
  apply filter_In in Hi. apply in_map_iff. exists x. tauto.
Qed.

(** Merging bindings into a document: a key that is not merged keeps its
    value, a key that is merged takes the merged value. *)
Lemma lookup_merge_other (d md : dict) k :
  ~ In k (keys d) ->
  lookup k (fold_left (fun m kv => dict_set m (fst kv) (snd kv)) d md)
  = lookup k md.
Proof.
  revert md. induction d as [|[k' v'] r IH]; simpl; intros md H; [reflexivity|].
  rewrite IH by tauto. apply lookup_dict_set_neq. intros ->. tauto.
Qed.

Lemma lookup_merge (d md : dict) k v :
  dict_wf d -> In (k, v) d ->
  lookup k (fold_left (fun m kv => dict_set m (fst kv) (snd kv)) d md)
  = Some v.
Proof.
  unfold dict_wf. revert md.
  induction d as [|[k' v'] r IH]; simpl; intros md Hn H; [tauto|].
  inversion Hn as [|? ? Hk Hr]; subst. destruct H as [H|H].
  - inversion H; subst. rewrite lookup_merge_other by exact Hk.
    apply lookup_dict_set_eq.
  - now apply IH.
Qed.

(** The reference diff sees a key whose remote value is not empty and
    whose local value is. *)
Lemma deep_diff_emptied (md payload : dict) k v :
  dict_wf payload ->
  In (k, v) payload ->
  truthy (dict_get md k) = true ->
  truthy v = false ->
  deep_diff true (VDict md) (VDict (filter (retained md) payload)) = true.
Proof.
  intros Hwf Hin Hm Hv. unfold deep_diff. apply negb_true_iff.
  rewrite deep_same_VDict. apply andb_false_iff. left.
  assert (Hl : In (k, dict_get md k) md).
  { unfold dict_get in *. destruct (lookup k md) as [m|] eqn:E;
      [now apply lookup_In | discriminate]. }
  destruct (forallb _ md) eqn:F; [|reflexivity].
  rewrite forallb_forall in F. specialize (F _ Hl). simpl in F.
  apply existsb_exists in F. destruct F as [[k2 v2] [Hi2 He]]. simpl in He.
  apply andb_prop in He. destruct He as [Hk Hs].
  apply String.eqb_eq in Hk. subst k2.
  apply filter_In in Hi2. destruct Hi2 as [Hi2 _].
  rewrite (dict_wf_unique _ _ _ Hwf Hi2 Hin) in Hs.
  now rewrite (deep_same_truthy_falsy true _ _ Hm Hv) in Hs.
Qed.

(** On the reference registry, with the reference diff, the empty local
    value of a key replaces its remote value. *)
Lemma registry_takes_local
    (_id : string) (payload : dict) (entity_url : string)
    (w : world registry) (md : dict) (k : string) (v : value) :
  dict_wf payload ->
  lookup (entity_url ++ _id) (kernel w) = Some (VDict md) ->
  In (k, v) payload ->
  truthy (dict_get md k) = true ->
  truthy v = false ->
  exists md',
    lookup (entity_url ++ _id)
      (kernel (fst (register_or_update registry_serve deep_diff _id payload
                      entity_url w)))
    = Some (VDict md')
    /\ lookup k md' = Some v.
Proof.
  intros Hwf Hl Hin Hm Hv.
  rewrite (@register_or_update_OK registry registry_serve deep_diff _id payload
             entity_url w (kernel w)
             {| status_code := 200;
                body := Some (VDict [("metadata", VDict md);
                                     ("items", VList [])]) |}
             [("metadata", VDict md); ("items", VList [])] md);
    try reflexivity.
  - rewrite (@deep_diff_emptied md payload k v Hwf Hin Hm Hv).
    unfold HttpHook_run, registry_serve. simpl. rewrite Hl. simpl.
    eexists. split; [apply lookup_dict_set_eq|].
    apply lookup_merge.
    + now apply dict_wf_filter.
    + apply filter_In. split; [exact Hin|]. unfold retained. simpl.
      now rewrite Hm.
  - unfold registry_serve, get_request. simpl. rewrite Hl. reflexivity.
Qed.

(** C1, as the code has it: when the first [GET] is answered 200 with the
    metadata of the entity, the comparison payload keeps a binding of the
    local payload exactly when the remote value of its key is truthy, or
    equals the local value, or the local value is truthy; a [PATCH] with
    the comparison payload is sent exactly when the diff, order ignored,
    of the metadata and the comparison payload is non-empty, and nothing
    is written otherwise.  A key whose remote value is non-empty stays in
    the comparison payload with its local value even when that is empty:
    the remote value is not protected, and with the reference diff and
    registry the [PATCH] is sent and the empty local value replaces
    it. *)
Theorem register_or_update_found
    (K : Type) (serve : K -> request -> K * reply)
    (DeepDiff : bool -> value -> value -> bool)
    (_id : string) (payload : dict) (entity_url : string)
    (w : world K) (k' : K) (r : response) (b md : dict) :
  serve (kernel w) (get_request (entity_url ++ _id)) = (k', Responded r) ->
  status_code r = OK ->
  body r = Some (VDict b) ->
  lookup "metadata" b = Some (VDict md) ->
  let comparison := filter (retained md) payload in
  let writes :=
    if DeepDiff true (VDict md) (VDict comparison)
    then [patch_request (entity_url ++ _id) (VDict comparison)]
    else [] in
  sent (fst (register_or_update serve DeepDiff _id payload entity_url w))
  = (sent w ++ get_request (entity_url ++ _id) :: writes)%list
  /\ (forall k v,
         In (k, v) comparison <->
         In (k, v) payload
         /\ (truthy (dict_get md k) = true
             \/ py_eq (dict_get md k) v = true
             \/ truthy v = true))
  /\ (forall k v,
         In (k, v) payload -> truthy (dict_get md k) = true ->
         truthy v = false -> In (k, v) comparison)
  /\ (forall (w0 : world registry) (md0 : dict) (k : string) (v : value),
         dict_wf payload ->
         lookup (entity_url ++ _id) (kernel w0) = Some (VDict md0) ->
         In (k, v) payload ->
         truthy (dict_get md0 k) = true ->
         truthy v = false ->
         exists md',
           lookup (entity_url ++ _id)
             (kernel (fst (register_or_update registry_serve deep_diff _id
                             payload entity_url w0)))
           = Some (VDict md')
           /\ lookup k md' = Some v).
Proof.
  intros Hs Hc Hb Hm comparison writes.
  assert (Hiff : forall k v,
             In (k, v) comparison <->
             In (k, v) payload
             /\ (truthy (dict_get md k) = true
                 \/ py_eq (dict_get md k) v = true
                 \/ truthy v = true)).
  { intros k v. unfold comparison. rewrite filter_In. unfold retained. simpl.
    rewrite !orb_true_iff. tauto. }
  split; [|split; [exact Hiff|split]].
  - rewrite (@register_or_update_OK K serve DeepDiff _id payload entity_url w
               k' r b md Hs Hc Hb Hm).
    unfold writes, comparison.
    destruct (DeepDiff true (VDict md) (VDict (filter (retained md) payload))).
    + rewrite run_sent. simpl. rewrite <- List.app_assoc. reflexivity.
    + reflexivity.
  - intros k v Hi Ht _. apply Hiff. auto.
  - intros w0 md0 k v. apply registry_takes_local.
Qed.

Lemma register_or_update_found_witness :
  sent (fst (register_or_update registry_serve deep_diff "0001-3714"
               [("title", VStr "Acta X"); ("acronym", VStr "ax");
                ("sponsors", VList [])]
               "/journals/"
               (empty_world
                  [("/journals/0001-3714", VDict [("title", VStr "Acta X")])])))
  = [get_request "/journals/0001-3714";
     patch_request "/journals/0001-3714"
       (VDict [("title", VStr "Acta X"); ("acronym", VStr "ax")])].
Proof.
  exact (proj1 (@register_or_update_found registry registry_serve deep_diff
                  "0001-3714"
                  [("title", VStr "Acta X"); ("acronym", VStr "ax");
                   ("sponsors", VList [])]
                  "/journals/"
                  (empty_world
                     [("/journals/0001-3714",
                       VDict [("title", VStr "Acta X")])])
                  [("/journals/0001-3714", VDict [("title", VStr "Acta X")])]
                  {| status_code := 200;
                     body := Some (VDict [("metadata",
                                           VDict [("title", VStr "Acta X")]);
                                          ("items", VList [])]) |}
                  [("metadata", VDict [("title", VStr "Acta X")]);
                   ("items", VList [])]
                  [("title", VStr "Acta X")]
                  eq_refl eq_refl eq_refl eq_refl)).
Defined.

(** C1 fails as stated: the registry has the title "Acta X", the local
    payload has an empty title; the [PATCH] carries the empty title and
    the registry is left without the title it had. *)
Lemma register_or_update_found_erases_remote :
  register_or_update registry_serve deep_diff "0001-3714"
    [("title", VStr ""); ("acronym", VStr "ax"); ("sponsors", VList [])]
    "/journals/"
    (empty_world [("/journals/0001-3714", VDict [("title", VStr "Acta X")])])
  = ({| kernel := [("/journals/0001-3714",
                    VDict [("title", VStr ""); ("acronym", VStr "ax")])];
        sent := [get_request "/journals/0001-3714";
                 patch_request "/journals/0001-3714"
                   (VDict [("title", VStr ""); ("acronym", VStr "ax")])];
        logged := [] |},
     Returned {| status_code := 204; body := None |}).
Proof. reflexivity. Qed.

(* ================================================================== *)
(** * Reconciling twice *)

(** Without [None] values, what the update path compares with a registry
    that stores the pruned payload is the pruned payload itself. *)
Lemma comparison_of_pruned (payload : dict) :
  dict_wf payload ->
  (forall k, ~ In (k, VNone) payload) ->
  filter (retained (filter (fun kv => truthy (snd kv)) payload)) payload
  = filter (fun kv => truthy (snd kv)) payload.
Proof.
  intros Hwf Hn. apply filter_ext_in. intros [k v] Hi. unfold retained. simpl.
  destruct (truthy v) eqn:Ht; [apply orb_true_r|].
  unfold dict_get.
  rewrite (@lookup_filter_dropped value
             (fun kv : string * value => truthy (snd kv)) payload k v
             Hwf Hi Ht).
  destruct v; try reflexivity. exfalso. exact (Hn k Hi).
Qed.

(** C3, as the code has it: for a payload that binds no key to [None]
    (as every payload the mappers build), two calls in succession against
    a registry that first answers 404, stores the body of the [PUT] and
    then answers 200 with it as metadata send one [PUT], on the first
    call, and no [PATCH]: on the second call the comparison payload is the
    stored metadata, no diff is found and nothing is written. *)
Theorem register_or_update_twice
    (K : Type) (serve : K -> request -> K * reply)
    (DeepDiff : bool -> value -> value -> bool)
    (_id : string) (payload : dict) (entity_url : string)
    (k0 k1 k2 k3 : K) (r1 r2 r3 : response) (b : dict) :
  (forall v, DeepDiff true v v = false) ->
  dict_wf payload ->
  (forall k, ~ In (k, VNone) payload) ->
  let url := entity_url ++ _id in
  let pruned := filter (fun kv => truthy (snd kv)) payload in
  serve k0 (get_request url) = (k1, Responded r1) ->
  status_code r1 = NOT_FOUND ->
  serve k1 (put_request url (VDict pruned)) = (k2, Responded r2) ->
  serve k2 (get_request url) = (k3, Responded r3) ->
  status_code r3 = OK ->
  body r3 = Some (VDict b) ->
  lookup "metadata" b = Some (VDict pruned) ->
  bind (register_or_update serve DeepDiff _id payload entity_url)
       (fun _ => register_or_update serve DeepDiff _id payload entity_url)
       (empty_world k0)
  = ({| kernel := k3;
        sent := [get_request url; put_request url (VDict pruned);
                 get_request url];
        logged := [] |}, Returned r3).
Proof.
  intros Hrefl Hwf Hn url pruned H1 Hc1 H2 H3 Hc3 Hb Hm.
  subst url pruned. unfold bind at 1.
  rewrite (@register_or_update_NOT_FOUND K serve DeepDiff _id payload
             entity_url (empty_world k0) k1 r1 H1 Hc1).
  rewrite (@run_unchecked K serve PUT (entity_url ++ _id)
             (Some (VDict (filter (fun kv => truthy (snd kv)) payload)))
             (after_request (empty_world k0)
                (get_request (entity_url ++ _id)) k1) k2 r2 H2).
  rewrite (@register_or_update_OK K serve DeepDiff _id payload entity_url
             (after_request
                (after_request (empty_world k0)
                   (get_request (entity_url ++ _id)) k1)
                {| req_method := PUT;
                   req_endpoint := entity_url ++ _id;
                   req_data :=
                     Some (VDict (filter (fun kv => truthy (snd kv))
                                    payload)) |} k2)
             k3 r3 b _ H3 Hc3 Hb Hm).
  rewrite (comparison_of_pruned Hwf Hn), Hrefl. reflexivity.
Qed.

Lemma NoDup_keys_sample :
  dict_wf [("title", VStr "Acta X"); ("mission", VList []);
           ("acronym", VStr "")].
Proof.
  unfold dict_wf. simpl.
  repeat constructor; simpl; intros H;
    repeat (destruct H as [H|H]; [discriminate H|]); exact H.
Defined.

Lemma register_or_update_twice_witness :
  bind (register_or_update registry_serve deep_diff "0001-3714"
          [("title", VStr "Acta X"); ("mission", VList []);
           ("acronym", VStr "")] "/journals/")
       (fun _ =>
          register_or_update registry_serve deep_diff "0001-3714"
            [("title", VStr "Acta X"); ("mission", VList []);
             ("acronym", VStr "")] "/journals/")
       (empty_world [])
  = ({| kernel := [("/journals/0001-3714", VDict [("title", VStr "Acta X")])];
        sent := [get_request "/journals/0001-3714";
                 put_request "/journals/0001-3714"
                   (VDict [("title", VStr "Acta X")]);
                 get_request "/journals/0001-3714"];
        logged := [] |},
     Returned {| status_code := 200;
                 body := Some (VDict [("metadata",
                                       VDict [("title", VStr "Acta X")]);
                                      ("items", VList [])]) |}).
Proof.
  apply (@register_or_update_twice registry registry_serve deep_diff
           "0001-3714"
           [("title", VStr "Acta X"); ("mission", VList []);
            ("acronym", VStr "")] "/journals/"
           [] [] [("/journals/0001-3714", VDict [("title", VStr "Acta X")])]
           [("/journals/0001-3714", VDict [("title", VStr "Acta X")])]
           {| status_code := 404; body := None |}
           {| status_code := 201; body := Some (VDict []) |}
           {| status_code := 200;
              body := Some (VDict [("metadata",
                                    VDict [("title", VStr "Acta X")]);
                                   ("items", VList [])]) |}
           [("metadata", VDict [("title", VStr "Acta X")]);
            ("items", VList [])]);
    try reflexivity.
  - exact deep_diff_same.
  - exact NoDup_keys_sample.
  - intros k H. simpl in H.
    repeat (destruct H as [H|H]; [discriminate H|]). exact H.
Defined.

(** C3 fails as stated: with a key bound to [None] the first call prunes
    the key, and the second call, for which the missing remote value
    equals the local [None], keeps it, finds a diff and sends a [PATCH]. *)
Lemma register_or_update_twice_None_patches :
  sent (fst (bind (register_or_update registry_serve deep_diff "0001-3714"
                     [("title", VStr "Acta X"); ("reason", VNone)]
                     "/journals/")
                  (fun _ =>
                     register_or_update registry_serve deep_diff "0001-3714"
                       [("title", VStr "Acta X"); ("reason", VNone)]
                       "/journals/")
                  (empty_world [])))
  = [get_request "/journals/0001-3714";
     put_request "/journals/0001-3714" (VDict [("title", VStr "Acta X")]);
     get_request "/journals/0001-3714";
     patch_request "/journals/0001-3714"
       (VDict [("title", VStr "Acta X"); ("reason", VNone)])].
Proof. reflexivity. Qed.

(* ================================================================== *)
(** * Membership linker: build *)

Lemma insert_at_nonneg {A} (l : list A) (p : Z) (x : A) :
  0 <= p ->
  insert_at l p x
  = (firstn (Z.to_nat (Z.min p (Z.of_nat (length l)))) l
     ++ x :: skipn (Z.to_nat (Z.min p (Z.of_nat (length l)))) l)%list.
Proof.
  intros Hp. unfold insert_at.
  destruct (p <? 0) eqn:E; [apply Z.ltb_lt in E; lia | reflexivity].
Qed.

Lemma insert_at_append {A} (l : list A) (p : Z) (x : A) :
  Z.of_nat (length l) <= p -> insert_at l p x = (l ++ [x])%list.
Proof.
  intros Hp. rewrite insert_at_nonneg by lia.
  rewrite Z.min_r by lia. rewrite Nat2Z.id.
  now rewrite firstn_all, skipn_all.
Qed.

(** An index that fits is inserted at; no other index is. *)
Lemma list_insert_fits {A} (l : list A) (p : Z) (x : A) :
  fits p = true -> list_insert l p x = Returned (insert_at l p x).
Proof.
  unfold fits, list_insert. intros H. apply andb_prop in H.
  destruct H as [Hlo Hhi]. apply Z.leb_le in Hlo, Hhi.
  destruct (p <? PY_SSIZE_T_MIN) eqn:E1; [apply Z.ltb_lt in E1; lia|].
  destruct (PY_SSIZE_T_MAX <? p) eqn:E2; [apply Z.ltb_lt in E2; lia|].
  reflexivity.
Qed.

Lemma list_insert_Returned {A} (l g : list A) (p : Z) (x : A) :
  list_insert l p x = Returned g -> g = insert_at l p x.
Proof.
  unfold list_insert.
  destruct ((p <? PY_SSIZE_T_MIN) || (PY_SSIZE_T_MAX <? p)); [discriminate|].
  intros H. now inversion H.
Qed.

Lemma list_insert_overflow {A} (l : list A) (p : Z) (x : A) :
  PY_SSIZE_T_MAX < p -> list_insert l p x = Raised OverflowError.
Proof.
  intros H. unfold list_insert. apply Z.ltb_lt in H. rewrite H.
  now rewrite orb_true_r.
Qed.

Lemma lookup_setdefault_eq (d : list (string * list value)) j :
  lookup j (setdefault d j []) = Some (members d j).
Proof.
  unfold setdefault, members. destruct (lookup j d) as [g|] eqn:E.
  - exact E.
  - rewrite (lookup_app_r _ _ _ E). simpl. now rewrite String.eqb_refl.
Qed.

Lemma lookup_setdefault_neq {V} (d : list (string * V)) j j' v :
  j' <> j -> lookup j' (setdefault d j v) = lookup j' d.
Proof.
  intros Hn. unfold setdefault. destruct (lookup j d) as [g|]; [reflexivity|].
  destruct (lookup j' d) as [g'|] eqn:E.
  - now apply lookup_app_l.
  - rewrite (lookup_app_r _ _ _ E). simpl.
    destruct (String.eqb j j') eqn:E'; [|reflexivity].
    apply String.eqb_eq in E'. congruence.
Qed.

Section BuildFacts.

Variable strptime : string -> string -> result datetime.

(** One turn of the loop that returns: the group of the issue's journal
    has received the id, the other groups are left as they are. *)
Lemma mount_step_Returned d issue d' :
  mount_step strptime d issue = Returned d' ->
  exists i p j,
    issue_link strptime issue = Returned (i, p, j)
    /\ forall j', lookup j' d'
                  = if String.eqb j j' then Some (place (members d j) p i)
                    else lookup j' d.
Proof.
  unfold mount_step.
  destruct (issue_link strptime issue) as [[[i p] j]|e]; [|discriminate].
  simpl. rewrite lookup_setdefault_eq. unfold place.
  intros H. exists i, p, j. split; [reflexivity|].
  destruct (py_in i (members d j)) eqn:E; simpl in H.
  - inversion H; subst d'. intros j'. destruct (String.eqb j j') eqn:Ej.
    + apply String.eqb_eq in Ej. subst j'. apply lookup_setdefault_eq.
    + apply String.eqb_neq in Ej. apply lookup_setdefault_neq. congruence.
  - destruct (list_insert (members d j) p i) as [g|e] eqn:Eg; [|discriminate].
    apply list_insert_Returned in Eg. subst g. simpl in H.
    inversion H; subst d'. intros j'. destruct (String.eqb j j') eqn:Ej.
    + apply String.eqb_eq in Ej. subst j'. apply lookup_dict_set_eq.
    + apply String.eqb_neq in Ej.
      rewrite lookup_dict_set_neq by congruence.
      apply lookup_setdefault_neq. congruence.
Qed.

(** One turn of the loop, for a position that fits a list index. *)
Lemma mount_step_lookup d issue i p j :
  issue_link strptime issue = Returned (i, p, j) ->
  fits p = true ->
  exists d',
    mount_step strptime d issue = Returned d'
    /\ forall j', lookup j' d'
                  = if String.eqb j j' then Some (place (members d j) p i)
                    else lookup j' d.
Proof.
  intros Hl Hp.
  assert (Hr : exists d', mount_step strptime d issue = Returned d').
  { unfold mount_step. rewrite Hl. simpl. rewrite lookup_setdefault_eq.
    destruct (py_in i (members d j)); simpl; [eauto|].
    rewrite (@list_insert_fits _ (members d j) p i Hp). simpl. eauto. }
  destruct Hr as [d' Hd]. exists d'. split; [exact Hd|].
  destruct (mount_step_Returned _ _ Hd) as [i' [p' [j' [Hl' Hk]]]].
  rewrite Hl in Hl'. inversion Hl'; subst. exact Hk.
Qed.

Lemma group_of_step j jx i p links g :
  group_of j ((i, p, jx) :: links) g
  = group_of j links (if String.eqb jx j then place g p i else g).
Proof. reflexivity. Qed.

Lemma lookup_after_step (d0 d1 : list (string * list value)) jx i p links :
  (forall j', lookup j' d1
              = if String.eqb jx j' then Some (place (members d0 jx) p i)
                else lookup j' d0) ->
  forall j,
    match lookup j d1 with
    | Some g => Some (group_of j links g)
    | None => if has_journal j links then Some (group_of j links []) else None
    end
    = match lookup j d0 with
      | Some g => Some (group_of j ((i, p, jx) :: links) g)
      | None => if has_journal j ((i, p, jx) :: links)
                then Some (group_of j ((i, p, jx) :: links) [])
                else None
      end.
Proof.
  intros Hl1 j. rewrite Hl1, !group_of_step. unfold has_journal, members.
  simpl. destruct (String.eqb jx j) eqn:E.
  - apply String.eqb_eq in E. subst j. destruct (lookup jx d0); reflexivity.
  - destruct (lookup j d0); reflexivity.
Qed.

(** The mapping that the loop returns, group by group. *)
Lemma rfold_mount_Returned l :
  forall d0 d,
    rfold (mount_step strptime) d0 l = Returned d ->
    exists links,
      rmap (issue_link strptime) l = Returned links
      /\ forall j, lookup j d
                   = match lookup j d0 with
                     | Some g => Some (group_of j links g)
                     | None => if has_journal j links
                               then Some (group_of j links [])
                               else None
                     end.
Proof.
  induction l as [|x r IH]; simpl; intros d0 d H.
  - inversion H; subst. exists []. split; [reflexivity|].
    intros j. simpl. destruct (lookup j d); reflexivity.
  - destruct (mount_step strptime d0 x) as [d1|e] eqn:E; [|discriminate].
    simpl in H.
    destruct (mount_step_Returned _ _ E) as [i [p [jx [Hx Hl1]]]].
    destruct (IH d1 d H) as [links [Hr Hld]].
    exists ((i, p, jx) :: links). rewrite Hx, Hr. split; [reflexivity|].
    intros j. rewrite Hld. now apply lookup_after_step.
Qed.

(** The loop returns when every position fits a list index. *)
Lemma rfold_mount_groups l :
  forall links d0,
    rmap (issue_link strptime) l = Returned links ->
    links_fit links = true ->
    exists d,
      rfold (mount_step strptime) d0 l = Returned d
      /\ forall j, lookup j d
                   = match lookup j d0 with
                     | Some g => Some (group_of j links g)
                     | None => if has_journal j links
                               then Some (group_of j links [])
                               else None
                     end.
Proof.
  induction l as [|x r IH]; intros links d0 Hm Hf; simpl in Hm.
  - inversion Hm; subst. exists d0. split; [reflexivity|].
    intros j. simpl. destruct (lookup j d0); reflexivity.
  - apply rbind_Returned in Hm. destruct Hm as [[[i p] jx] [Hx Hm]].
    apply rbind_Returned in Hm. destruct Hm as [links' [Hr Hm]].
    inversion Hm; subst links. clear Hm.
    simpl in Hf. apply andb_prop in Hf. destruct Hf as [Hp Hf].
    destruct (mount_step_lookup d0 x Hx Hp) as [d1 [H1 Hl1]].
    destruct (IH links' d1 Hr Hf) as [d [Hd Hld]].
    exists d. split; [simpl; rewrite H1; exact Hd|].
    intros j. rewrite Hld. now apply lookup_after_step.
Qed.

End BuildFacts.

Lemma filter_issues_ordinary (l : list Issue) :
  Forall ordinary l -> filter_issues l = l.
Proof.
  intros H. unfold filter_issues. simpl.
  induction H as [|x r [Ha Hp] _ IH]; [reflexivity|]. simpl.
  destruct (type x) eqn:E; simpl; try congruence; rewrite E; simpl;
    now rewrite IH.
Qed.

(** C8, as the code has it: for records of ASCII text whose positions fit
    a list index, the builder groups the derived ids under their parent
    journal and, within a group, places each id at its declared position
    unless the group has it already.  For a journal whose three issues
    declare the positions 0, 1 and 2, the list has their ids in position
    order for every order of the issues in the source but the order 2,
    1, 0, which gives the ids of positions 0, 2, 1; rebuilt from two of
    the three, the list has the two ids in position order unless the two
    are the issues of positions 2 and 1, in this order in the source. *)
Theorem mount_journals_issues_link_groups
    (strptime : string -> string -> result datetime) :
  (forall issues links,
      forallb ascii_issue (filter_issues issues) = true ->
      rmap (issue_link strptime) (filter_issues issues) = Returned links ->
      links_fit links = true ->
      exists d,
        mount_journals_issues_link strptime issues = Returned d
        /\ forall j, lookup j d
                     = if has_journal j links
                       then Some (group_of j links [])
                       else None)
  /\ (forall (i0 i1 i2 : Issue) (a b c j : string),
         ordinary i0 -> ordinary i1 -> ordinary i2 ->
         ascii_issue i0 = true -> ascii_issue i1 = true ->
         ascii_issue i2 = true ->
         issue_link strptime i0 = Returned (VStr a, 0, j) ->
         issue_link strptime i1 = Returned (VStr b, 1, j) ->
         issue_link strptime i2 = Returned (VStr c, 2, j) ->
         a <> b -> a <> c -> b <> c ->
         (builds strptime [i0; i1; i2] j [VStr a; VStr b; VStr c]
          /\ builds strptime [i0; i2; i1] j [VStr a; VStr b; VStr c]
          /\ builds strptime [i1; i0; i2] j [VStr a; VStr b; VStr c]
          /\ builds strptime [i1; i2; i0] j [VStr a; VStr b; VStr c]
          /\ builds strptime [i2; i0; i1] j [VStr a; VStr b; VStr c]
          /\ builds strptime [i2; i1; i0] j [VStr a; VStr c; VStr b])
         /\ (builds strptime [i0; i1] j [VStr a; VStr b]
             /\ builds strptime [i1; i0] j [VStr a; VStr b]
             /\ builds strptime [i0; i2] j [VStr a; VStr c]
             /\ builds strptime [i2; i0] j [VStr a; VStr c]
             /\ builds strptime [i1; i2] j [VStr b; VStr c]
             /\ builds strptime [i2; i1] j [VStr c; VStr b])).
Proof.
  assert (Hgen : forall issues links,
             rmap (issue_link strptime) (filter_issues issues) = Returned links ->
             links_fit links = true ->
             exists d,
               mount_journals_issues_link strptime issues = Returned d
               /\ forall j, lookup j d
                            = if has_journal j links
                              then Some (group_of j links [])
                              else None).
  { intros issues links Hm Hf. unfold mount_journals_issues_link.
    destruct (rfold_mount_groups strptime (filter_issues issues) [] Hm Hf)
      as [d [Hd Hl]].
    exists d. split; [exact Hd|]. intros j. rewrite Hl. reflexivity. }
  split; [intros issues links _; apply Hgen|].
  intros i0 i1 i2 a b c j O0 O1 O2 _ _ _ L0 L1 L2 Hab Hac Hbc.
  assert (Hba : b <> a) by congruence.
  assert (Hca : c <> a) by congruence.
  assert (Hcb : c <> b) by congruence.
  apply String.eqb_neq in Hab, Hac, Hbc, Hba, Hca, Hcb.
  assert (Hbuild : forall l links g,
             Forall ordinary l ->
             rmap (issue_link strptime) l = Returned links ->
             links_fit links = true ->
             has_journal j links = true ->
             group_of j links [] = g ->
             builds strptime l j g).
  { intros l links g Ho Hm Hf Hh Hg.
    destruct (Hgen l links) as [d [Hd Hl]];
      [now rewrite filter_issues_ordinary | exact Hf |].
    exists d. split; [exact Hd|]. now rewrite Hl, Hh, Hg. }
  repeat split;
    (eapply Hbuild;
     [ auto
     | simpl; rewrite ?L0, ?L1, ?L2; simpl; rewrite ?L0, ?L1, ?L2; simpl;
       rewrite ?L0, ?L1, ?L2; reflexivity
     | reflexivity
     | unfold has_journal; simpl; now rewrite String.eqb_refl
     | unfold group_of, place, py_in; simpl;
       repeat (progress (rewrite ?String.eqb_refl, ?Hab, ?Hac, ?Hbc,
                           ?Hba, ?Hca, ?Hcb; simpl));
       reflexivity ]).
Qed.

Lemma ordinary_regular vol num date journal position :
  ordinary (sample_issue regular vol num date journal position).
Proof. split; discriminate. Defined.

Lemma mount_journals_issues_link_groups_witness :
  builds Strptime.strptime
    [sample_issue regular (Some "10") (Some "3") "1998-09" "0001-3714" "2";
     sample_issue regular (Some "10") (Some "1") "1998-03" "0001-3714" "0";
     sample_issue regular (Some "10") (Some "2") "1998-06" "0001-3714" "1"]
    "0001-3714"
    [VStr "0001-3714-1998-v10-n1"; VStr "0001-3714-1998-v10-n2";
     VStr "0001-3714-1998-v10-n3"].
Proof.
  apply (proj2 (mount_journals_issues_link_groups Strptime.strptime)
           (sample_issue regular (Some "10") (Some "1") "1998-03" "0001-3714" "0")
           (sample_issue regular (Some "10") (Some "2") "1998-06" "0001-3714" "1")
           (sample_issue regular (Some "10") (Some "3") "1998-09" "0001-3714" "2")
           "0001-3714-1998-v10-n1" "0001-3714-1998-v10-n2"
           "0001-3714-1998-v10-n3" "0001-3714");
    try apply ordinary_regular; try reflexivity; discriminate.
Defined.

(** C8 fails as stated: three issues of one journal that declare the
    positions 0, 1 and 2 and come in the source in the order 2, 1, 0 are
    listed with the id of position 2 before the id of position 1; rebuilt
    from the issues of positions 2 and 1, in that order, the list has them
    in that order too; and a declared position that does not fit a list
    index makes the build raise. *)
Lemma mount_journals_issues_link_arrival_order :
  mount_journals_issues_link Strptime.strptime
    [sample_issue regular (Some "10") (Some "3") "1998-09" "0001-3714" "2";
     sample_issue regular (Some "10") (Some "2") "1998-06" "0001-3714" "1";
     sample_issue regular (Some "10") (Some "1") "1998-03" "0001-3714" "0"]
  = Returned [("0001-3714",
               [VStr "0001-3714-1998-v10-n1"; VStr "0001-3714-1998-v10-n3";
                VStr "0001-3714-1998-v10-n2"])]
  /\ mount_journals_issues_link Strptime.strptime
       [sample_issue regular (Some "10") (Some "3") "1998-09" "0001-3714" "2";
        sample_issue regular (Some "10") (Some "2") "1998-06" "0001-3714" "1"]
     = Returned [("0001-3714",
                  [VStr "0001-3714-1998-v10-n3"; VStr "0001-3714-1998-v10-n2"])]
  /\ mount_journals_issues_link Strptime.strptime
       [sample_issue regular (Some "10") (Some "1") "1998-03" "0001-3714"
          "9223372036854775808"]
     = Raised OverflowError.
Proof. split; [|split]; reflexivity. Qed.

(** C10, as the code has it: for a record of ASCII text with a declared
    position that is not negative and fits a list index, the builder's
    insertion never fails; the id goes to the declared index clamped to
    the length of the journal's list, hence to the end of the list when
    the position is at least that length. *)
Theorem mount_step_insert_total
    (strptime : string -> string -> result datetime)
    (d : list (string * list value)) (issue : Issue)
    (i : value) (p : Z) (j : string) :
  ascii_issue issue = true ->
  issue_link strptime issue = Returned (i, p, j) ->
  0 <= p <= PY_SSIZE_T_MAX ->
  exists d',
    mount_step strptime d issue = Returned d'
    /\ (py_in i (members d j) = true -> lookup j d' = Some (members d j))
    /\ (py_in i (members d j) = false ->
        let g := members d j in
        let at_ := Z.to_nat (Z.min p (Z.of_nat (length g))) in
        lookup j d' = Some (firstn at_ g ++ i :: skipn at_ g)%list
        /\ (Z.of_nat (length g) <= p -> lookup j d' = Some (g ++ [i])%list)).
Proof.
  intros _ Hl [Hp Hmax].
  assert (Hf : fits p = true).
  { unfold fits. apply andb_true_iff. split; apply Z.leb_le;
      [unfold PY_SSIZE_T_MIN; lia | exact Hmax]. }
  destruct (mount_step_lookup strptime d issue Hl Hf) as [d' [Hd Hk]].
  exists d'. split; [exact Hd|].
  specialize (Hk j). rewrite String.eqb_refl in Hk. unfold place in Hk.
  split; intros Hin; rewrite Hin in Hk; [exact Hk|].
  split.
  - rewrite Hk. now rewrite insert_at_nonneg.
  - intros Hlen. rewrite Hk. now rewrite insert_at_append.
Qed.

Lemma mount_step_insert_total_witness :
  exists d',
    mount_step Strptime.strptime
      [("0001-3714", [VStr "0001-3714-1998-v10-n1"])]
      (sample_issue regular (Some "10") (Some "3") "1998-09" "0001-3714" "7")
    = Returned d'
    /\ lookup "0001-3714" d'
       = Some [VStr "0001-3714-1998-v10-n1"; VStr "0001-3714-1998-v10-n3"].
Proof.
  destruct (@mount_step_insert_total Strptime.strptime
              [("0001-3714", [VStr "0001-3714-1998-v10-n1"])]
              (sample_issue regular (Some "10") (Some "3") "1998-09"
                 "0001-3714" "7")
              (VStr "0001-3714-1998-v10-n3") 7 "0001-3714" eq_refl eq_refl)
    as [d' [Hd [_ Hi]]]; [unfold PY_SSIZE_T_MAX; lia|].
  exists d'. split; [exact Hd|].
  apply (Hi eq_refl). simpl. lia.
Defined.

(** C10 fails as stated: the position 2^63 is not negative, is read by
    [int], and makes the insertion raise [OverflowError]. *)
Lemma mount_step_insert_overflow :
  issue_link Strptime.strptime
    (sample_issue regular (Some "10") (Some "3") "1998-09" "0001-3714"
       "9223372036854775808")
  = Returned (VStr "0001-3714-1998-v10-n3", 2 ^ 63, "0001-3714")
  /\ mount_step Strptime.strptime
       [("0001-3714", [VStr "0001-3714-1998-v10-n1"])]
       (sample_issue regular (Some "10") (Some "3") "1998-09" "0001-3714"
          "9223372036854775808")
     = Raised OverflowError.
Proof. split; reflexivity. Qed.

(* ================================================================== *)
(** * Membership linker: reconcile *)

Section LinkFacts.

Variable K : Type.
Variable serve : K -> request -> K * reply.
Variable DeepDiff : bool -> value -> value -> bool.

(** A loop over two lists in a row: the second runs from the world the
    first has left, unless the first raised. *)
Lemma for_each_app {A} (l1 l2 : list A) (body : A -> M K unit) (w : world K) :
  for_each (l1 ++ l2) body w
  = match for_each l1 body w with
    | (w', Returned _) => for_each l2 body w'
    | (w', Raised e) => (w', Raised e)
    end.
Proof.
  revert w. induction l1 as [|x r IH]; intros w; simpl.
  - reflexivity.
  - unfold bind. destruct (body x w) as [w' [u|e]]; [apply IH | reflexivity].
Qed.

Lemma for_each_cons {A} (x : A) (l : list A) (body : A -> M K unit) :
  for_each (x :: l) body = bind (body x) (fun _ => for_each l body).
Proof. reflexivity. Qed.

(** A checked request that the registry answers with 404 raises. *)
Lemma run_checked_not_found method endpoint data w k' r :
  serve (kernel w) {| req_method := method; req_endpoint := endpoint;
                      req_data := data |} = (k', Responded r) ->
  status_code r = NOT_FOUND ->
  HttpHook_run serve method endpoint data true w
  = (after_request w {| req_method := method; req_endpoint := endpoint;
                        req_data := data |} k', Raised AirflowException).
Proof.
  intros H Hc. unfold HttpHook_run. rewrite H, Hc. reflexivity.
Qed.

End LinkFacts.

(** C9: when the [GET] of a journal of the batch is answered 404, the
    journal is skipped with a warning in the log and no [PUT] for it, and
    the journals after it are processed from there on: the batch is not
    aborted. *)
Theorem update_link_skips_missing_journal
    (K : Type) (serve : K -> request -> K * reply)
    (DeepDiff : bool -> value -> value -> bool)
    (pre post : list (string * list value))
    (journal_id : string) (issues : list value)
    (w w1 : world K) (k' : K) (r : response) :
  update_journals_and_issues_link serve DeepDiff pre w = (w1, Returned tt) ->
  serve (kernel w1) (get_request (KERNEL_API_JOURNAL_ENDPOINT ++ journal_id))
  = (k', Responded r) ->
  status_code r = NOT_FOUND ->
  update_journals_and_issues_link serve DeepDiff
    (pre ++ (journal_id, issues) :: post) w
  = update_journals_and_issues_link serve DeepDiff post
      {| kernel := k';
         sent := (sent w1
                  ++ [get_request (KERNEL_API_JOURNAL_ENDPOINT ++ journal_id)])%list;
         logged := (logged w1
                    ++ [(WARNING,
                         ("journal " ++ journal_id ++ " cannot be found")%string)])%list |}.
Proof.
  intros Hpre Hs Hc. unfold update_journals_and_issues_link in *.
  rewrite for_each_app, Hpre, for_each_cons. unfold bind at 1.
  cbv beta iota. unfold try_except_AirflowException at 1. unfold bind at 1.
  rewrite (@run_checked_not_found K serve GET
             (KERNEL_API_JOURNAL_ENDPOINT ++ journal_id) None w1 k' r Hs Hc).
  reflexivity.
Qed.

Lemma update_link_skips_missing_journal_witness :
  update_journals_and_issues_link registry_serve deep_diff
    ([] ++ ("0001-3714", [VStr "0001-3714-1998-v10-n1"])
        :: [("0034-8910", [VStr "0034-8910-2001-v7"])])
    (empty_world [("/journals/0034-8910", VDict [])])
  = ({| kernel := [("/journals/0034-8910", VDict []);
                   ("/journals/0034-8910/issues",
                    VList [VStr "0034-8910-2001-v7"])];
        sent := [get_request "/journals/0001-3714";
                 get_request "/journals/0034-8910";
                 put_request "/journals/0034-8910/issues"
                   (VList [VStr "0034-8910-2001-v7"])];
        logged := [(WARNING, "journal 0001-3714 cannot be found");
                   (INFO, "updating bundles of journal 0034-8910")] |},
     Returned tt).
Proof.
  rewrite (@update_link_skips_missing_journal registry registry_serve deep_diff
             [] [("0034-8910", [VStr "0034-8910-2001-v7"])]
             "0001-3714" [VStr "0001-3714-1998-v10-n1"]
             (empty_world [("/journals/0034-8910", VDict [])])
             (empty_world [("/journals/0034-8910", VDict [])])
             [("/journals/0034-8910", VDict [])]
             {| status_code := 404; body := None |}
             eq_refl eq_refl eq_refl).
  reflexivity.
Defined.

(* ================================================================== *)
(** * Further properties: identifiers and the issue filter *)

Lemma id_token_label_key prefix v v' :
  label_key v = label_key v' -> id_token prefix v = id_token prefix v'.
Proof.
  unfold label_key, id_token.
  destruct v as [s|], v' as [s'|]; try destruct (PyStr.nonempty s);
    try destruct (PyStr.nonempty s'); intros H; try discriminate;
    try reflexivity.
  inversion H as [H']. now rewrite H'.
Qed.

(** X1: the identifier does not tell a missing label from an empty one,
    nor two labels of digits that differ in leading zeros only: labels
    with the same canonical form give the same identifier. *)
Theorem issue_id_same_labels (i y v v' n n' s s' : option string) :
  label_key v = label_key v' ->
  label_key n = label_key n' ->
  label_key s = label_key s' ->
  issue_id i y v n s = issue_id i y v' n' s'.
Proof.
  intros Hv Hn Hs. rewrite !issue_id_tokens.
  now rewrite (id_token_label_key "v" _ _ Hv), (id_token_label_key "n" _ _ Hn),
    (id_token_label_key "s" _ _ Hs).
Qed.

Lemma issue_id_same_labels_witness :
  issue_id (Some "0001-3714") (Some "1998") (Some "007") (Some "") None
  = issue_id (Some "0001-3714") (Some "1998") (Some "7") None (Some "").
Proof.
  apply issue_id_same_labels; reflexivity.
Defined.

Lemma filter_issues_filter (l : list Issue) :
  filter_issues l = filter is_ordinary l.
Proof.
  unfold filter_issues. simpl. induction l as [|x r IH]; [reflexivity|].
  simpl. unfold is_ordinary.
  destruct (issue_type_eqb (type x) pressrelease); simpl.
  - exact IH.
  - destruct (issue_type_eqb (type x) ahead); simpl; now rewrite IH.
Qed.

(** X2: the two passes of [filter_issues] keep, in their order, exactly
    the issues whose type is neither "pressrelease" nor "ahead". *)
Theorem filter_issues_keeps_ordinary (l : list Issue) :
  filter_issues l = filter is_ordinary l
  /\ forall x, In x (filter_issues l) <->
               In x l /\ type x <> pressrelease /\ type x <> ahead.
Proof.
  split; [apply filter_issues_filter|].
  intros x. rewrite filter_issues_filter, filter_In. unfold is_ordinary.
  rewrite andb_true_iff, !negb_true_iff.
  split; intros [Hi H]; (split; [exact Hi|]).
  - destruct H as [Hp Ha]. split; intros E; rewrite E in *; discriminate.
  - destruct H as [Hp Ha]. destruct (type x); simpl; try tauto; auto.
Qed.

(** X3: filtering twice is filtering once, and the filter of a
    concatenation is the concatenation of the filters. *)
Theorem filter_issues_idempotent_app (l l' : list Issue) :
  filter_issues (filter_issues l) = filter_issues l
  /\ filter_issues (l ++ l') = (filter_issues l ++ filter_issues l')%list.
Proof.
  rewrite !filter_issues_filter. split.
  - induction l as [|x r IH]; [reflexivity|]. simpl.
    destruct (is_ordinary x) eqn:E; simpl; rewrite ?E, IH; reflexivity.
  - apply filter_app.
Qed.

(* ================================================================== *)
(** * Further properties: issue mapping *)

Section IssueMappingMore.

Variable strptime : string -> string -> result datetime.

(** X4: for a record of ASCII text, the issue mapping returns exactly
    when the months, the journal link and the publication date can be
    read; otherwise it raises the error of the first of these steps that
    fails, in this order, a missing journal link or date being a
    [TypeError]. *)
Theorem issue_as_kernel_outcome (issue : Issue) :
  ascii_issue issue = true ->
  ((exists payload, issue_as_kernel strptime issue = Returned payload) <->
   (exists season, publication_season issue = Returned season)
   /\ (exists j, v35 issue = Some j)
   /\ (exists d dt, publication_date issue = Some d
                    /\ parse_date strptime d = Returned dt))
  /\ (forall e, publication_season issue = Raised e ->
                issue_as_kernel strptime issue = Raised e)
  /\ (forall season, publication_season issue = Returned season ->
                     v35 issue = None ->
                     issue_as_kernel strptime issue = Raised TypeError)
  /\ (forall season j, publication_season issue = Returned season ->
                       v35 issue = Some j ->
                       publication_date issue = None ->
                       issue_as_kernel strptime issue = Raised TypeError)
  /\ (forall season j d e, publication_season issue = Returned season ->
                           v35 issue = Some j ->
                           publication_date issue = Some d ->
                           parse_date strptime d = Raised e ->
                           issue_as_kernel strptime issue = Raised e).
Proof.
  intros _. split; [split|split; [|split; [|split]]].
  - intros [payload H]. unfold issue_as_kernel in H.
    destruct (publication_season issue) as [season|e]; [|discriminate].
    destruct (v35 issue) as [j|]; [|discriminate].
    destruct (publication_date issue) as [d|]; [|discriminate].
    simpl in H. destruct (parse_date strptime d) as [dt|e] eqn:E; [|discriminate].
    split; [eauto|split; eauto].
  - intros [[season Hs] [[j Hj] [d [dt [Hd Hp]]]]].
    destruct (issue_as_kernel_payload strptime issue Hs Hj Hd Hp)
      as [id [_ H]]. eauto.
  - intros e H. unfold issue_as_kernel. now rewrite H.
  - intros season Hs Hj. unfold issue_as_kernel. now rewrite Hs, Hj.
  - intros season j Hs Hj Hd. unfold issue_as_kernel. now rewrite Hs, Hj, Hd.
  - intros season j d e Hs Hj Hd Hp. unfold issue_as_kernel.
    now rewrite Hs, Hj, Hd, Hp.
Qed.

End IssueMappingMore.

Lemma issue_as_kernel_outcome_witness :
  issue_as_kernel Strptime.strptime undated_issue = Raised TypeError.
Proof.
  exact (proj1 (proj2 (proj2 (proj2 (@issue_as_kernel_outcome
                                       Strptime.strptime undated_issue
                                       eq_refl))))
           (VList []) "0034-8910" eq_refl eq_refl eq_refl).
Defined.

Lemma sorted_set2_comm a b : sorted_set2 a b = sorted_set2 b a.
Proof.
  unfold sorted_set2. rewrite (Z.eqb_sym a b).
  destruct (b =? a) eqn:E.
  - apply Z.eqb_eq in E. now subst.
  - now rewrite Z.min_comm, Z.max_comm.
Qed.

Lemma int_raises_ValueError s e : PyStr.int s = Raised e -> e = ValueError.
Proof.
  unfold PyStr.int.
  destruct (PyStr.strip s) as [|c r].
  - destruct (PyStr.nat_literal ""); intros H; inversion H; reflexivity.
  - destruct c as [[] [] [] [] [] [] [] []];
      repeat match goal with
        | |- context [match ?x with Some _ => _ | None => _ end] => destruct x
        end; intros H; inversion H; reflexivity.
Qed.

(** X5: for months of ASCII text, the publication season is empty unless
    both months are given; then it holds the two month numbers in
    increasing order, or the one number when they are equal, whichever
    month is the start; when one of the two months is not read by [int],
    it raises [ValueError], and it raises nothing else. *)
Theorem publication_season_sorted (issue : Issue) :
  ascii_label (start_month issue) = true ->
  ascii_label (end_month issue) = true ->
  (truthy_str (start_month issue) && truthy_str (end_month issue) = false ->
   publication_season issue = Returned (VList []))
  /\ (forall sm em a b,
         start_month issue = Some sm -> end_month issue = Some em ->
         PyStr.nonempty sm = true -> PyStr.nonempty em = true ->
         PyStr.int sm = Returned a -> PyStr.int em = Returned b ->
         publication_season issue
         = Returned (VList (if a =? b then [VInt a]
                            else [VInt (Z.min a b); VInt (Z.max a b)]))
         /\ Z.min a b <= Z.max a b)
  /\ (forall sm em,
         start_month issue = Some sm -> end_month issue = Some em ->
         PyStr.nonempty sm = true -> PyStr.nonempty em = true ->
         PyStr.int sm = Raised ValueError \/ PyStr.int em = Raised ValueError ->
         publication_season issue = Raised ValueError)
  /\ (forall e, publication_season issue = Raised e -> e = ValueError)
  /\ (forall issue',
         start_month issue' = end_month issue ->
         end_month issue' = start_month issue ->
         forall season, publication_season issue = Returned season ->
                        publication_season issue' = Returned season).
Proof.
  intros _ _.
  unfold publication_season. split; [|split; [|split; [|split]]].
  - destruct (start_month issue) as [sm|], (end_month issue) as [em|];
      simpl; intros H; try reflexivity. now rewrite H.
  - intros sm em a b Hs He Hns Hne Ha Hb.
    rewrite Hs, He, Hns, Hne, Ha, Hb. simpl. unfold sorted_set2.
    split; [destruct (a =? b); reflexivity | lia].
  - intros sm em Hs He Hns Hne H. rewrite Hs, He, Hns, Hne. simpl.
    destruct H as [H|H]; [now rewrite H|].
    destruct (PyStr.int sm) as [a|e] eqn:E; simpl.
    + now rewrite H.
    + now rewrite (int_raises_ValueError _ E).
  - destruct (start_month issue) as [sm|], (end_month issue) as [em|];
      try discriminate.
    destruct (PyStr.nonempty sm && PyStr.nonempty em); [|discriminate].
    destruct (PyStr.int sm) as [a|e1] eqn:E1; simpl.
    + destruct (PyStr.int em) as [b|e2] eqn:E2; simpl; [discriminate|].
      intros e H; inversion H; subst. eapply int_raises_ValueError; eauto.
    + intros e H; inversion H; subst. eapply int_raises_ValueError; eauto.
  - intros issue' Hs He season. rewrite Hs, He.
    destruct (start_month issue) as [sm|], (end_month issue) as [em|];
      try (intros H; exact H).
    rewrite (andb_comm (PyStr.nonempty em)).
    destruct (PyStr.nonempty sm && PyStr.nonempty em); [|intros H; exact H].
    destruct (PyStr.int sm) as [a|e1], (PyStr.int em) as [b|e2]; simpl;
      try discriminate.
    now rewrite (sorted_set2_comm b a).
Qed.

Lemma publication_season_sorted_witness :
  publication_season
    {| type := regular; volume := None; number := None;
       supplement_volume := None; supplement_number := None;
       titles := None; start_month := Some "3"; end_month := Some "1";
       publication_date := None; v35 := None; v36 := None |}
  = Returned (VList [VInt 1; VInt 3])
  /\ publication_season
       {| type := regular; volume := None; number := None;
          supplement_volume := None; supplement_number := None;
          titles := None; start_month := Some "3"; end_month := Some "May";
          publication_date := None; v35 := None; v36 := None |}
     = Raised ValueError.
Proof.
  split.
  - exact (proj1 (proj1 (proj2 (@publication_season_sorted
             {| type := regular; volume := None; number := None;
                supplement_volume := None; supplement_number := None;
                titles := None; start_month := Some "3"; end_month := Some "1";
                publication_date := None; v35 := None; v36 := None |}
             eq_refl eq_refl))
             "3" "1" 3 1 eq_refl eq_refl eq_refl eq_refl eq_refl eq_refl)).
  - exact (proj1 (proj2 (proj2 (@publication_season_sorted
             {| type := regular; volume := None; number := None;
                supplement_volume := None; supplement_number := None;
                titles := None; start_month := Some "3";
                end_month := Some "May";
                publication_date := None; v35 := None; v36 := None |}
             eq_refl eq_refl)))
             "3" "May" eq_refl eq_refl eq_refl eq_refl
             (or_intror eq_refl)).
Defined.

(* ================================================================== *)
(** * Further properties: what is reconciled for an issue *)

(** What is left of the payload of an issue once [_id] is popped. *)
Lemma issue_payload_pop issue l id :
  exists rest,
    dict_pop (issue_payload issue (VList l) id) "_id" = Returned (VStr id, rest)
    /\ dict_wf rest
    /\ (forall k, ~ In (k, VNone) rest)
    /\ ~ In "_id" (keys rest).
Proof.
  unfold issue_payload, dict_pop, dict_wf, language_values.
  destruct (issue_type_eqb (type issue) supplement);
    destruct (titles issue) as [[|t ts]|]; simpl;
    eexists; (split; [reflexivity|]); simpl;
    (split; [repeat constructor; simpl; intuition discriminate|]);
    (split; [intros k Hk; intuition discriminate | intuition discriminate]).
Qed.

(** X6: the payload of an issue yields its identifier, a string, under
    [_id]; what is left once [_id] is popped, which is what is sent to the
    registry, binds each key once, binds no key to [None] and has no
    [_id] key. *)
Theorem issue_as_kernel_pop_id
    (strptime : string -> string -> result datetime)
    (issue : Issue) (payload : dict) :
  issue_as_kernel strptime issue = Returned payload ->
  exists id rest,
    dict_pop payload "_id" = Returned (VStr id, rest)
    /\ dict_wf rest
    /\ (forall k, ~ In (k, VNone) rest)
    /\ ~ In "_id" (keys rest).
Proof.
  intros H. destruct (issue_as_kernel_inv strptime issue H)
    as [season [id [Hs ->]]].
  destruct (publication_season_list issue Hs) as [l ->].
  exists id. apply issue_payload_pop.
Qed.

Lemma issue_as_kernel_pop_id_witness :
  exists id rest,
    dict_pop
      [("volume", VStr "10"); ("number", VStr "2"); ("titles", VList []);
       ("publication_season", VList []);
       ("_id", VStr "0001-3714-1998-v10-n2")] "_id"
    = Returned (VStr id, rest)
    /\ dict_wf rest
    /\ (forall k, ~ In (k, VNone) rest)
    /\ ~ In "_id" (keys rest).
Proof.
  exact (issue_as_kernel_pop_id Strptime.strptime
           (sample_issue regular (Some "10") (Some "2") "1998-03"
              "0001-3714" "0") eq_refl).
Defined.

Section ReconcileTwice.

Variable K : Type.
Variable serve : K -> request -> K * reply.
Variable DeepDiff : bool -> value -> value -> bool.

(** Two calls in a row for a well-formed payload without [None], against
    a registry that stores what is put: a [GET], the [PUT] of the pruned
    payload, and a [GET]. *)
Lemma reconcile_twice_pruned _id (payload : dict) entity_url
    (k0 k1 k2 k3 : K) (r1 r2 r3 : response) (b : dict) :
  (forall v, DeepDiff true v v = false) ->
  dict_wf payload ->
  (forall k, ~ In (k, VNone) payload) ->
  serve k0 (get_request (entity_url ++ _id)) = (k1, Responded r1) ->
  status_code r1 = NOT_FOUND ->
  serve k1 (put_request (entity_url ++ _id)
              (VDict (filter (fun kv => truthy (snd kv)) payload)))
  = (k2, Responded r2) ->
  serve k2 (get_request (entity_url ++ _id)) = (k3, Responded r3) ->
  status_code r3 = OK ->
  body r3 = Some (VDict b) ->
  lookup "metadata" b
  = Some (VDict (filter (fun kv => truthy (snd kv)) payload)) ->
  bind (register_or_update serve DeepDiff _id payload entity_url)
       (fun _ => register_or_update serve DeepDiff _id payload entity_url)
       (empty_world k0)
  = ({| kernel := k3;
        sent := [get_request (entity_url ++ _id);
                 put_request (entity_url ++ _id)
                   (VDict (filter (fun kv => truthy (snd kv)) payload));
                 get_request (entity_url ++ _id)];
        logged := [] |}, Returned r3).
Proof.
  intros Hrefl Hwf Hn H1 Hc1 H2 H3 Hc3 Hb Hm. unfold bind at 1.
  rewrite (@register_or_update_NOT_FOUND K serve DeepDiff _id payload
             entity_url (empty_world k0) k1 r1 H1 Hc1).
  rewrite (@run_unchecked K serve PUT (entity_url ++ _id)
             (Some (VDict (filter (fun kv => truthy (snd kv)) payload)))
             (after_request (empty_world k0)
                (get_request (entity_url ++ _id)) k1) k2 r2 H2).
  rewrite (@register_or_update_OK K serve DeepDiff _id payload entity_url
             (after_request
                (after_request (empty_world k0)
                   (get_request (entity_url ++ _id)) k1)
                {| req_method := PUT;
                   req_endpoint := entity_url ++ _id;
                   req_data :=
                     Some (VDict (filter (fun kv => truthy (snd kv))
                                    payload)) |} k2)
             k3 r3 b _ H3 Hc3 Hb Hm).
  rewrite (comparison_of_pruned Hwf Hn), Hrefl. reflexivity.
Qed.

End ReconcileTwice.

(** X7: an issue that was mapped and is reconciled twice in a row, under
    its identifier, against a registry that stores what is put, is
    written once: one [PUT] on the first call, nothing on the second. *)
Theorem issue_reconciled_once
    (K : Type) (serve : K -> request -> K * reply)
    (DeepDiff : bool -> value -> value -> bool)
    (strptime : string -> string -> result datetime)
    (issue : Issue) (payload rest : dict) (id : string)
    (k0 k1 k2 k3 : K) (r1 r2 r3 : response) (b : dict) :
  issue_as_kernel strptime issue = Returned payload ->
  dict_pop payload "_id" = Returned (VStr id, rest) ->
  (forall v, DeepDiff true v v = false) ->
  serve k0 (get_request (KERNEL_API_BUNDLES_ENDPOINT ++ id))
  = (k1, Responded r1) ->
  status_code r1 = NOT_FOUND ->
  serve k1 (put_request (KERNEL_API_BUNDLES_ENDPOINT ++ id)
              (VDict (filter (fun kv => truthy (snd kv)) rest)))
  = (k2, Responded r2) ->
  serve k2 (get_request (KERNEL_API_BUNDLES_ENDPOINT ++ id))
  = (k3, Responded r3) ->
  status_code r3 = OK ->
  body r3 = Some (VDict b) ->
  lookup "metadata" b = Some (VDict (filter (fun kv => truthy (snd kv)) rest)) ->
  bind (register_or_update serve DeepDiff id rest KERNEL_API_BUNDLES_ENDPOINT)
       (fun _ =>
          register_or_update serve DeepDiff id rest KERNEL_API_BUNDLES_ENDPOINT)
       (empty_world k0)
  = ({| kernel := k3;
        sent := [get_request (KERNEL_API_BUNDLES_ENDPOINT ++ id);
                 put_request (KERNEL_API_BUNDLES_ENDPOINT ++ id)
                   (VDict (filter (fun kv => truthy (snd kv)) rest));
                 get_request (KERNEL_API_BUNDLES_ENDPOINT ++ id)];
        logged := [] |}, Returned r3).
Proof.
  intros Hmap Hpop Hrefl H1 Hc1 H2 H3 Hc3 Hb Hm.
  destruct (issue_as_kernel_inv strptime issue Hmap) as [season [id' [Hs ->]]].
  destruct (publication_season_list issue Hs) as [l ->].
  destruct (issue_payload_pop issue l id') as [rest' [Hpop' [Hwf [Hn _]]]].
  rewrite Hpop in Hpop'. inversion Hpop'; subst id' rest'.
  now apply reconcile_twice_pruned with (r1 := r1) (r2 := r2) (k1 := k1) (k2 := k2)
                                        (b := b).
Qed.

Lemma issue_reconciled_once_witness :
  bind (register_or_update registry_serve deep_diff "0001-3714-1998-v10-n2"
          [("volume", VStr "10"); ("number", VStr "2"); ("titles", VList []);
           ("publication_season", VList [])] KERNEL_API_BUNDLES_ENDPOINT)
       (fun _ =>
          register_or_update registry_serve deep_diff "0001-3714-1998-v10-n2"
            [("volume", VStr "10"); ("number", VStr "2"); ("titles", VList []);
             ("publication_season", VList [])] KERNEL_API_BUNDLES_ENDPOINT)
       (empty_world [])
  = ({| kernel := [("/bundles/0001-3714-1998-v10-n2",
                    VDict [("volume", VStr "10"); ("number", VStr "2")])];
        sent := [get_request "/bundles/0001-3714-1998-v10-n2";
                 put_request "/bundles/0001-3714-1998-v10-n2"
                   (VDict [("volume", VStr "10"); ("number", VStr "2")]);
                 get_request "/bundles/0001-3714-1998-v10-n2"];
        logged := [] |},
     Returned {| status_code := 200;
                 body := Some (VDict [("metadata",
                                       VDict [("volume", VStr "10");
                                              ("number", VStr "2")]);
                                      ("items", VList [])]) |}).
Proof.
  apply (@issue_reconciled_once registry registry_serve deep_diff
           Strptime.strptime
           (sample_issue regular (Some "10") (Some "2") "1998-03"
              "0001-3714" "0")
           [("volume", VStr "10"); ("number", VStr "2"); ("titles", VList []);
            ("publication_season", VList []);
            ("_id", VStr "0001-3714-1998-v10-n2")]
           [("volume", VStr "10"); ("number", VStr "2"); ("titles", VList []);
            ("publication_season", VList [])]
           "0001-3714-1998-v10-n2"
           [] []
           [("/bundles/0001-3714-1998-v10-n2",
             VDict [("volume", VStr "10"); ("number", VStr "2")])]
           [("/bundles/0001-3714-1998-v10-n2",
             VDict [("volume", VStr "10"); ("number", VStr "2")])]
           {| status_code := 404; body := None |}
           {| status_code := 201; body := Some (VDict []) |}
           {| status_code := 200;
              body := Some (VDict [("metadata",
                                    VDict [("volume", VStr "10");
                                           ("number", VStr "2")]);
                                   ("items", VList [])]) |}
           [("metadata", VDict [("volume", VStr "10"); ("number", VStr "2")]);
            ("items", VList [])]);
    try reflexivity.
  exact deep_diff_same.
Defined.

(* ================================================================== *)
(** * Further properties: journal mapping *)

Lemma fold_subject_area_step (areas : list string) (acc : list value) :
  fold_left subject_area_step areas acc
  = (acc ++ map (fun a => VStr (normal_subject_area a)) areas)%list.
Proof.
  revert acc. induction areas as [|a r IH]; intros acc; simpl.
  - now rewrite List.app_nil_r.
  - rewrite IH. unfold subject_area_step. rewrite <- List.app_assoc. simpl.
    unfold normal_subject_area at 2.
    destruct (String.eqb (upper a) "LINGUISTICS, LETTERS AND ARTS"); reflexivity.
Qed.

Lemma dict_set_twice {V} (d : list (string * V)) k v w :
  dict_set (dict_set d k v) k w = dict_set d k w.
Proof.
  induction d as [|[k' x] r IH]; simpl.
  - now rewrite String.eqb_refl.
  - destruct (String.eqb k' k) eqn:E; simpl; rewrite E; [reflexivity|].
    now rewrite IH.
Qed.

Lemma set_mission_eq journal p :
  set_mission journal p
  = dict_set p "mission"
      (VList (map (fun lv => VDict [("language", VStr (fst lv));
                                    ("value", VStr (snd lv))])
                (optional_list (mission journal)))).
Proof.
  unfold set_mission. destruct (mission journal) as [[|m ms]|]; reflexivity.
Qed.

Lemma set_status_eq journal p :
  set_status journal p = dict_set p "status" (VDict (journal_status journal)).
Proof.
  unfold set_status, journal_status.
  destruct (status_history journal) as [[|h t]|]; try reflexivity.
  cbv zeta. rewrite dict_set_twice.
  destruct (last (h :: t) h) as [[d st] [re|]]; simpl;
    [destruct (PyStr.nonempty re)|]; reflexivity.
Qed.

Lemma set_subject_areas_eq journal p :
  set_subject_areas journal p
  = dict_set p "subject_areas"
      (VList (map (fun a => VStr (normal_subject_area a))
                (optional_list (subject_areas journal)))).
Proof.
  unfold set_subject_areas.
  destruct (subject_areas journal) as [[|a r]|]; try reflexivity.
  cbv zeta. now rewrite dict_set_twice, fold_subject_area_step.
Qed.

Lemma set_sponsors_eq journal p :
  set_sponsors journal p
  = dict_set p "sponsors"
      (VList (map (fun sponsor => VDict [("name", VStr sponsor)])
                (optional_list (sponsors journal)))).
Proof.
  unfold set_sponsors.
  destruct (sponsors journal) as [[|a r]|]; try reflexivity.
  cbv zeta. now rewrite dict_set_twice.
Qed.

Lemma set_named_eq key name p :
  set_named key name p = dict_set p key (VDict (named name)).
Proof.
  unfold set_named, named. destruct name as [t|]; [|reflexivity].
  destruct (PyStr.nonempty t); [|reflexivity].
  cbv zeta. now rewrite dict_set_twice.
Qed.

(** The journal mapping, key by key. *)
Lemma journal_as_kernel_payload (journal : Journal) :
  journal_as_kernel journal = journal_payload journal.
Proof.
  unfold journal_as_kernel, journal_payload, set_contact. cbv zeta.
  rewrite dict_set_twice, !set_named_eq, set_sponsors_eq,
    set_subject_areas_eq, set_status_eq, set_mission_eq.
  assert (Hw : match wos_subject_areas journal with
               | Some ((_ :: _) as l) => VList (map VStr l)
               | _ => VList []
               end
               = VList (map VStr (optional_list (wos_subject_areas journal))))
    by (destruct (wos_subject_areas journal) as [[|c cs]|]; reflexivity).
  rewrite Hw.
  destruct (editor_email journal) as [e|];
    try destruct (PyStr.nonempty e);
    destruct (editor_address journal) as [a|];
    try destruct (PyStr.nonempty a); reflexivity.
Qed.

(** X8: the payload of an issue binds, in this order, [volume], [number],
    [supplement] for a supplement only, [titles], [publication_season]
    and [_id]; volume and number are the labels of the record, empty when
    missing; titles has one language/value entry per title of the record,
    in their order, and is empty without titles. *)
Theorem issue_as_kernel_entries
    (strptime : string -> string -> result datetime)
    (issue : Issue) (payload : dict) :
  issue_as_kernel strptime issue = Returned payload ->
  keys payload
  = (["volume"; "number"]
     ++ (if issue_type_eqb (type issue) supplement then ["supplement"] else [])
     ++ ["titles"; "publication_season"; "_id"])%list
  /\ lookup "volume" payload
     = Some (VStr (match volume issue with Some s => s | None => "" end))
  /\ lookup "number" payload
     = Some (VStr (match number issue with Some s => s | None => "" end))
  /\ lookup "titles" payload
     = Some (VList (map (fun lv => VDict [("language", VStr (fst lv));
                                          ("value", VStr (snd lv))])
                      (optional_list (titles issue)))).
Proof.
  intros H. destruct (issue_as_kernel_inv strptime issue H)
    as [season [id [_ ->]]].
  unfold issue_payload, language_values, optional_list, or_str.
  destruct (issue_type_eqb (type issue) supplement);
    destruct (titles issue) as [[|t ts]|];
    destruct (volume issue) as [[|vc vr]|];
    destruct (number issue) as [[|nc nr]|]; repeat split; reflexivity.
Qed.

Lemma issue_as_kernel_entries_witness :
  lookup "titles"
    [("volume", VStr "10"); ("number", VStr ""); ("titles", VList []);
     ("publication_season", VList []); ("_id", VStr "0001-3714-1998-v10")]
  = Some (VList []).
Proof.
  exact (proj2 (proj2 (proj2
           (issue_as_kernel_entries Strptime.strptime
              (sample_issue regular (Some "10") None "1998-03"
                 "0001-3714" "0") eq_refl)))).
Defined.

(** X9: the payload of a journal always binds the same seventeen keys, in
    the same order, each once; but for [_id], no key is bound to [None]:
    every entry is a string, a list or a dictionary. *)
Theorem journal_as_kernel_keys (journal : Journal) :
  keys (journal_as_kernel journal)
  = ["_id"; "mission"; "title"; "title_iso"; "short_title"; "acronym";
     "scielo_issn"; "print_issn"; "electronic_issn"; "status";
     "subject_areas"; "sponsors"; "subject_categories";
     "online_submission_url"; "next_journal"; "previous_journal"; "contact"]
  /\ dict_wf (journal_as_kernel journal)
  /\ forall k v, In (k, v) (journal_as_kernel journal) -> k <> "_id" ->
                 (exists s, v = VStr s) \/ (exists l, v = VList l)
                 \/ (exists d, v = VDict d).
Proof.
  rewrite journal_as_kernel_payload. split; [reflexivity|]. split.
  - unfold dict_wf, journal_payload. simpl.
    repeat constructor; simpl; intuition discriminate.
  - intros k v Hi Hk. unfold journal_payload in Hi. simpl in Hi.
    repeat (destruct Hi as [Hi|Hi];
            [inversion Hi; subst; try congruence; eauto|]).
    contradiction.
Qed.

(** X10: the status of a journal payload is empty when the record has no
    status history; else it holds the status of the last entry of the
    history, and its reason exactly when that reason is not empty. *)
Theorem journal_as_kernel_status (journal : Journal) :
  (optional_list (status_history journal) = [] ->
   lookup "status" (journal_as_kernel journal) = Some (VDict []))
  /\ (forall h t date status reason,
         status_history journal = Some (h :: t) ->
         last (h :: t) h = (date, status, reason) ->
         lookup "status" (journal_as_kernel journal)
         = Some (VDict (("status", VStr status)
                        :: match reason with
                           | Some r => if PyStr.nonempty r
                                       then [("reason", VStr r)] else []
                           | None => []
                           end))).
Proof.
  rewrite journal_as_kernel_payload. unfold journal_payload, journal_status.
  split.
  - destruct (status_history journal) as [[|h t]|]; simpl; try reflexivity.
    discriminate.
  - intros h t date status reason Hh Hl. rewrite Hh, Hl. reflexivity.
Qed.

Lemma journal_as_kernel_status_witness :
  lookup "status" (journal_as_kernel sample_journal)
  = Some (VDict [("status", VStr "suspended"); ("reason", VStr "by-editor")]).
Proof.
  exact (proj2 (journal_as_kernel_status sample_journal)
           ("1990", "current", None)
           [("1999", "suspended", Some "by-editor")]
           "1999" "suspended" (Some "by-editor") eq_refl eq_refl).
Defined.

Lemma upper_char_idempotent c : upper_char (upper_char c) = upper_char c.
Proof. destruct c as [[] [] [] [] [] [] [] []]; reflexivity. Qed.

Lemma upper_idempotent s : upper (upper s) = upper s.
Proof.
  induction s as [|c r IH]; simpl; [reflexivity|].
  now rewrite upper_char_idempotent, IH.
Qed.

(** X11: for subject areas of ASCII text, the subject areas of a journal
    payload are those of the record, in their order, each in upper case
    (the letters a to z replaced by A to Z), an area that reads
    "LINGUISTICS, LETTERS AND ARTS" in any casing being replaced by
    "LINGUISTIC, LITERATURE AND ARTS"; every area of the payload is its
    own upper case. *)
Theorem journal_as_kernel_subject_areas (journal : Journal) :
  forallb PyStr.is_ascii (optional_list (subject_areas journal)) = true ->
  lookup "subject_areas" (journal_as_kernel journal)
  = Some (VList (map (fun a => VStr (normal_subject_area a))
                   (optional_list (subject_areas journal))))
  /\ (forall a, In a (optional_list (subject_areas journal)) ->
                upper a = "LINGUISTICS, LETTERS AND ARTS" ->
                normal_subject_area a = "LINGUISTIC, LITERATURE AND ARTS")
  /\ (forall a, In a (optional_list (subject_areas journal)) ->
                upper a <> "LINGUISTICS, LETTERS AND ARTS" ->
                normal_subject_area a = upper a)
  /\ (forall a, In a (optional_list (subject_areas journal)) ->
                upper (normal_subject_area a) = normal_subject_area a).
Proof.
  intros _. rewrite journal_as_kernel_payload. split; [reflexivity|].
  unfold normal_subject_area. repeat split; intros a _.
  - intros H. now rewrite H.
  - intros H. apply String.eqb_neq in H. now rewrite H.
  - destruct (String.eqb (upper a) "LINGUISTICS, LETTERS AND ARTS");
      [reflexivity | apply upper_idempotent].
Qed.

Lemma journal_as_kernel_subject_areas_witness :
  lookup "subject_areas" (journal_as_kernel sample_journal)
  = Some (VList [VStr "LINGUISTIC, LITERATURE AND ARTS";
                 VStr "HEALTH SCIENCES"]).
Proof.
  exact (proj1 (@journal_as_kernel_subject_areas sample_journal eq_refl)).
Defined.

(** What is left of the payload of a journal once [_id] is popped. *)
Lemma journal_payload_pop (journal : Journal) :
  exists rest,
    dict_pop (journal_as_kernel journal) "_id"
    = Returned (value_of_option (scielo_issn journal), rest)
    /\ dict_wf rest
    /\ (forall k, ~ In (k, VNone) rest)
    /\ ~ In "_id" (keys rest).
Proof.
  rewrite journal_as_kernel_payload. unfold journal_payload, dict_pop, dict_wf.
  simpl. eexists. split; [reflexivity|]. simpl.
  split; [repeat constructor; simpl; intuition discriminate|].
  split; [intros k Hk; intuition discriminate | intuition discriminate].
Qed.

(** X12: a journal that has a SciELO ISSN and is reconciled twice in a
    row, as [process_journals] does it (under its ISSN, without the [_id]
    entry), against a registry that stores what is put, is written once:
    one [PUT] on the first call, nothing on the second. *)
Theorem journal_reconciled_once
    (K : Type) (serve : K -> request -> K * reply)
    (DeepDiff : bool -> value -> value -> bool)
    (journal : Journal) (id : string) (_id : value) (rest : dict)
    (k0 k1 k2 k3 : K) (r1 r2 r3 : response) (b : dict) :
  scielo_issn journal = Some id ->
  dict_pop (journal_as_kernel journal) "_id" = Returned (_id, rest) ->
  (forall v, DeepDiff true v v = false) ->
  serve k0 (get_request (KERNEL_API_JOURNAL_ENDPOINT ++ id))
  = (k1, Responded r1) ->
  status_code r1 = NOT_FOUND ->
  serve k1 (put_request (KERNEL_API_JOURNAL_ENDPOINT ++ id)
              (VDict (filter (fun kv => truthy (snd kv)) rest)))
  = (k2, Responded r2) ->
  serve k2 (get_request (KERNEL_API_JOURNAL_ENDPOINT ++ id))
  = (k3, Responded r3) ->
  status_code r3 = OK ->
  body r3 = Some (VDict b) ->
  lookup "metadata" b = Some (VDict (filter (fun kv => truthy (snd kv)) rest)) ->
  format_id _id = Returned id
  /\ bind (register_or_update serve DeepDiff id rest KERNEL_API_JOURNAL_ENDPOINT)
          (fun _ =>
             register_or_update serve DeepDiff id rest
               KERNEL_API_JOURNAL_ENDPOINT)
          (empty_world k0)
     = ({| kernel := k3;
           sent := [get_request (KERNEL_API_JOURNAL_ENDPOINT ++ id);
                    put_request (KERNEL_API_JOURNAL_ENDPOINT ++ id)
                      (VDict (filter (fun kv => truthy (snd kv)) rest));
                    get_request (KERNEL_API_JOURNAL_ENDPOINT ++ id)];
           logged := [] |}, Returned r3).
Proof.
  intros Hid Hpop Hrefl H1 Hc1 H2 H3 Hc3 Hb Hm.
  destruct (journal_payload_pop journal) as [rest' [Hpop' [Hwf [Hn _]]]].
  rewrite Hpop in Hpop'. inversion Hpop'; subst _id rest'.
  split; [now rewrite Hid|].
  now apply reconcile_twice_pruned with (r1 := r1) (r2 := r2) (k1 := k1) (k2 := k2)
                                        (b := b).
Qed.

Lemma journal_reconciled_once_witness :
  bind (register_or_update registry_serve deep_diff "0001-3714"
          sample_journal_rest KERNEL_API_JOURNAL_ENDPOINT)
       (fun _ =>
          register_or_update registry_serve deep_diff "0001-3714"
            sample_journal_rest KERNEL_API_JOURNAL_ENDPOINT)
       (empty_world [])
  = ({| kernel := [("/journals/0001-3714", VDict sample_journal_pruned)];
        sent := [get_request "/journals/0001-3714";
                 put_request "/journals/0001-3714" (VDict sample_journal_pruned);
                 get_request "/journals/0001-3714"];
        logged := [] |},
     Returned {| status_code := 200;
                 body := Some (VDict [("metadata", VDict sample_journal_pruned);
                                      ("items", VList [])]) |}).
Proof.
  exact (proj2 (@journal_reconciled_once registry registry_serve deep_diff
                  sample_journal "0001-3714" (VStr "0001-3714")
                  sample_journal_rest
                  [] []
                  [("/journals/0001-3714", VDict sample_journal_pruned)]
                  [("/journals/0001-3714", VDict sample_journal_pruned)]
                  {| status_code := 404; body := None |}
                  {| status_code := 201; body := Some (VDict []) |}
                  {| status_code := 200;
                     body := Some (VDict [("metadata",
                                           VDict sample_journal_pruned);
                                          ("items", VList [])]) |}
                  [("metadata", VDict sample_journal_pruned);
                   ("items", VList [])]
                  eq_refl eq_refl deep_diff_same eq_refl eq_refl eq_refl
                  eq_refl eq_refl eq_refl eq_refl)).
Defined.

(* ================================================================== *)
(** * Further properties: the requests of a reconciliation *)

Lemma rfilter_incl {A} (p : A -> result bool) (l l' : list A) :
  rfilter p l = Returned l' -> incl l' l.
Proof.
  revert l'. induction l as [|x r IH]; simpl; intros l' H.
  - inversion H. apply incl_refl.
  - destruct (p x) as [b|e]; [|discriminate]. simpl in H.
    destruct (rfilter p r) as [ys|e]; [|discriminate]. simpl in H.
    inversion H; subst. specialize (IH ys eq_refl).
    destruct b.
    + apply incl_cons; [now left | now apply incl_tl].
    + now apply incl_tl.
Qed.

Section RequestsOfReconcile.

Variable K : Type.
Variable serve : K -> request -> K * reply.
Variable DeepDiff : bool -> value -> value -> bool.

(** A call sends the [GET] of the entity and then at most one write, a
    [PUT] or a [PATCH] of the same entity whose body holds bindings of
    the payload only. *)
Lemma register_or_update_sent _id payload entity_url (w : world K) :
  exists extra,
    sent (fst (register_or_update serve DeepDiff _id payload entity_url w))
    = (sent w ++ get_request (entity_url ++ _id) :: extra)%list
    /\ (extra = []
        \/ exists m d,
             extra = [{| req_method := m;
                         req_endpoint := entity_url ++ _id;
                         req_data := Some (VDict d) |}]
             /\ (m = PUT \/ m = PATCH)
             /\ incl d payload).
Proof.
  unfold register_or_update, bind.
  pose proof (run_sent serve GET (entity_url ++ _id) None false w) as Hg.
  destruct (HttpHook_run serve GET (entity_url ++ _id) None false w)
    as [w1 [r|e]]; simpl in Hg.
  2:{ exists []. split; [exact Hg | now left]. }
  destruct (status_code r =? NOT_FOUND).
  { eexists. rewrite run_sent, Hg, <- List.app_assoc. split; [reflexivity|].
    right. eexists; eexists. split; [reflexivity|]. split; [now left|].
    intros x Hx. apply filter_In in Hx. tauto. }
  destruct (status_code r =? OK).
  2:{ exists []. split; [exact Hg | now left]. }
  unfold lift.
  destruct (rbind (response_json r) (fun j => py_getitem j "metadata"))
    as [md|e].
  2:{ exists []. split; [exact Hg | now left]. }
  match goal with
  | |- context [rfilter ?p payload] =>
      destruct (rfilter p payload) as [payload'|e] eqn:Ef
  end.
  2:{ exists []. split; [exact Hg | now left]. }
  destruct (DeepDiff true md (VDict payload')).
  - eexists. rewrite run_sent, Hg, <- List.app_assoc. split; [reflexivity|].
    right. eexists; eexists. split; [reflexivity|]. split; [now right|].
    eapply rfilter_incl; eauto.
  - exists []. split; [exact Hg | now left].
Qed.

End RequestsOfReconcile.

(** X13: whatever the registry answers, a call sends the [GET] of the
    entity first and after it at most one request, a [PUT] or a [PATCH]
    to the same endpoint whose body binds keys of the payload to their
    values in the payload: no other endpoint is touched and nothing that
    the payload does not hold is sent. *)
Theorem register_or_update_requests
    (K : Type) (serve : K -> request -> K * reply)
    (DeepDiff : bool -> value -> value -> bool)
    (_id : string) (payload : dict) (entity_url : string) (w : world K) :
  exists extra,
    sent (fst (register_or_update serve DeepDiff _id payload entity_url w))
    = (sent w ++ get_request (entity_url ++ _id) :: extra)%list
    /\ (length extra <= 1)%nat
    /\ forall q, In q extra ->
                 req_endpoint q = entity_url ++ _id
                 /\ (req_method q = PUT \/ req_method q = PATCH)
                 /\ exists d, req_data q = Some (VDict d) /\ incl d payload.
Proof.
  destruct (register_or_update_sent serve DeepDiff _id payload entity_url w)
    as [extra [Hs [He|[m [d [He [Hm Hi]]]]]]]; exists extra; subst extra;
    (split; [exact Hs|]); simpl; (split; [lia|]); intros q Hq.
  - contradiction.
  - destruct Hq as [<-|[]]. simpl. eauto.
Qed.

(** X14: when the registry cannot be reached for the first [GET], the
    call raises [ConnectionError] and sends nothing else; when it cannot
    be reached for the [PUT] that follows a 404, the call raises
    [ConnectionError] after the two requests. *)
Theorem register_or_update_unreachable
    (K : Type) (serve : K -> request -> K * reply)
    (DeepDiff : bool -> value -> value -> bool)
    (_id : string) (payload : dict) (entity_url : string) (w : world K) :
  (forall k', serve (kernel w) (get_request (entity_url ++ _id))
              = (k', Unreachable) ->
              register_or_update serve DeepDiff _id payload entity_url w
              = (after_request w (get_request (entity_url ++ _id)) k',
                 Raised ConnectionError))
  /\ (forall k1 r k2,
         serve (kernel w) (get_request (entity_url ++ _id))
         = (k1, Responded r) ->
         status_code r = NOT_FOUND ->
         serve k1 (put_request (entity_url ++ _id)
                     (VDict (filter (fun kv => truthy (snd kv)) payload)))
         = (k2, Unreachable) ->
         register_or_update serve DeepDiff _id payload entity_url w
         = (after_request
              (after_request w (get_request (entity_url ++ _id)) k1)
              (put_request (entity_url ++ _id)
                 (VDict (filter (fun kv => truthy (snd kv)) payload))) k2,
            Raised ConnectionError)).
Proof.
  split.
  - intros k' H. unfold register_or_update, bind, HttpHook_run.
    unfold get_request in H. rewrite H. reflexivity.
  - intros k1 r k2 H1 Hc H2.
    rewrite (@register_or_update_NOT_FOUND K serve DeepDiff _id payload
               entity_url w k1 r H1 Hc).
    unfold HttpHook_run. unfold put_request in H2. simpl. rewrite H2.
    reflexivity.
Qed.

(** X15: a 200 answer to the first [GET] whose body cannot be used makes
    the call raise without writing: [ValueError] when the body is not
    JSON, [KeyError] when the document has no [metadata], [TypeError]
    when the document is not a dictionary. *)
Theorem register_or_update_unusable_body
    (K : Type) (serve : K -> request -> K * reply)
    (DeepDiff : bool -> value -> value -> bool)
    (_id : string) (payload : dict) (entity_url : string)
    (w : world K) (k' : K) (r : response) :
  serve (kernel w) (get_request (entity_url ++ _id)) = (k', Responded r) ->
  status_code r = OK ->
  (body r = None ->
   register_or_update serve DeepDiff _id payload entity_url w
   = (after_request w (get_request (entity_url ++ _id)) k', Raised ValueError))
  /\ (forall b, body r = Some (VDict b) -> lookup "metadata" b = None ->
                register_or_update serve DeepDiff _id payload entity_url w
                = (after_request w (get_request (entity_url ++ _id)) k',
                   Raised KeyError))
  /\ (forall v, body r = Some v -> (forall b, v <> VDict b) ->
                register_or_update serve DeepDiff _id payload entity_url w
                = (after_request w (get_request (entity_url ++ _id)) k',
                   Raised TypeError)).
Proof.
  intros Hs Hc.
  assert (Hrun : register_or_update serve DeepDiff _id payload entity_url w
                 = bind (lift (rbind (response_json r)
                                 (fun j => py_getitem j "metadata")))
                     (fun _metadata =>
                      bind (lift (rfilter
                                    (fun kv : string * value =>
                                       let (k, v) := kv in
                                       rbind (py_get _metadata k) (fun m =>
                                       if truthy m then Returned true
                                       else rbind (py_get _metadata k)
                                              (fun m' =>
                                               Returned (py_eq m' v || truthy v))))
                                    payload))
                        (fun payload =>
                         if DeepDiff true _metadata (VDict payload)
                         then HttpHook_run serve PATCH (entity_url ++ _id)
                                (Some (VDict payload)) false
                         else ret r))
                     (after_request w (get_request (entity_url ++ _id)) k')).
  { unfold register_or_update. unfold bind at 1.
    rewrite (@run_unchecked K serve GET (entity_url ++ _id) None w k' r Hs).
    rewrite Hc. reflexivity. }
  rewrite Hrun. unfold bind at 1, lift at 1, response_json.
  split; [|split].
  - intros Hb. now rewrite Hb.
  - intros b Hb Hm. rewrite Hb. simpl. now rewrite Hm.
  - intros v Hb Hv. rewrite Hb. simpl.
    destruct v; try reflexivity. exfalso. eapply Hv. reflexivity.
Qed.

Lemma register_or_update_unusable_body_witness :
  register_or_update (fun (st : unit) (_ : request) =>
                        (st, Responded {| status_code := 200;
                                          body := Some (VDict []) |}))
    deep_diff "0001-3714" [("title", VStr "Acta X")] "/journals/"
    (empty_world tt)
  = ({| kernel := tt; sent := [get_request "/journals/0001-3714"];
        logged := [] |}, Raised KeyError).
Proof.
  exact (proj1 (proj2
           (@register_or_update_unusable_body unit
              (fun (st : unit) (_ : request) =>
                 (st, Responded {| status_code := 200;
                                   body := Some (VDict []) |}))
              deep_diff "0001-3714" [("title", VStr "Acta X")] "/journals/"
              (empty_world tt) tt
              {| status_code := 200; body := Some (VDict []) |}
              eq_refl eq_refl)) [] eq_refl eq_refl).
Defined.

(** X16: the answer to the write is not checked: after a 404, whatever
    the registry answers to the [PUT], a 5xx included, the call returns
    that answer and raises nothing. *)
Theorem register_or_update_write_unchecked
    (K : Type) (serve : K -> request -> K * reply)
    (DeepDiff : bool -> value -> value -> bool)
    (_id : string) (payload : dict) (entity_url : string)
    (w : world K) (k1 k2 : K) (r1 r2 : response) :
  serve (kernel w) (get_request (entity_url ++ _id)) = (k1, Responded r1) ->
  status_code r1 = NOT_FOUND ->
  serve k1 (put_request (entity_url ++ _id)
              (VDict (filter (fun kv => truthy (snd kv)) payload)))
  = (k2, Responded r2) ->
  register_or_update serve DeepDiff _id payload entity_url w
  = (after_request
       (after_request w (get_request (entity_url ++ _id)) k1)
       (put_request (entity_url ++ _id)
          (VDict (filter (fun kv => truthy (snd kv)) payload))) k2,
     Returned r2).
Proof.
  intros H1 Hc H2.
  rewrite (@register_or_update_NOT_FOUND K serve DeepDiff _id payload
             entity_url w k1 r1 H1 Hc).
  now rewrite (@run_unchecked K serve PUT (entity_url ++ _id)
                 (Some (VDict (filter (fun kv => truthy (snd kv)) payload)))
                 (after_request w (get_request (entity_url ++ _id)) k1)
                 k2 r2 H2).
Qed.

Lemma register_or_update_write_unchecked_witness :
  register_or_update
    (fun (st : unit) (q : request) =>
       (st, Responded {| status_code := match req_method q with
                                         | GET => 404
                                         | _ => 500
                                         end;
                         body := None |}))
    deep_diff "0001-3714" [("title", VStr "Acta X")] "/journals/"
    (empty_world tt)
  = ({| kernel := tt;
        sent := [get_request "/journals/0001-3714";
                 put_request "/journals/0001-3714"
                   (VDict [("title", VStr "Acta X")])];
        logged := [] |},
     Returned {| status_code := 500; body := None |}).
Proof.
  exact (@register_or_update_write_unchecked unit
           (fun (st : unit) (q : request) =>
              (st, Responded {| status_code := match req_method q with
                                                | GET => 404
                                                | _ => 500
                                                end;
                                body := None |}))
           deep_diff "0001-3714" [("title", VStr "Acta X")] "/journals/"
           (empty_world tt) tt tt
           {| status_code := 404; body := None |}
           {| status_code := 500; body := None |}
           eq_refl eq_refl eq_refl).
Defined.

(* ================================================================== *)
(** * Further properties: membership reconciliation *)

Section LinkMore.

Variable K : Type.
Variable serve : K -> request -> K * reply.
Variable DeepDiff : bool -> value -> value -> bool.

(** The requests of a loop are those of its turns. *)
Lemma for_each_sent {A} (Q : A -> request -> Prop) (n : nat) (l : list A)
    (body : A -> M K unit) :
  (forall x w, In x l ->
               exists new, sent (fst (body x w)) = (sent w ++ new)%list
                           /\ (length new <= n)%nat
                           /\ Forall (Q x) new) ->
  forall w,
    exists new,
      sent (fst (for_each l body w)) = (sent w ++ new)%list
      /\ (length new <= n * length l)%nat
      /\ Forall (fun q => exists x, In x l /\ Q x q) new.
Proof.
  induction l as [|x r IH]; intros Hb w.
  - exists []. simpl. rewrite List.app_nil_r. repeat split; [lia | constructor].
  - destruct (Hb x w (or_introl eq_refl)) as [new1 [H1 [L1 F1]]].
    simpl for_each. unfold bind.
    destruct (body x w) as [w1 [u|e]]; simpl in H1.
    + destruct (IH (fun y w' Hy => Hb y w' (or_intror Hy)) w1)
        as [new2 [H2 [L2 F2]]].
      exists (new1 ++ new2)%list. rewrite H2, H1, List.app_assoc.
      split; [reflexivity|]. split.
      * rewrite length_app. simpl. lia.
      * apply Forall_app. split.
        -- eapply Forall_impl; [|exact F1]. intros q Hq. exists x. simpl. auto.
        -- eapply Forall_impl; [|exact F2]. intros q [y [Hy Hq]].
           exists y. simpl. auto.
    + exists new1. split; [exact H1|]. split; [simpl; lia|].
      eapply Forall_impl; [|exact F1]. intros q Hq. exists x. simpl. auto.
Qed.

Lemma for_each_single_sent {A} (x : A) (body : A -> M K unit) (w : world K) :
  sent (fst (for_each [x] body w)) = sent (fst (body x w)).
Proof.
  simpl. unfold bind. destruct (body x w) as [w1 [u|e]]; reflexivity.
Qed.

Lemma logging_sent level msg (w : world K) :
  sent (fst (logging level msg w)) = sent w.
Proof. reflexivity. Qed.

(** One turn of the membership reconciliation sends the [GET] of the
    journal and at most the [PUT] of its list. *)
Lemma update_step_sent (ji : string * list value) (w : world K) :
  exists new,
    sent (fst (update_journals_and_issues_link serve DeepDiff [ji] w))
    = (sent w ++ new)%list
    /\ (length new <= 2)%nat
    /\ Forall (link_request ji) new.
Proof.
  destruct ji as [j issues].
  unfold update_journals_and_issues_link.
  rewrite (@for_each_cons K). cbv beta iota zeta.
  unfold bind at 1, try_except_AirflowException, bind at 1.
  pose proof (run_sent serve GET (KERNEL_API_JOURNAL_ENDPOINT ++ j) None true w)
    as Hg.
  destruct (HttpHook_run serve GET (KERNEL_API_JOURNAL_ENDPOINT ++ j) None true w)
    as [w1 [r|e]]; simpl in Hg.
  - unfold bind at 1, lift.
    destruct (rbind (response_json r) (fun j0 => py_getitem j0 "items"))
      as [items|e].
    + destruct (DeepDiff false items (VList issues)).
      * unfold bind at 1.
        pose proof (run_sent serve PUT (KERNEL_API_JOURNAL_BUNDLES_ENDPOINT j)
                      (Some (VList issues)) true w1) as Hp.
        destruct (HttpHook_run serve PUT (KERNEL_API_JOURNAL_BUNDLES_ENDPOINT j)
                    (Some (VList issues)) true w1) as [w2 [r2|e2]];
          simpl in Hp;
          [|destruct e2]; simpl;
          (eexists; rewrite Hp, Hg, <- List.app_assoc;
           split; [reflexivity|]; split; [simpl; lia|];
           apply Forall_cons; [now left|];
           apply Forall_cons; [now right | apply Forall_nil]).
      * simpl. exists [get_request (KERNEL_API_JOURNAL_ENDPOINT ++ j)].
        split; [exact Hg|]. split; [simpl; lia|].
        apply Forall_cons; [now left | apply Forall_nil].
    + destruct e; simpl;
        (exists [get_request (KERNEL_API_JOURNAL_ENDPOINT ++ j)];
         split; [exact Hg|]; split; [simpl; lia|];
         apply Forall_cons; [now left | apply Forall_nil]).
  - destruct e; simpl;
      (exists [get_request (KERNEL_API_JOURNAL_ENDPOINT ++ j)];
       split; [exact Hg|]; split; [simpl; lia|];
       apply Forall_cons; [now left | apply Forall_nil]).
Qed.

End LinkMore.

(** X17: whatever the registry answers, the membership reconciliation
    sends, for the journals of the batch only, the [GET] of the journal
    and the [PUT] of its list of issues to the journal's [issues]
    endpoint: at most two requests a journal and never a [PATCH]. *)
Theorem update_link_requests
    (K : Type) (serve : K -> request -> K * reply)
    (DeepDiff : bool -> value -> value -> bool)
    (journal_issues : list (string * list value)) (w : world K) :
  exists new,
    sent (fst (update_journals_and_issues_link serve DeepDiff journal_issues w))
    = (sent w ++ new)%list
    /\ (length new <= 2 * length journal_issues)%nat
    /\ Forall (fun q => exists ji, In ji journal_issues /\ link_request ji q) new
    /\ Forall (fun q => req_method q <> PATCH) new.
Proof.
  pose proof (@for_each_sent K (string * list value) link_request 2 journal_issues
              (fun ji =>
                 let (journal_id, issues) := ji in
                 try_except_AirflowException
                   (bind (HttpHook_run serve GET
                            (KERNEL_API_JOURNAL_ENDPOINT ++ journal_id) None true)
                      (fun response =>
                       bind (lift (rbind (response_json response)
                                     (fun j => py_getitem j "items")))
                         (fun journal_items =>
                          if DeepDiff false journal_items (VList issues) then
                            let BUNDLE_URL :=
                              KERNEL_API_JOURNAL_BUNDLES_ENDPOINT journal_id in
                            bind (HttpHook_run serve PUT BUNDLE_URL
                                    (Some (VList issues)) true)
                              (fun response =>
                               logging INFO
                                 ("updating bundles of journal " ++ journal_id))
                          else ret tt)))
                   (logging WARNING
                      ("journal " ++ journal_id ++ " cannot be found"))))
    as HF.
  lapply HF; [clear HF; intros HF|].
  2:{ intros x w' _. pose proof (update_step_sent serve DeepDiff x w') as H.
      unfold update_journals_and_issues_link in H.
      rewrite for_each_single_sent in H. exact H. }
  destruct (HF w) as [new [Hs [Hl Hf]]].
  exists new. split; [exact Hs|]. split; [exact Hl|]. split; [exact Hf|].
  eapply Forall_impl; [|exact Hf].
  intros q [ji [_ [Hq|Hq]]]; rewrite Hq; discriminate.
Qed.

Section LinkTurn.

Variable K : Type.
Variable serve : K -> request -> K * reply.
Variable DeepDiff : bool -> value -> value -> bool.

Lemma run_checked_ok method endpoint data (w : world K) k' r :
  serve (kernel w) {| req_method := method; req_endpoint := endpoint;
                      req_data := data |} = (k', Responded r) ->
  is_error_status (status_code r) = false ->
  HttpHook_run serve method endpoint data true w
  = (after_request w {| req_method := method; req_endpoint := endpoint;
                        req_data := data |} k', Returned r).
Proof.
  intros H Hc. unfold HttpHook_run. rewrite H.
  unfold is_error_status in Hc. cbn [andb]. rewrite Hc. reflexivity.
Qed.

Lemma run_checked_error method endpoint data (w : world K) k' r :
  serve (kernel w) {| req_method := method; req_endpoint := endpoint;
                      req_data := data |} = (k', Responded r) ->
  is_error_status (status_code r) = true ->
  HttpHook_run serve method endpoint data true w
  = (after_request w {| req_method := method; req_endpoint := endpoint;
                        req_data := data |} k', Raised AirflowException).
Proof.
  intros H Hc. unfold HttpHook_run. rewrite H.
  unfold is_error_status in Hc. cbn [andb]. rewrite Hc. reflexivity.
Qed.

Lemma run_unreachable method endpoint data check (w : world K) k' :
  serve (kernel w) {| req_method := method; req_endpoint := endpoint;
                      req_data := data |} = (k', Unreachable) ->
  HttpHook_run serve method endpoint data check w
  = (after_request w {| req_method := method; req_endpoint := endpoint;
                        req_data := data |} k', Raised ConnectionError).
Proof.
  intros H. unfold HttpHook_run. rewrite H. reflexivity.
Qed.

(** The turn of the loop for a journal whose [GET] is answered without
    an error status and with a list of items. *)
Lemma update_link_turn_found post journal_id issues (w : world K) k1 r b items :
  serve (kernel w) (get_request (KERNEL_API_JOURNAL_ENDPOINT ++ journal_id))
  = (k1, Responded r) ->
  is_error_status (status_code r) = false ->
  body r = Some (VDict b) ->
  lookup "items" b = Some items ->
  update_journals_and_issues_link serve DeepDiff
    ((journal_id, issues) :: post) w
  = if DeepDiff false items (VList issues) then
      match
        try_except_AirflowException
          (bind (HttpHook_run serve PUT
                   (KERNEL_API_JOURNAL_BUNDLES_ENDPOINT journal_id)
                   (Some (VList issues)) true)
                (fun _ => logging INFO
                            ("updating bundles of journal " ++ journal_id)))
          (logging WARNING ("journal " ++ journal_id ++ " cannot be found"))
          (after_request w
             (get_request (KERNEL_API_JOURNAL_ENDPOINT ++ journal_id)) k1)
      with
      | (w', Returned _) =>
          update_journals_and_issues_link serve DeepDiff post w'
      | (w', Raised e) => (w', Raised e)
      end
    else
      update_journals_and_issues_link serve DeepDiff post
        (after_request w
           (get_request (KERNEL_API_JOURNAL_ENDPOINT ++ journal_id)) k1).
Proof.
  intros Hs Hc Hb Hi. unfold update_journals_and_issues_link.
  rewrite (@for_each_cons K). unfold bind at 1. cbv beta iota zeta.
  unfold try_except_AirflowException at 1. unfold bind at 1.
  rewrite (@run_checked_ok GET (KERNEL_API_JOURNAL_ENDPOINT ++ journal_id)
             None w k1 r Hs Hc).
  unfold bind at 1, lift at 1, response_json. rewrite Hb. simpl rbind.
  rewrite Hi.
  destruct (DeepDiff false items (VList issues)); [|reflexivity].
  unfold try_except_AirflowException.
  destruct (bind _ _ _) as [w' [u|e]]; [reflexivity|].
  destruct e; reflexivity.
Qed.

End LinkTurn.

(** X18: for a journal of the batch that the registry has (its [GET] is
    answered without an error status and with a list of items), the
    list of issues is written only when it differs from the registered
    items.  Without a difference the [GET] is the only request and
    nothing is logged; with a difference, a [PUT] of the whole list
    follows, and once it is accepted the update is logged at level INFO.
    In both cases the rest of the batch is processed from there on. *)
Theorem update_link_found_journal
    (K : Type) (serve : K -> request -> K * reply)
    (DeepDiff : bool -> value -> value -> bool)
    (post : list (string * list value))
    (journal_id : string) (issues : list value)
    (w : world K) (k1 : K) (r : response) (b : dict) (items : value) :
  serve (kernel w) (get_request (KERNEL_API_JOURNAL_ENDPOINT ++ journal_id))
  = (k1, Responded r) ->
  is_error_status (status_code r) = false ->
  body r = Some (VDict b) ->
  lookup "items" b = Some items ->
  (DeepDiff false items (VList issues) = false ->
   update_journals_and_issues_link serve DeepDiff
     ((journal_id, issues) :: post) w
   = update_journals_and_issues_link serve DeepDiff post
       {| kernel := k1;
          sent := (sent w
                   ++ [get_request (KERNEL_API_JOURNAL_ENDPOINT ++ journal_id)])%list;
          logged := logged w |})
  /\ (DeepDiff false items (VList issues) = true ->
      forall (k2 : K) (r2 : response),
        serve k1 (put_request (KERNEL_API_JOURNAL_BUNDLES_ENDPOINT journal_id)
                    (VList issues))
        = (k2, Responded r2) ->
        is_error_status (status_code r2) = false ->
        update_journals_and_issues_link serve DeepDiff
          ((journal_id, issues) :: post) w
        = update_journals_and_issues_link serve DeepDiff post
            {| kernel := k2;
               sent := (sent w
                        ++ [get_request (KERNEL_API_JOURNAL_ENDPOINT ++ journal_id);
                            put_request
                              (KERNEL_API_JOURNAL_BUNDLES_ENDPOINT journal_id)
                              (VList issues)])%list;
               logged := (logged w
                          ++ [(INFO,
                               ("updating bundles of journal "
                                ++ journal_id)%string)])%list |}).
Proof.
  intros Hs Hc Hb Hi.
  rewrite (@update_link_turn_found K serve DeepDiff post journal_id issues
             w k1 r b items Hs Hc Hb Hi).
  split; intros Hd; rewrite Hd; [reflexivity|].
  intros k2 r2 Hp Hc2.
  unfold try_except_AirflowException, bind.
  rewrite (@run_checked_ok K serve PUT
             (KERNEL_API_JOURNAL_BUNDLES_ENDPOINT journal_id)
             (Some (VList issues))
             (after_request w
                (get_request (KERNEL_API_JOURNAL_ENDPOINT ++ journal_id)) k1)
             k2 r2 Hp Hc2).
  unfold logging, after_request. simpl. rewrite <- List.app_assoc. reflexivity.
Qed.

Lemma update_link_found_journal_witness :
  update_journals_and_issues_link registry_serve deep_diff
    [("0034-8910", [VStr "0034-8910-2001-v7"])]
    (empty_world [("/journals/0034-8910", VDict [])])
  = update_journals_and_issues_link registry_serve deep_diff []
      {| kernel := [("/journals/0034-8910", VDict []);
                    ("/journals/0034-8910/issues",
                     VList [VStr "0034-8910-2001-v7"])];
         sent := [get_request "/journals/0034-8910";
                  put_request "/journals/0034-8910/issues"
                    (VList [VStr "0034-8910-2001-v7"])];
         logged := [(INFO, "updating bundles of journal 0034-8910")] |}.
Proof.
  exact (proj2 (@update_link_found_journal registry registry_serve deep_diff
                  [] "0034-8910" [VStr "0034-8910-2001-v7"]
                  (empty_world [("/journals/0034-8910", VDict [])])
                  [("/journals/0034-8910", VDict [])]
                  {| status_code := 200;
                     body := Some (VDict [("metadata", VDict []);
                                          ("items", VList [])]) |}
                  [("metadata", VDict []); ("items", VList [])]
                  (VList [])
                  eq_refl eq_refl eq_refl eq_refl)
           eq_refl
           [("/journals/0034-8910", VDict []);
            ("/journals/0034-8910/issues", VList [VStr "0034-8910-2001-v7"])]
           {| status_code := 201; body := Some (VDict []) |}
           eq_refl eq_refl).
Defined.

(** X19: when the registry has the journal and its list differs, but
    the [PUT] of the list is answered with a 4xx or 5xx status, the
    failure is caught: nothing is raised, the log receives the warning
    that the journal cannot be found (although its [GET] succeeded),
    and the rest of the batch is processed. *)
Theorem update_link_rejected_put
    (K : Type) (serve : K -> request -> K * reply)
    (DeepDiff : bool -> value -> value -> bool)
    (post : list (string * list value))
    (journal_id : string) (issues : list value)
    (w : world K) (k1 k2 : K) (r r2 : response) (b : dict) (items : value) :
  serve (kernel w) (get_request (KERNEL_API_JOURNAL_ENDPOINT ++ journal_id))
  = (k1, Responded r) ->
  is_error_status (status_code r) = false ->
  body r = Some (VDict b) ->
  lookup "items" b = Some items ->
  DeepDiff false items (VList issues) = true ->
  serve k1 (put_request (KERNEL_API_JOURNAL_BUNDLES_ENDPOINT journal_id)
              (VList issues))
  = (k2, Responded r2) ->
  is_error_status (status_code r2) = true ->
  update_journals_and_issues_link serve DeepDiff
    ((journal_id, issues) :: post) w
  = update_journals_and_issues_link serve DeepDiff post
      {| kernel := k2;
         sent := (sent w
                  ++ [get_request (KERNEL_API_JOURNAL_ENDPOINT ++ journal_id);
                      put_request
                        (KERNEL_API_JOURNAL_BUNDLES_ENDPOINT journal_id)
                        (VList issues)])%list;
         logged := (logged w
                    ++ [(WARNING,
                         ("journal " ++ journal_id
                          ++ " cannot be found")%string)])%list |}.
Proof.
  intros Hs Hc Hb Hi Hd Hp Hc2.
  rewrite (@update_link_turn_found K serve DeepDiff post journal_id issues
             w k1 r b items Hs Hc Hb Hi).
  rewrite Hd. unfold try_except_AirflowException, bind.
  rewrite (@run_checked_error K serve PUT
             (KERNEL_API_JOURNAL_BUNDLES_ENDPOINT journal_id)
             (Some (VList issues))
             (after_request w
                (get_request (KERNEL_API_JOURNAL_ENDPOINT ++ journal_id)) k1)
             k2 r2 Hp Hc2).
  unfold logging, after_request. simpl. rewrite <- List.app_assoc. reflexivity.
Qed.

Lemma update_link_rejected_put_witness :
  update_journals_and_issues_link read_only_serve deep_diff
    [("0034-8910", [VStr "0034-8910-2001-v7"])]
    (empty_world [("/journals/0034-8910", VDict [])])
  = ({| kernel := [("/journals/0034-8910", VDict [])];
        sent := [get_request "/journals/0034-8910";
                 put_request "/journals/0034-8910/issues"
                   (VList [VStr "0034-8910-2001-v7"])];
        logged := [(WARNING, "journal 0034-8910 cannot be found")] |},
     Returned tt).
Proof.
  exact (@update_link_rejected_put registry read_only_serve deep_diff
           [] "0034-8910" [VStr "0034-8910-2001-v7"]
           (empty_world [("/journals/0034-8910", VDict [])])
           [("/journals/0034-8910", VDict [])]
           [("/journals/0034-8910", VDict [])]
           {| status_code := 200;
              body := Some (VDict [("metadata", VDict []);
                                   ("items", VList [])]) |}
           {| status_code := 403; body := None |}
           [("metadata", VDict []); ("items", VList [])]
           (VList [])
           eq_refl eq_refl eq_refl eq_refl eq_refl eq_refl eq_refl).
Defined.

(** X20: any 4xx or 5xx answer to the [GET] of a journal, a server
    error as well as 404, is handled as a journal that cannot be found:
    a warning is logged, no [PUT] is sent for the journal, nothing is
    raised and the rest of the batch is processed. *)
Theorem update_link_error_status
    (K : Type) (serve : K -> request -> K * reply)
    (DeepDiff : bool -> value -> value -> bool)
    (post : list (string * list value))
    (journal_id : string) (issues : list value)
    (w : world K) (k1 : K) (r : response) :
  serve (kernel w) (get_request (KERNEL_API_JOURNAL_ENDPOINT ++ journal_id))
  = (k1, Responded r) ->
  400 <= status_code r < 600 ->
  update_journals_and_issues_link serve DeepDiff
    ((journal_id, issues) :: post) w
  = update_journals_and_issues_link serve DeepDiff post
      {| kernel := k1;
         sent := (sent w
                  ++ [get_request (KERNEL_API_JOURNAL_ENDPOINT ++ journal_id)])%list;
         logged := (logged w
                    ++ [(WARNING,
                         ("journal " ++ journal_id
                          ++ " cannot be found")%string)])%list |}.
Proof.
  intros Hs Hc. unfold update_journals_and_issues_link.
  rewrite (@for_each_cons K). unfold bind at 1. cbv beta iota zeta.
  unfold try_except_AirflowException at 1. unfold bind at 1.
  assert (He : is_error_status (status_code r) = true).
  { unfold is_error_status. apply andb_true_iff. split.
    - apply Z.leb_le. lia.
    - apply Z.ltb_lt. lia. }
  rewrite (@run_checked_error K serve GET
             (KERNEL_API_JOURNAL_ENDPOINT ++ journal_id) None w k1 r Hs He).
  reflexivity.
Qed.

Lemma update_link_error_status_witness :
  update_journals_and_issues_link (status_serve 500) deep_diff
    [("0034-8910", [VStr "0034-8910-2001-v7"])] (empty_world tt)
  = ({| kernel := tt;
        sent := [get_request "/journals/0034-8910"];
        logged := [(WARNING, "journal 0034-8910 cannot be found")] |},
     Returned tt).
Proof.
  refine (@update_link_error_status unit (status_serve 500) deep_diff
            [] "0034-8910" [VStr "0034-8910-2001-v7"]
            (empty_world tt) tt {| status_code := 500; body := None |}
            eq_refl _).
  simpl. lia.
Defined.

(** X21: failures other than an error status are not caught and abort
    the batch at the journal where they occur, the journals after it
    receiving no request: a registry that cannot be reached raises
    [ConnectionError], an answer without a body [ValueError], and an
    answer whose body has no [items] [KeyError]. *)
Theorem update_link_aborts
    (K : Type) (serve : K -> request -> K * reply)
    (DeepDiff : bool -> value -> value -> bool)
    (post : list (string * list value))
    (journal_id : string) (issues : list value)
    (w : world K) (k1 : K) :
  let get := get_request (KERNEL_API_JOURNAL_ENDPOINT ++ journal_id) in
  let run := update_journals_and_issues_link serve DeepDiff
               ((journal_id, issues) :: post) w in
  (serve (kernel w) get = (k1, Unreachable) ->
   run = (after_request w get k1, Raised ConnectionError))
  /\ (forall r,
         serve (kernel w) get = (k1, Responded r) ->
         is_error_status (status_code r) = false ->
         body r = None ->
         run = (after_request w get k1, Raised ValueError))
  /\ (forall r b,
         serve (kernel w) get = (k1, Responded r) ->
         is_error_status (status_code r) = false ->
         body r = Some (VDict b) ->
         lookup "items" b = None ->
         run = (after_request w get k1, Raised KeyError)).
Proof.
  cbv zeta.
  split; [|split]; intros; unfold update_journals_and_issues_link;
    rewrite (@for_each_cons K); unfold bind at 1; cbv beta iota zeta;
    unfold try_except_AirflowException at 1; unfold bind at 1.
  - rename H into Hs.
    rewrite (@run_unreachable K serve GET
               (KERNEL_API_JOURNAL_ENDPOINT ++ journal_id) None true w k1 Hs).
    reflexivity.
  - rename H into Hs, H0 into Hc, H1 into Hb.
    rewrite (@run_checked_ok K serve GET
               (KERNEL_API_JOURNAL_ENDPOINT ++ journal_id) None w k1 r Hs Hc).
    unfold bind at 1, lift at 1, response_json. rewrite Hb. reflexivity.
  - rename H into Hs, H0 into Hc, H1 into Hb, H2 into Hi.
    rewrite (@run_checked_ok K serve GET
               (KERNEL_API_JOURNAL_ENDPOINT ++ journal_id) None w k1 r Hs Hc).
    unfold bind at 1, lift at 1, response_json. rewrite Hb. simpl rbind.
    rewrite Hi. reflexivity.
Qed.

(* ================================================================== *)
(** * Further properties: the tasks *)

Lemma rmap_raises {A B} (f : A -> result B) (l : list A) x e :
  In x l -> f x = Raised e -> exists e', rmap f l = Raised e'.
Proof.
  induction l as [|a r IH]; simpl; intros Hin Hx; [tauto|].
  destruct (f a) as [y|e0] eqn:Ea; simpl; [|eauto].
  destruct Hin as [Heq|Hin]; [subst a; congruence|].
  destruct (IH Hin Hx) as [e' He']. rewrite He'. simpl. eauto.
Qed.

Lemma rmap_In {A B} (f : A -> result B) (l : list A) ys :
  rmap f l = Returned ys ->
  forall y, In y ys <-> exists x, In x l /\ f x = Returned y.
Proof.
  revert ys. induction l as [|a r IH]; simpl; intros ys H y.
  - inversion H; subst. simpl. split; [tauto | intros [x [[] _]]].
  - destruct (f a) as [b|e] eqn:Ea; [|discriminate]. simpl in H.
    destruct (rmap f r) as [bs|e] eqn:Er; [|discriminate]. simpl in H.
    inversion H; subst ys. clear H. simpl. rewrite (IH bs eq_refl y).
    split.
    + intros [Hy|[x [Hx Hf]]]; [exists a; subst; auto | exists x; auto].
    + intros [x [[Hx|Hx] Hf]]; [subst x; left; congruence | right; eauto].
Qed.

Lemma rmap_length {A B} (f : A -> result B) (l : list A) ys :
  rmap f l = Returned ys -> length ys = length l.
Proof.
  revert ys. induction l as [|a r IH]; simpl; intros ys H.
  - now inversion H.
  - destruct (f a) as [b|e]; [|discriminate]. simpl in H.
    destruct (rmap f r) as [bs|e]; [|discriminate]. simpl in H.
    inversion H; subst ys. simpl. now rewrite (IH bs eq_refl).
Qed.

Lemma rfold_raises {A B} (f : A -> B -> result A) (l : list B) x :
  (forall a, exists e, f a x = Raised e) ->
  In x l -> forall a, exists e', rfold f a l = Raised e'.
Proof.
  intros Hx. induction l as [|b r IH]; simpl; intros Hin a; [tauto|].
  destruct (f a b) as [a'|e0] eqn:Eb; simpl; [|eauto].
  destruct Hin as [Heq|Hin]; [|now apply IH].
  subst b. destruct (Hx a) as [e He]. congruence.
Qed.

Lemma dict_pop_inv (d : dict) k v rest :
  dict_pop d k = Returned (v, rest) ->
  lookup k d = Some v /\ incl rest d /\ ~ In k (keys rest).
Proof.
  unfold dict_pop. destruct (lookup k d) as [x|]; [|discriminate].
  intros H. inversion H; subst. split; [reflexivity|]. split.
  - intros y Hy. apply filter_In in Hy. tauto.
  - unfold keys. rewrite in_map_iff. intros [[k' y] [Hk Hy]].
    apply filter_In in Hy. simpl in *. subst k'.
    rewrite String.eqb_refl in Hy. destruct Hy. discriminate.
Qed.

Section TaskFacts.

Variable K : Type.
Variable serve : K -> request -> K * reply.
Variable DeepDiff : bool -> value -> value -> bool.

(** Registering an entity whose payload was popped of its id. *)
Lemma register_step_sent entity_url id (rest payload : dict) (w : world K) :
  incl rest payload ->
  ~ In "_id" (keys rest) ->
  exists new,
    sent (fst (bind (register_or_update serve DeepDiff id rest entity_url)
                 (fun _ => ret tt) w))
    = (sent w ++ new)%list
    /\ (length new <= 2)%nat
    /\ Forall (entity_request entity_url id payload) new.
Proof.
  intros Hincl Hid.
  destruct (register_or_update_sent serve DeepDiff id rest entity_url w)
    as [extra [Hs He]].
  exists (get_request (entity_url ++ id) :: extra).
  split.
  { unfold bind.
    destruct (register_or_update serve DeepDiff id rest entity_url w)
      as [w1 [r|e]]; exact Hs. }
  assert (Hget : entity_request entity_url id payload
                   (get_request (entity_url ++ id)))
    by (split; [reflexivity | now left]).
  destruct He as [He|[m [d [He [_ Hd]]]]]; subst extra.
  - split; [simpl; lia|]. apply Forall_cons; [exact Hget | apply Forall_nil].
  - split; [simpl; lia|]. apply Forall_cons; [exact Hget|].
    apply Forall_cons; [|apply Forall_nil].
    split; [reflexivity|]. right. exists d. split; [reflexivity|]. split.
    + intros x Hx. apply Hincl, Hd, Hx.
    + unfold keys. rewrite in_map_iff. intros [x [Hk Hx]].
      apply Hid. unfold keys. rewrite in_map_iff. exists x. split; [exact Hk|].
      apply Hd, Hx.
Qed.

End TaskFacts.

(** X22: the issues are all mapped before the first request of
    [process_issues].  When one issue that is neither a press release
    nor ahead of print cannot be mapped, the task raises and has sent
    nothing, also for the issues before it that can be mapped. *)
Theorem process_issues_unreadable_issue
    (K : Type) (serve : K -> request -> K * reply)
    (DeepDiff : bool -> value -> value -> bool)
    (strptime : string -> string -> result datetime)
    (issues : list Issue) (issue : Issue) (e : exn) (w : world K) :
  In issue (filter_issues issues) ->
  issue_as_kernel strptime issue = Raised e ->
  exists e',
    process_issues serve DeepDiff strptime issues w = (w, Raised e').
Proof.
  intros Hin He. unfold process_issues. cbv zeta.
  destruct (rmap_raises (issue_as_kernel strptime) _ _ Hin He) as [e' He'].
  exists e'. unfold bind, lift. rewrite He'. reflexivity.
Qed.

Lemma process_issues_unreadable_issue_witness :
  exists e',
    process_issues registry_serve deep_diff Strptime.strptime
      [sample_issue regular (Some "7") None "2001" "0034-8910" "0";
       undated_issue]
      (empty_world [])
    = (empty_world [], Raised e').
Proof.
  apply (@process_issues_unreadable_issue registry registry_serve deep_diff
           Strptime.strptime
           [sample_issue regular (Some "7") None "2001" "0034-8910" "0";
            undated_issue]
           undated_issue TypeError (empty_world [])).
  - simpl. right. left. reflexivity.
  - reflexivity.
Defined.

(** X23: the membership mapping is built from all the issues before the
    first request of [link_journals_and_issues].  When one issue that is
    neither a press release nor ahead of print cannot be linked (it
    cannot be mapped, or its position or its journal is missing or
    unreadable), the task raises and no journal has been read or
    written. *)
Theorem link_journals_and_issues_unreadable_issue
    (K : Type) (serve : K -> request -> K * reply)
    (DeepDiff : bool -> value -> value -> bool)
    (strptime : string -> string -> result datetime)
    (issues : list Issue) (issue : Issue) (e : exn) (w : world K) :
  In issue (filter_issues issues) ->
  issue_link strptime issue = Raised e ->
  exists e',
    link_journals_and_issues serve DeepDiff strptime issues w = (w, Raised e').
Proof.
  intros Hin He. unfold link_journals_and_issues, mount_journals_issues_link.
  cbv zeta.
  destruct (@rfold_raises _ _ (mount_step strptime) (filter_issues issues) issue)
    with (a := @nil (string * list value)) as [e' He'].
  - intros a. exists e. unfold mount_step. rewrite He. reflexivity.
  - exact Hin.
  - exists e'. unfold bind, lift. rewrite He'. reflexivity.
Qed.

Lemma link_journals_and_issues_unreadable_issue_witness :
  exists e',
    link_journals_and_issues registry_serve deep_diff Strptime.strptime
      [sample_issue regular (Some "7") None "2001" "0034-8910" "0";
       unplaced_issue]
      (empty_world [("/journals/0034-8910", VDict [])])
    = (empty_world [("/journals/0034-8910", VDict [])], Raised e').
Proof.
  apply (@link_journals_and_issues_unreadable_issue registry registry_serve
           deep_diff Strptime.strptime
           [sample_issue regular (Some "7") None "2001" "0034-8910" "0";
            unplaced_issue]
           unplaced_issue KeyError
           (empty_world [("/journals/0034-8910", VDict [])])).
  - simpl. right. left. reflexivity.
  - reflexivity.
Defined.

(** X24: when every issue that is neither a press release nor ahead of
    print can be mapped, [process_issues] sends at most two requests an
    issue, each of them to the bundle endpoint of the id of one of
    these issues, and a body it sends holds bindings of the payload of
    that issue, never its [_id]. *)
Theorem process_issues_requests
    (K : Type) (serve : K -> request -> K * reply)
    (DeepDiff : bool -> value -> value -> bool)
    (strptime : string -> string -> result datetime)
    (issues : list Issue) (payloads : list dict) (w : world K) :
  rmap (issue_as_kernel strptime) (filter_issues issues) = Returned payloads ->
  exists new,
    sent (fst (process_issues serve DeepDiff strptime issues w))
    = (sent w ++ new)%list
    /\ (length new <= 2 * length (filter_issues issues))%nat
    /\ Forall
         (fun q =>
            exists issue payload id,
              In issue (filter_issues issues)
              /\ issue_as_kernel strptime issue = Returned payload
              /\ lookup "_id" payload = Some (VStr id)
              /\ entity_request KERNEL_API_BUNDLES_ENDPOINT id payload q)
         new.
Proof.
  intros Hmap. unfold process_issues. cbv zeta.
  unfold bind at 1, lift at 1. rewrite Hmap.
  pose proof (@for_each_sent K dict
                (fun payload q =>
                   exists id,
                     lookup "_id" payload = Some (VStr id)
                     /\ entity_request KERNEL_API_BUNDLES_ENDPOINT id payload q)
                2 payloads
                (fun issue =>
                   bind (lift (dict_pop issue "_id")) (fun popped =>
                   let (_id, issue) := popped in
                   match _id with
                   | VStr _id =>
                       bind (register_or_update serve DeepDiff _id issue
                               KERNEL_API_BUNDLES_ENDPOINT)
                            (fun _ => ret tt)
                   | _ => lift (Raised TypeError)
                   end))) as HF.
  lapply HF; [clear HF; intros HF|].
  - destruct (HF w) as [new [Hs [Hl Hf]]]. exists new.
    split; [exact Hs|]. split; [now rewrite <- (rmap_length _ _ Hmap)|].
    eapply Forall_impl; [|exact Hf].
    intros q [payload [Hin [id [Hid Hq]]]].
    apply (rmap_In _ _ Hmap) in Hin. destruct Hin as [issue [Hin Hp]].
    exists issue, payload, id. auto.
  - intros payload w' Hin.
    apply (rmap_In _ _ Hmap) in Hin. destruct Hin as [issue [_ Hp]].
    destruct (issue_as_kernel_inv _ _ Hp) as [season [id [Hseason Hpay]]].
    destruct (publication_season_list _ Hseason) as [l Hl]. subst season.
    destruct (issue_payload_pop issue l id) as [rest [Hpop _]].
    rewrite <- Hpay in Hpop.
    destruct (dict_pop_inv _ _ Hpop) as [Hid [Hincl Hno]].
    unfold bind at 1, lift at 1. rewrite Hpop. cbv beta iota.
    destruct (@register_step_sent K serve DeepDiff KERNEL_API_BUNDLES_ENDPOINT
                id rest payload w' Hincl Hno) as [new [Hs [Hlen Hf]]].
    exists new. split; [exact Hs|]. split; [exact Hlen|].
    eapply Forall_impl; [|exact Hf]. intros q Hq. exists id. auto.
Qed.

Lemma process_issues_requests_witness :
  exists new,
    sent (fst (process_issues registry_serve deep_diff Strptime.strptime
                 [sample_issue regular (Some "7") None "2001" "0034-8910" "0";
                  sample_issue ahead None None "2001" "0034-8910" "1"]
                 (empty_world [])))
    = (sent (empty_world (K := registry) []) ++ new)%list
    /\ (length new
        <= 2 * length
                 (filter_issues
                    [sample_issue regular (Some "7") None "2001" "0034-8910" "0";
                     sample_issue ahead None None "2001" "0034-8910" "1"]))%nat
    /\ Forall
         (fun q =>
            exists issue payload id,
              In issue
                (filter_issues
                   [sample_issue regular (Some "7") None "2001" "0034-8910" "0";
                    sample_issue ahead None None "2001" "0034-8910" "1"])
              /\ issue_as_kernel Strptime.strptime issue = Returned payload
              /\ lookup "_id" payload = Some (VStr id)
              /\ entity_request KERNEL_API_BUNDLES_ENDPOINT id payload q)
         new.
Proof.
  eapply (@process_issues_requests registry registry_serve deep_diff
            Strptime.strptime
            [sample_issue regular (Some "7") None "2001" "0034-8910" "0";
             sample_issue ahead None None "2001" "0034-8910" "1"]).
  vm_compute. reflexivity.
Defined.

(** X25: [process_journals] sends at most two requests a journal, each
    of them to the journal endpoint of the id of one of the journals
    (its SciELO ISSN), and a body it sends holds bindings of the payload
    of that journal, never its [_id]. *)
Theorem process_journals_requests
    (K : Type) (serve : K -> request -> K * reply)
    (DeepDiff : bool -> value -> value -> bool)
    (journals : list Journal) (w : world K) :
  exists new,
    sent (fst (process_journals serve DeepDiff journals w))
    = (sent w ++ new)%list
    /\ (length new <= 2 * length journals)%nat
    /\ Forall
         (fun q =>
            exists journal,
              In journal journals
              /\ entity_request KERNEL_API_JOURNAL_ENDPOINT
                   (journal_id_of journal) (journal_as_kernel journal) q)
         new.
Proof.
  unfold process_journals. cbv zeta.
  pose proof (@for_each_sent K dict
                (fun payload q =>
                   exists journal,
                     In journal journals
                     /\ entity_request KERNEL_API_JOURNAL_ENDPOINT
                          (journal_id_of journal) (journal_as_kernel journal) q)
                2 (map journal_as_kernel journals)
                (fun journal =>
                   bind (lift (dict_pop journal "_id")) (fun popped =>
                   let (_id, journal) := popped in
                   bind (lift (format_id _id)) (fun _id =>
                   bind (register_or_update serve DeepDiff _id journal
                           KERNEL_API_JOURNAL_ENDPOINT)
                        (fun _ => ret tt))))) as HF.
  lapply HF; [clear HF; intros HF|].
  - destruct (HF w) as [new [Hs [Hl Hf]]]. exists new.
    split; [exact Hs|]. split; [now rewrite length_map in Hl|].
    eapply Forall_impl; [|exact Hf].
    intros q [payload [_ Hq]]. exact Hq.
  - intros payload w' Hin. apply in_map_iff in Hin.
    destruct Hin as [journal [Hp Hin]]. subst payload.
    destruct (journal_payload_pop journal) as [rest [Hpop _]].
    destruct (dict_pop_inv _ _ Hpop) as [_ [Hincl Hno]].
    unfold bind at 1, lift at 1. rewrite Hpop. cbv beta iota.
    assert (Hfmt : format_id (value_of_option (scielo_issn journal))
                   = Returned (journal_id_of journal))
      by (unfold journal_id_of; destruct (scielo_issn journal); reflexivity).
    unfold bind at 1, lift at 1. rewrite Hfmt.
    destruct (@register_step_sent K serve DeepDiff KERNEL_API_JOURNAL_ENDPOINT
                (journal_id_of journal) rest (journal_as_kernel journal) w'
                Hincl Hno) as [new [Hs [Hlen Hf]]].
    exists new. split; [exact Hs|]. split; [exact Hlen|].
    eapply Forall_impl; [|exact Hf]. intros q Hq. exists journal. auto.
Qed.

(* ================================================================== *)
(** * Further properties: the membership mapping *)

Lemma py_eq_VStr v s : py_eq v (VStr s) = true -> v = VStr s.
Proof.
  destruct v; simpl; try discriminate.
  intros H. apply String.eqb_eq in H. now subst.
Qed.

Lemma py_in_VStr s (g : list value) :
  py_in (VStr s) g = true <-> In (VStr s) g.
Proof.
  unfold py_in. rewrite existsb_exists. split.
  - intros [y [Hy He]]. apply py_eq_VStr in He. now subst.
  - intros H. exists (VStr s). split; [exact H|]. simpl. apply String.eqb_refl.
Qed.

Lemma insert_at_Add {A} (l : list A) (p : Z) (x : A) :
  Add x l (insert_at l p x).
Proof.
  unfold insert_at. cbv zeta.
  set (n := Z.to_nat _).
  rewrite <- (firstn_skipn n l) at 1. apply Add_app.
Qed.

Lemma In_place s (g : list value) p v :
  In v (place g p (VStr s)) <-> In v g \/ v = VStr s.
Proof.
  unfold place. destruct (py_in (VStr s) g) eqn:E.
  - apply py_in_VStr in E. split; [tauto|]. intros [H|H]; [exact H | now subst].
  - rewrite (Add_in (insert_at_Add g p (VStr s))). simpl.
    split; intros [H|H]; auto.
Qed.

Lemma NoDup_place s (g : list value) p :
  NoDup g -> NoDup (place g p (VStr s)).
Proof.
  intros H. unfold place. destruct (py_in (VStr s) g) eqn:E; [exact H|].
  apply (NoDup_Add (insert_at_Add g p (VStr s))). split; [exact H|].
  intros Hin. apply py_in_VStr in Hin. congruence.
Qed.

Lemma group_of_In j links :
  string_ids links ->
  forall g v,
    In v (group_of j links g) <-> In v g \/ exists p, In (v, p, j) links.
Proof.
  induction links as [|[[i p] j'] r IH]; intros Hs g v.
  - simpl. split; [tauto | intros [H|[p []]]; exact H].
  - assert (Hr : string_ids r)
      by (intros v0 p0 j0 H0; apply (Hs v0 p0 j0); now right).
    destruct (Hs i p j' (or_introl eq_refl)) as [s Hi]. subst i.
    rewrite group_of_step.
    destruct (String.eqb j' j) eqn:E.
    + apply String.eqb_eq in E. subst j'.
      rewrite (IH Hr), In_place. split.
      * intros [[H|H]|[q H]]; [now left | | right; exists q; now right].
        subst v. right. exists p. now left.
      * intros [H|[q [H|H]]]; [now left; left | | right; now exists q].
        inversion H; subst. left. now right.
    + apply String.eqb_neq in E. rewrite (IH Hr). split.
      * intros [H|[q H]]; [now left | right; exists q; now right].
      * intros [H|[q [H|H]]]; [now left | | right; now exists q].
        inversion H; subst. congruence.
Qed.

Lemma group_of_NoDup j links :
  string_ids links ->
  forall g, NoDup g -> NoDup (group_of j links g).
Proof.
  induction links as [|[[i p] j'] r IH]; intros Hs g Hg; [exact Hg|].
  assert (Hr : string_ids r)
    by (intros v0 p0 j0 H0; apply (Hs v0 p0 j0); now right).
  destruct (Hs i p j' (or_introl eq_refl)) as [s Hi]. subst i.
  rewrite group_of_step.
  apply (IH Hr). destruct (String.eqb j' j); [now apply NoDup_place | exact Hg].
Qed.

Lemma has_journal_In j (links : list (value * Z * string)) :
  has_journal j links = true <-> exists v p, In (v, p, j) links.
Proof.
  unfold has_journal. rewrite existsb_exists. split.
  - intros [[[v p] j'] [Hin He]]. simpl in He. apply String.eqb_eq in He.
    subst j'. eauto.
  - intros [v [p Hin]]. exists (v, p, j). split; [exact Hin|].
    simpl. apply String.eqb_refl.
Qed.

Lemma lookup_Some_keys {V} (d : list (string * V)) k :
  In k (keys d) -> exists v, lookup k d = Some v.
Proof.
  induction d as [|[k' w] r IH]; simpl; [tauto|].
  destruct (String.eqb k' k) eqn:E; [eauto|].
  apply String.eqb_neq in E. intros [H|H]; [congruence | now apply IH].
Qed.

Lemma keys_dict_set_bound {V} (d : list (string * V)) k v w :
  lookup k d = Some w -> keys (dict_set d k v) = keys d.
Proof.
  induction d as [|[k' x] r IH]; simpl; [discriminate|].
  destruct (String.eqb k' k); [reflexivity|].
  intros H. simpl. now rewrite IH.
Qed.

Lemma NoDup_keys_setdefault {V} (d : list (string * V)) k v :
  NoDup (keys d) -> NoDup (keys (setdefault d k v)).
Proof.
  intros H. unfold setdefault. destruct (lookup k d) as [x|] eqn:E; [exact H|].
  unfold keys. rewrite map_app. simpl.
  apply (NoDup_Add (a := k) (l := map fst d)).
  - rewrite <- (List.app_nil_r (map fst d)) at 1. apply Add_app.
  - split; [exact H|]. intros Hin.
    destruct (lookup_Some_keys d k Hin) as [x Hx]. congruence.
Qed.

Lemma rfold_invariant {A B} (P : A -> Prop) (f : A -> B -> result A)
    (l : list B) :
  (forall a x a', P a -> f a x = Returned a' -> P a') ->
  forall a b, P a -> rfold f a l = Returned b -> P b.
Proof.
  intros Hf. induction l as [|x r IH]; simpl; intros a b Ha H.
  - inversion H. now subst.
  - destruct (f a x) as [a'|e] eqn:E; [|discriminate].
    apply (IH a' b); [now apply (Hf a x a') | exact H].
Qed.

Section MappingFacts.

Variable strptime : string -> string -> result datetime.

Lemma issue_link_string_id issue v p j :
  issue_link strptime issue = Returned (v, p, j) -> exists s, v = VStr s.
Proof.
  unfold issue_link. intros H.
  apply rbind_Returned in H. destruct H as [[i rest] [Hpop H]].
  apply rbind_Returned in Hpop. destruct Hpop as [payload [Hp Hpop]].
  destruct (issue_as_kernel_inv _ _ Hp) as [season [id [Hseason Hpay]]].
  destruct (publication_season_list _ Hseason) as [l Hl]. subst season.
  destruct (issue_payload_pop issue l id) as [rest' [Hpop' _]].
  rewrite <- Hpay in Hpop'. rewrite Hpop' in Hpop. inversion Hpop; subst.
  apply rbind_Returned in H. destruct H as [pos [_ H]].
  apply rbind_Returned in H. destruct H as [jid [_ H]].
  inversion H. eauto.
Qed.

Lemma rmap_issue_link_string_ids l links :
  rmap (issue_link strptime) l = Returned links -> string_ids links.
Proof.
  intros H v p j Hin. apply (rmap_In _ _ H) in Hin.
  destruct Hin as [issue [_ Hl]]. exact (issue_link_string_id _ Hl).
Qed.

(** The mapping a build returns, journal by journal. *)
Lemma mount_journals_issues_link_lookup issues d :
  mount_journals_issues_link strptime issues = Returned d ->
  exists links,
    rmap (issue_link strptime) (filter_issues issues) = Returned links
    /\ forall j, lookup j d
                 = if has_journal j links
                   then Some (group_of j links [])
                   else None.
Proof.
  unfold mount_journals_issues_link. cbv zeta. intros H.
  destruct (@rfold_mount_Returned strptime (filter_issues issues) [] d H)
    as [links [Hl Hlook]].
  exists links. split; [exact Hl | exact Hlook].
Qed.

Lemma mount_step_keys d issue d' :
  NoDup (keys d) ->
  mount_step strptime d issue = Returned d' -> NoDup (keys d').
Proof.
  intros Hd. unfold mount_step.
  destruct (issue_link strptime issue) as [[[i p] j]|e]; [|discriminate].
  simpl.
  pose proof (NoDup_keys_setdefault d j (@nil value) Hd) as Hs.
  destruct (lookup j (setdefault d j [])) as [g|] eqn:E; [|discriminate].
  destruct (negb (py_in i g)); [|intros H; inversion H; subst; exact Hs].
  destruct (list_insert g p i) as [g'|e]; [|discriminate]. simpl.
  intros H; inversion H; subst.
  now rewrite (@keys_dict_set_bound _ (setdefault d j []) j g' g E).
Qed.

End MappingFacts.

(** X26: the mapping that [mount_journals_issues_link] returns holds,
    for every journal, exactly the ids of the issues of the source that
    are neither press releases nor ahead of print and name that journal
    in [v35]: no id is lost, whatever the declared positions, and no id
    is listed under another journal. *)
Theorem mount_journals_issues_link_members
    (strptime : string -> string -> result datetime)
    (issues : list Issue) (d : list (string * list value)) :
  mount_journals_issues_link strptime issues = Returned d ->
  forall (j : string) (v : value),
    In v (members d j)
    <-> exists issue p,
          In issue (filter_issues issues)
          /\ issue_link strptime issue = Returned (v, p, j).
Proof.
  intros H j v.
  destruct (@mount_journals_issues_link_lookup strptime issues d H) as [links [Hl Hlook]].
  pose proof (@rmap_issue_link_string_ids strptime _ _ Hl) as Hs.
  assert (Hlinks : (exists p, In (v, p, j) links)
                   <-> exists issue p,
                         In issue (filter_issues issues)
                         /\ issue_link strptime issue = Returned (v, p, j)).
  { split.
    - intros [p Hin]. apply (rmap_In _ _ Hl) in Hin.
      destruct Hin as [issue [Hin Hi]]. eauto.
    - intros [issue [p [Hin Hi]]]. exists p. apply (rmap_In _ _ Hl). eauto. }
  rewrite <- Hlinks. unfold members. rewrite Hlook.
  destruct (has_journal j links) eqn:E.
  - rewrite (@group_of_In j links Hs). simpl. tauto.
  - simpl. split; [tauto|]. intros [p Hin].
    assert (Ht : has_journal j links = true)
      by (apply has_journal_In; eauto).
    congruence.
Qed.

Lemma mount_journals_issues_link_members_witness :
  In (VStr "0034-8910-2002-v8") (members sample_links "0034-8910")
  <-> exists issue p,
        In issue (filter_issues sample_issues)
        /\ issue_link Strptime.strptime issue
           = Returned (VStr "0034-8910-2002-v8", p, "0034-8910").
Proof.
  exact (@mount_journals_issues_link_members Strptime.strptime
           sample_issues sample_links eq_refl
           "0034-8910" (VStr "0034-8910-2002-v8")).
Defined.

(** X27: the mapping that [mount_journals_issues_link] returns has one
    entry a journal and no id twice in a list, also when the source
    lists an issue more than once. *)
Theorem mount_journals_issues_link_no_duplicates
    (strptime : string -> string -> result datetime)
    (issues : list Issue) (d : list (string * list value)) :
  mount_journals_issues_link strptime issues = Returned d ->
  NoDup (keys d)
  /\ forall (j : string) (g : list value), lookup j d = Some g -> NoDup g.
Proof.
  intros H. split.
  - unfold mount_journals_issues_link in H. cbv zeta in H.
    apply (@rfold_invariant _ _ (fun d0 => NoDup (keys d0))
             (mount_step strptime) (filter_issues issues)
             (fun a x a' Ha Hx => @mount_step_keys strptime a x a' Ha Hx)
             [] d); [constructor | exact H].
  - intros j g Hg.
    destruct (@mount_journals_issues_link_lookup strptime issues d H) as [links [Hl Hlook]].
    pose proof (@rmap_issue_link_string_ids strptime _ _ Hl) as Hs.
    rewrite Hlook in Hg. destruct (has_journal j links); [|discriminate].
    inversion Hg. apply (@group_of_NoDup j links Hs). constructor.
Qed.

Lemma mount_journals_issues_link_no_duplicates_witness :
  NoDup (keys sample_links)
  /\ NoDup [VStr "0034-8910-2001-v7"; VStr "0034-8910-2002-v8"].
Proof.
  exact (conj
           (proj1 (@mount_journals_issues_link_no_duplicates Strptime.strptime
                     sample_issues_twice sample_links eq_refl))
           (proj2 (@mount_journals_issues_link_no_duplicates Strptime.strptime
                     sample_issues_twice sample_links eq_refl)
              "0034-8910"
              [VStr "0034-8910-2001-v7"; VStr "0034-8910-2002-v8"] eq_refl)).
Defined.
